(** * Sales analytics pipeline: aggregation, detectors, loader and orchestration

    A shallow embedding of the Python sources
    - [python/streamlit_app.py]  (revenue_by_region, top_customers,
      detect_outliers, suggest_columns),
    - [python/demo_mode.py]      (DemoDataGenerator.generate_kpi_results),
    - [python/analytics/insight_generator.py] (detect_outliers, detect_trends,
      generate_summary_insights),
    - [python/data_loader/csv_loader.py], [oracle_connector.py],
    - [python/analytics/kpi_calculator.py], [data_validator.py], [python/main.py],
    - [python/utils/logger.py], [python/visualization/report_generator.py]
      and [python/web_app.py].

    Numbers.  Amounts and KPI values are float64 columns in pandas and
    doubles in numpy: they are binary64 here ([PrimFloat]), with the sums
    that pandas and numpy compute (pairwise summation for [Series.sum],
    [mean] and [std]; Kahan's compensated summation for [groupby.sum]) and
    the IEEE results of division by zero.  The sums that Oracle computes on
    NUMBER columns (the text report) are exact rationals [Q]. *)

From Stdlib Require Import List ZArith QArith Qround Qabs Bool String Ascii Lia Lqa.
From Stdlib Require Import Permutation Sorted.
From Stdlib Require Import Floats Uint63.
Import ListNotations.

Set Implicit Arguments.
Local Open Scope Z_scope.

(** ** Python results: a value or a raised exception *)

Module Py.

Inductive exn : Type :=
| FileNotFoundError
| ValueError (msg : string)
| MissingColumns (cols : list string)   (* ValueError("Missing required columns: ...") *)
| TypeError
| DatabaseError (what : string)
| OSError (what : string).

Inductive outcome (A : Type) : Type :=
| Return (a : A)
| Raise (e : exn).
Arguments Return {A} a.
Arguments Raise {A} e.

Definition bind {A B} (m : outcome A) (k : A -> outcome B) : outcome B :=
  match m with
  | Return a => k a
  | Raise e => Raise e
  end.

(** [try: body except Exception: handler] *)
Definition try_except {A} (body : outcome A) (handler : exn -> outcome A) : outcome A :=
  match body with
  | Return a => Return a
  | Raise e => handler e
  end.

Fixpoint mapM {A B} (f : A -> outcome B) (l : list A) : outcome (list B) :=
  match l with
  | [] => Return []
  | x :: t => bind (f x) (fun y => bind (mapM f t) (fun ys => Return (y :: ys)))
  end.

End Py.

(** ** numpy on binary64 arrays *)

Module Numpy.

(** [x != x]: only NaN differs from itself. *)
Definition isnan (x : float) : bool := negb (PrimFloat.eqb x x).

(** [np.isfinite]. *)
Definition isfinite (x : float) : bool := PrimFloat.ltb (PrimFloat.abs x) PrimFloat.infinity.

(** [len(a)] as a double. *)
Definition flen {A} (a : list A) : float :=
  PrimFloat.of_uint63 (Uint63.of_Z (Z.of_nat (List.length a))).

(** [res += a[i]] over a run of elements. *)
Definition add_loop (res : float) (a : list float) : float :=
  fold_left PrimFloat.add a res.

(** The eight accumulators [r[0..7]] of the unrolled loop: each adds every
    eighth element. *)
Fixpoint add_lanes (r a : list float) : list float :=
  match r, a with
  | x :: r', y :: a' => PrimFloat.add x y :: add_lanes r' a'
  | _, _ => r
  end.

Fixpoint unrolled (blocks : nat) (r a : list float) : list float * list float :=
  match blocks with
  | O => (r, a)
  | S k => unrolled k (add_lanes r (firstn 8 a)) (skipn 8 a)
  end.

Definition lane (r : list float) (i : nat) : float := nth i r 0%float.

(** A block of 8 to 128 elements: the accumulators are loaded with the
    first eight elements, take the further groups of eight, are added as
    [((r0+r1)+(r2+r3))+((r4+r5)+(r6+r7))], and the last [n mod 8] elements
    are added one by one. *)
Definition pairwise_block (a : list float) : float :=
  let n := List.length a in
  let '(r, rest) := unrolled (n / 8 - 1) (firstn 8 a) (skipn 8 a) in
  let res := PrimFloat.add
               (PrimFloat.add (PrimFloat.add (lane r 0) (lane r 1))
                              (PrimFloat.add (lane r 2) (lane r 3)))
               (PrimFloat.add (PrimFloat.add (lane r 4) (lane r 5))
                              (PrimFloat.add (lane r 6) (lane r 7))) in
  add_loop res rest.

(** numpy's pairwise summation (DOUBLE_pairwise_sum): fewer than 8 elements
    are added from left to right, starting at -0.0; up to 128 elements are
    one block; a longer array is split in two parts, the first of
    [n/2 - (n/2) mod 8] elements, which are summed separately.  [depth]
    bounds the number of splits; the length of the array is enough. *)
Fixpoint pairwise_sum (depth : nat) (a : list float) : float :=
  let n := List.length a in
  if (n <? 8)%nat then add_loop (-0)%float a
  else if (n <=? 128)%nat then pairwise_block a
  else match depth with
       | O => pairwise_block a
       | S d =>
           let n2 := (n / 2 - (n / 2) mod 8)%nat in
           PrimFloat.add (pairwise_sum d (firstn n2 a)) (pairwise_sum d (skipn n2 a))
       end.

(** [a.sum()] of a one-dimensional float64 array ([np.add.reduce]): the
    pairwise sum is added to the identity 0.0. *)
Definition sum (a : list float) : float :=
  PrimFloat.add 0%float (pairwise_sum (List.length a) a).

(** *** [np.argsort(kind='quicksort')]: the introsort of npysort/quicksort.cpp
    (the scalar code, which hardware-specific builds may replace) *)

Section Argsort.
Variable A : Type.
(** [Tag::less] on the keys, the key array [v] and a filler for reads
    outside of it (there are none). *)
Variable less : A -> A -> bool.
Variable v : list A.
Variable filler : A.

Definition key (i : nat) : A := nth i v filler.

(** [*p] and [*p = x] on the index array [tosort]. *)
Definition get (tosort : list nat) (p : Z) : nat := nth (Z.to_nat p) tosort 0%nat.

Fixpoint set_nth (tosort : list nat) (p : nat) (x : nat) : list nat :=
  match tosort, p with
  | [], _ => []
  | _ :: t, O => x :: t
  | h :: t, S p' => h :: set_nth t p' x
  end.

Definition set (tosort : list nat) (p : Z) (x : nat) : list nat :=
  set_nth tosort (Z.to_nat p) x.

(** [INTP_SWAP( *p, *q )]. *)
Definition swap (tosort : list nat) (p q : Z) : list nat :=
  set (set tosort p (get tosort q)) q (get tosort p).

(** [less(v[*p], v[*q])]. *)
Definition less_at (tosort : list nat) (p q : Z) : bool :=
  less (key (get tosort p)) (key (get tosort q)).

(** [do { ++pi; } while (less(v[*pi], vp));] *)
Fixpoint scan_up (fuel : nat) (tosort : list nat) (vp : A) (pi : Z) : Z :=
  match fuel with
  | O => pi
  | S f =>
      let pi := pi + 1 in
      if less (key (get tosort pi)) vp then scan_up f tosort vp pi else pi
  end.

(** [do { --pj; } while (less(vp, v[*pj]));] *)
Fixpoint scan_down (fuel : nat) (tosort : list nat) (vp : A) (pj : Z) : Z :=
  match fuel with
  | O => pj
  | S f =>
      let pj := pj - 1 in
      if less vp (key (get tosort pj)) then scan_down f tosort vp pj else pj
  end.

(** The [for (;;)] of the partition: scan, stop when the scans meet,
    otherwise swap and go on. *)
Fixpoint partition_loop (fuel : nat) (tosort : list nat) (vp : A) (pi pj : Z)
  : list nat * Z :=
  match fuel with
  | O => (tosort, pi)
  | S f =>
      let pi := scan_up (List.length tosort) tosort vp pi in
      let pj := scan_down (List.length tosort) tosort vp pj in
      if pj <=? pi then (tosort, pi)
      else partition_loop f (swap tosort pi pj) vp pi pj
  end.

(** One partition of [pl..pr]: the median of three goes to [pr - 1], the
    scans run, and the pivot is put in its place [pi], which is returned. *)
Definition partition (tosort : list nat) (pl pr : Z) : list nat * Z :=
  let pm := pl + Z.shiftr (pr - pl) 1 in
  let tosort := if less_at tosort pm pl then swap tosort pm pl else tosort in
  let tosort := if less_at tosort pr pm then swap tosort pr pm else tosort in
  let tosort := if less_at tosort pm pl then swap tosort pm pl else tosort in
  let vp := key (get tosort pm) in
  let tosort := swap tosort pm (pr - 1) in
  let '(tosort, pi) := partition_loop (List.length tosort) tosort vp pl (pr - 1) in
  (swap tosort pi (pr - 1), pi).

(** [while (pj > pl && less(vp, v[*pk])) { *pj-- = *pk--; }] *)
Fixpoint shift (fuel : nat) (tosort : list nat) (pl : Z) (vp : A) (pj : Z)
  : list nat * Z :=
  match fuel with
  | O => (tosort, pj)
  | S f =>
      if (pl <? pj) && less vp (key (get tosort (pj - 1)))
      then shift f (set tosort pj (get tosort (pj - 1))) pl vp (pj - 1)
      else (tosort, pj)
  end.

(** The insertion sort of [pl..pr]. *)
Definition insertion_sort (tosort : list nat) (pl pr : Z) : list nat :=
  fold_left (fun tosort pi =>
               let vi := get tosort pi in
               let '(tosort, pj) := shift (List.length tosort) tosort pl (key vi) pi in
               set tosort pj vi)
            (map (fun k => pl + 1 + Z.of_nat k) (seq 0 (Z.to_nat (pr - pl))))
            tosort.

(** The heap sort that takes over when the partitions are too deep; [a]
    is the index array counted from 1. *)
Fixpoint sift (fuel : nat) (a : list nat) (tmp : nat) (i j n : Z) : list nat :=
  match fuel with
  | O => set a (i - 1) tmp
  | S f =>
      if j <=? n then
        let j := if (j <? n) && less (key (get a (j - 1))) (key (get a j))
                 then j + 1 else j in
        if less (key tmp) (key (get a (j - 1)))
        then sift f (set a (i - 1) (get a (j - 1))) tmp j (j + j) n
        else set a (i - 1) tmp
      else set a (i - 1) tmp
  end.

Definition heapsort (a : list nat) : list nat :=
  let n := Z.of_nat (List.length a) in
  let a := fold_left (fun a l => sift (List.length a) a (get a (l - 1)) l (2 * l) n)
                     (map (fun k => Z.shiftr n 1 - Z.of_nat k)
                          (seq 0 (Z.to_nat (Z.shiftr n 1))))
                     a in
  fold_left (fun a n =>
               let tmp := get a (n - 1) in
               let a := set a (n - 1) (get a 0) in
               sift (List.length a) a tmp 1 2 (n - 1))
            (map (fun k => n - Z.of_nat k) (seq 0 (Z.to_nat (n - 1))))
            a.

Definition heapsort_segment (tosort : list nat) (pl pr : Z) : list nat :=
  let before := firstn (Z.to_nat pl) tosort in
  let segment := firstn (Z.to_nat (pr - pl + 1)) (skipn (Z.to_nat pl) tosort) in
  let after := skipn (Z.to_nat (pr + 1)) tosort in
  before ++ heapsort segment ++ after.

(** The introsort [aquicksort_]: a partition taken from the stack is heap
    sorted when its depth budget is used up ([popped]); otherwise it is
    partitioned while it has more than 17 elements, the larger part going
    to the stack and the smaller being partitioned on, and insertion
    sorted when it has 17 or fewer. *)
Fixpoint quicksort (fuel : nat) (popped : bool) (tosort : list nat) (pl pr cdepth : Z)
  : list nat :=
  match fuel with
  | O => tosort
  | S f =>
      if popped && (cdepth <? 0) then heapsort_segment tosort pl pr
      else if 16 <? pr - pl then
        let '(tosort, pi) := partition tosort pl pr in
        let cdepth := cdepth - 1 in
        if pi - pl <? pr - pi
        then let tosort := quicksort f false tosort pl (pi - 1) cdepth in
             quicksort f true tosort (pi + 1) pr cdepth
        else let tosort := quicksort f false tosort (pi + 1) pr cdepth in
             quicksort f true tosort pl (pi - 1) cdepth
      else insertion_sort tosort pl pr
  end.

(** [np.argsort(v, kind='quicksort')]. *)
Definition argsort : list nat :=
  let num := List.length v in
  quicksort (S num) true (seq 0 num) 0 (Z.of_nat num - 1) (2 * Z.log2 (Z.of_nat num)).

End Argsort.

End Numpy.

(** ** The pandas operations the sources call *)

Module Pandas.

(** *** Reductions of a float64 column (pandas.core.nanops, without the
    optional bottleneck package; libgroupby for the groups) *)

(** The values with NaN replaced by 0, and the number of values that are
    not NaN, as a double. *)
Definition fillna0 (values : list float) : list float :=
  map (fun x => if Numpy.isnan x then 0%float else x) values.

Definition count (values : list float) : float :=
  Numpy.flen (filter (fun x => negb (Numpy.isnan x)) values).

(** [Series.sum()] (skipna, min_count = 0). *)
Definition Series_sum (values : list float) : float := Numpy.sum (fillna0 values).

(** [Series.mean()]: [the_sum / count if count > 0 else nan]. *)
Definition Series_mean (values : list float) : float :=
  if PrimFloat.ltb 0%float (count values)
  then PrimFloat.div (Numpy.sum (fillna0 values)) (count values)
  else PrimFloat.nan.

(** [Series.std(ddof)]: the square root of the two-pass variance
    [((avg - values) ** 2).sum() / (count - ddof)], with 0 in the place of
    every NaN value; NaN when [count <= ddof]. *)
Definition Series_std (ddof : nat) (values : list float) : float :=
  let ddof := PrimFloat.of_uint63 (Uint63.of_Z (Z.of_nat ddof)) in
  let short := PrimFloat.leb (count values) ddof in
  let d := if short then PrimFloat.nan else PrimFloat.sub (count values) ddof in
  let count := if short then PrimFloat.nan else count values in
  let avg := PrimFloat.div (Numpy.sum (fillna0 values)) count in
  let sqr := map (fun x => if Numpy.isnan x then 0%float
                           else PrimFloat.mul (PrimFloat.sub avg x) (PrimFloat.sub avg x))
                 values in
  PrimFloat.sqrt (PrimFloat.div (Numpy.sum sqr) d).

(** The sum of one group in [groupby(...).sum()] (libgroupby.group_sum):
    Kahan's compensated summation over the values that are not NaN, in row
    order; a compensation that has become NaN is reset to 0. *)
Definition kahan_step (acc : float * float) (val : float) : float * float :=
  let (sumx, compensation) := acc in
  if Numpy.isnan val then acc
  else
    let y := PrimFloat.sub val compensation in
    let t := PrimFloat.add sumx y in
    let c := PrimFloat.sub (PrimFloat.sub t sumx) y in
    (t, if Numpy.isnan c then 0%float else c).

Definition group_sum (values : list float) : float :=
  fst (fold_left kahan_step values (0%float, 0%float)).

(** *** The exact sum of a NUMBER column, as Oracle's [SUM] computes it *)
Definition Qsum (l : list Q) : Q := fold_right Qplus 0%Q l.

(** Keys of a [groupby]: a decidable total order (groups come out sorted). *)
Class OrdKey (K : Type) : Type := {
  key_leb : K -> K -> bool;
  key_leb_total : forall a b, key_leb a b = true \/ key_leb b a = true;
  key_leb_trans : forall a b c, key_leb a b = true -> key_leb b c = true -> key_leb a c = true;
  key_leb_antisym : forall a b, key_leb a b = true -> key_leb b a = true -> a = b
}.

Definition key_eqb {K} `{OrdKey K} (a b : K) : bool := key_leb a b && key_leb b a.

#[export] Instance OrdKey_Z : OrdKey Z.
Proof.
  refine {| key_leb := Z.leb |}; intros; rewrite ?Z.leb_le in *; lia.
Defined.

(** Two grouping columns: lexicographic order of the pair. *)
Definition pair_leb {A B} `{OrdKey A} `{OrdKey B} (p q : A * B) : bool :=
  if key_leb (fst p) (fst q)
  then (if key_leb (fst q) (fst p) then key_leb (snd p) (snd q) else true)
  else false.

#[export] Instance OrdKey_pair {A B} `{OrdKey A} `{OrdKey B} : OrdKey (A * B).
Proof.
  refine {| key_leb := pair_leb |}; unfold pair_leb.
  - intros [a1 b1] [a2 b2]; simpl.
    destruct (key_leb_total a1 a2) as [E|E], (key_leb_total b1 b2) as [F|F];
      rewrite ?E, ?F; destruct (key_leb a1 a2), (key_leb a2 a1); auto.
  - intros [a1 b1] [a2 b2] [a3 b3]; simpl.
    destruct (key_leb a1 a2) eqn:E12; [|discriminate].
    destruct (key_leb a2 a3) eqn:E23; [|intros _ F; discriminate F].
    rewrite (key_leb_trans _ _ _ E12 E23).
    destruct (key_leb a3 a1) eqn:E31; auto.
    rewrite (key_leb_trans _ _ _ E31 E12), (key_leb_trans _ _ _ E23 E31).
    apply key_leb_trans.
  - intros [a1 b1] [a2 b2]; simpl.
    destruct (key_leb a1 a2) eqn:E12; [|discriminate].
    destruct (key_leb a2 a1) eqn:E21; [|discriminate].
    intros F1 F2. f_equal; apply key_leb_antisym; auto.
Defined.

(** [dropna=False]: the NaN key is a group of its own, placed last. *)
Definition nan_last_leb {A} `{OrdKey A} (p q : option A) : bool :=
  match p, q with
  | Some a, Some b => key_leb a b
  | Some _, None => true
  | None, Some _ => false
  | None, None => true
  end.

#[export] Instance OrdKey_nan_last {A} `{OrdKey A} : OrdKey (option A).
Proof.
  refine {| key_leb := nan_last_leb |}.
  - intros [a|] [b|]; simpl; auto. apply key_leb_total.
  - intros [a|] [b|] [c|]; simpl; auto; try discriminate. apply key_leb_trans.
  - intros [a|] [b|]; simpl; auto; try discriminate.
    intros; f_equal; apply key_leb_antisym; auto.
Defined.

(** The sorted, duplicate-free key index of a [groupby]. *)
Fixpoint insert_key {K} `{OrdKey K} (k : K) (l : list K) : list K :=
  match l with
  | [] => [k]
  | h :: t =>
      if key_leb k h
      then (if key_leb h k then l else k :: l)
      else h :: insert_key k t
  end.

Definition group_keys {K} `{OrdKey K} (ks : list K) : list K :=
  fold_right insert_key [] ks.

(** [df.groupby(key)[val].agg().reset_index()] on rows given as (key, value):
    one row per key, in key order, with the aggregate of the key's values. *)
Definition groupby_agg {K V R} `{OrdKey K} (agg : list V -> R) (rows : list (K * V))
  : list (K * R) :=
  map (fun k => (k, agg (map snd (filter (fun r => key_eqb (fst r) k) rows))))
      (group_keys (map fst rows)).

(** [groupby]'s default [dropna=True]: rows whose key is NaN are left out. *)
Fixpoint dropna_keys {K V} (rows : list (option K * V)) : list (K * V) :=
  match rows with
  | [] => []
  | (Some k, v) :: t => (k, v) :: dropna_keys t
  | (None, _) :: t => dropna_keys t
  end.

(** The position of a column label among [df.columns]. *)
Fixpoint column_index (c : string) (cols : list string) : option nat :=
  match cols with
  | [] => None
  | h :: t => if String.eqb c h then Some 0%nat
              else option_map S (column_index c t)
  end.

(** [DataFrame.head(n)]: the first [n] rows; for negative [n], all rows
    except the last [|n|]. *)
Definition head {A} (n : Z) (l : list A) : list A :=
  if 0 <=? n then firstn (Z.to_nat n) l
  else firstn (List.length l - Z.to_nat (- n))%nat l.

(** [sort_values] with the default [kind='quicksort']: pandas documents the
    result as ordered by the key, and only [mergesort]/[stable] as stable.
    The interface is therefore the contract "an ordered permutation";
    [leb a b = true] reads "a may stand before b". *)
Class SortValues : Type := {
  sort_values : forall {A : Type}, (A -> A -> bool) -> list A -> list A;
  sort_values_perm : forall (A : Type) (leb : A -> A -> bool) (l : list A),
      Permutation (sort_values leb l) l;
  sort_values_sorted : forall (A : Type) (leb : A -> A -> bool),
      (forall a b, leb a b = true \/ leb b a = true) ->
      (forall a b c, leb a b = true -> leb b c = true -> leb a c = true) ->
      forall l, StronglySorted (fun a b => leb a b = true) (sort_values leb l)
}.

(** A stable sort (insertion sort): what [kind='mergesort'] and
    [Series.nlargest] (keep='first') guarantee. *)
Fixpoint stable_insert {A} (leb : A -> A -> bool) (x : A) (l : list A) : list A :=
  match l with
  | [] => [x]
  | h :: t => if leb x h then x :: l else h :: stable_insert leb x t
  end.

Definition stable_sort {A} (leb : A -> A -> bool) (l : list A) : list A :=
  fold_right (stable_insert leb) [] l.

(** The order of [sort_values(ascending=False)] and of [nlargest] on a
    float64 column: [x] may stand before [y] when [y] is NaN (NaN is put
    last), or when neither is NaN and [y <= x]. *)
Definition desc_na_last (x y : float) : bool :=
  Numpy.isnan y || (negb (Numpy.isnan x) && PrimFloat.leb y x).

(** [Series.nlargest(n)] (keep='first'), as pandas computes it: empty for
    [n <= 0]; when [n] reaches the length of the series, the "slow method"
    [sort_values(ascending=False).head(n)]; otherwise the selection of the
    [n] largest values, which keeps equal values in order of appearance
    and puts NaN last. *)
Definition nlargest {K} `{SortValues} (n : Z) (s : list (K * float)) : list (K * float) :=
  let desc := fun a b : K * float => desc_na_last (snd a) (snd b) in
  if n <=? 0 then []
  else if Z.of_nat (List.length s) <=? n
       then head n (sort_values desc s)
       else firstn (Z.to_nat n) (stable_sort desc s).

(** [sort_values(ascending=False)] with the default [kind='quicksort'], as
    [nargsort] computes it: the items are reversed, argsorted in ascending
    order with numpy's quicksort, and the indexer is reversed.  [leb] is
    the order wanted ("may stand before"), so that in the ascending argsort
    [x] is less than [y] when [x] may not stand before [y].  The result is
    the indexer into the reversed items and the sorted items. *)
Definition descending_indexer {A} (leb : A -> A -> bool) (l : list A) : list nat :=
  match l with
  | [] => []
  | filler :: _ => Numpy.argsort (fun x y => negb (leb x y)) (rev l) filler
  end.

Definition sort_descending {A} (leb : A -> A -> bool) (l : list A) : list A :=
  match l with
  | [] => []
  | filler :: _ => rev (map (fun i => nth i (rev l) filler) (descending_indexer leb l))
  end.

End Pandas.

(** ** The aggregator: KPI families computed from the transaction table *)

Module Aggregator.
Import Pandas.

(** A row of the transaction table; the amount columns are float64. *)
Record Transaction : Type := {
  transaction_date : Z;            (* timestamp, in seconds *)
  customer_id : Z;
  product_id : Z;
  quantity : float;
  unit_price : float;
  total_amount : float;
  region_id : option Z;            (* None: a null / NaN region *)
  discount_percentage : float
}.

Inductive kpi_name : Type :=
| REVENUE_BY_REGION | MONTHLY_REVENUE_TREND | TOP_CUSTOMERS
| PRODUCT_PERFORMANCE | AVG_TRANSACTION_VALUE.

(** A row of KPI_RESULTS.  KPI_VALUE is an Oracle NUMBER in the table (an
    exact decimal, [KPIResult]) and a Python float once a query has fetched
    it (binary64, [KPIRow]). *)
Record KPIRecord (V : Type) : Type := {
  KPI_NAME : kpi_name;
  KPI_VALUE : V;
  KPI_DATE : Z;
  REGION_ID : option Z
}.

Arguments KPI_NAME {V} _.
Arguments KPI_VALUE {V} _.
Arguments KPI_DATE {V} _.
Arguments REGION_ID {V} _.

Abbreviation KPIResult := (KPIRecord Q).
Abbreviation KPIRow := (KPIRecord float).

(** [TRANSACTION_DATE.dt.date]: the day of a timestamp. *)
Definition dt_date (t : Transaction) : Z := transaction_date t / 86400.

(** streamlit_app.py, compute_kpis: [df["TOTAL_AMOUNT"].sum()]. *)
Definition total_revenue (df : list Transaction) : float :=
  Series_sum (map total_amount df).

(** streamlit_app.py, revenue_by_region:
    [df.groupby("REGION_ID", dropna=False)["TOTAL_AMOUNT"].sum().reset_index()]. *)
Definition revenue_by_region (df : list Transaction) : list (option Z * float) :=
  groupby_agg group_sum (map (fun t => (region_id t, total_amount t)) df).

(** demo_mode.py, generate_kpi_results, lines 93-102:
    [groupby(['REGION_ID', TRANSACTION_DATE.dt.date])['TOTAL_AMOUNT'].sum()]
    with the default [dropna=True], one KPI row per (region, day) bucket. *)
Definition region_day_key (t : Transaction) : option (Z * Z) :=
  match region_id t with
  | Some r => Some (r, dt_date t)
  | None => None
  end.

Definition demo_revenue_by_region (df : list Transaction) : list KPIRow :=
  map (fun b => {| KPI_NAME := REVENUE_BY_REGION;
                   KPI_VALUE := snd b;
                   KPI_DATE := snd (fst b);
                   REGION_ID := Some (fst (fst b)) |})
      (groupby_agg group_sum
         (dropna_keys (map (fun t => (region_day_key t, total_amount t)) df))).

(** The customer buckets [df.groupby("CUSTOMER_ID")["TOTAL_AMOUNT"].sum()]. *)
Definition revenue_by_customer (df : list Transaction) : list (Z * float) :=
  groupby_agg group_sum (map (fun t => (customer_id t, total_amount t)) df).

(** "REVENUE" descending, NaN last: [a] may stand before [b]. *)
Definition revenue_desc (a b : Z * float) : bool := desc_na_last (snd a) (snd b).

(** streamlit_app.py, top_customers:
    [groupby ... .sort_values("REVENUE", ascending=False).head(n)]. *)
Definition top_customers `{SortValues} (df : list Transaction) (n : Z)
  : list (Z * float) :=
  head n (sort_values revenue_desc (revenue_by_customer df)).

(** demo_mode.py, generate_kpi_results, line 116:
    [groupby('CUSTOMER_ID')['TOTAL_AMOUNT'].sum().nlargest(10)]. *)
Definition demo_top_customers `{SortValues} (df : list Transaction) : list (Z * float) :=
  nlargest 10 (revenue_by_customer df).

(** The number of distinct customer ids ([nunique]). *)
Definition distinct_customers (df : list Transaction) : nat :=
  List.length (nodup Z.eq_dec (map customer_id df)).

End Aggregator.

(** ** The insight generator: percent-of-mean outliers and trend statements *)

Module InsightGenerator.
Import Py Pandas Aggregator.

(** [config['kpi_thresholds']], read with [dict.get(key, default)]. *)
Record Thresholds : Type := {
  revenue_anomaly_percentage : option float;
  trend_detection_periods : option nat
}.

Definition get {A} (entry : option A) (default : A) : A :=
  match entry with Some v => v | None => default end.

Definition kpi_name_eqb (a b : kpi_name) : bool :=
  match a, b with
  | REVENUE_BY_REGION, REVENUE_BY_REGION
  | MONTHLY_REVENUE_TREND, MONTHLY_REVENUE_TREND
  | TOP_CUSTOMERS, TOP_CUSTOMERS
  | PRODUCT_PERFORMANCE, PRODUCT_PERFORMANCE
  | AVG_TRANSACTION_VALUE, AVG_TRANSACTION_VALUE => true
  | _, _ => false
  end.

Definition date_desc (a b : KPIRow) : bool := KPI_DATE b <=? KPI_DATE a.
Definition date_asc (a b : KPIRow) : bool := KPI_DATE a <=? KPI_DATE b.

(** [SELECT ... FROM KPI_RESULTS WHERE KPI_NAME = :kpi_name ORDER BY KPI_DATE DESC];
    the database's ORDER BY is again an ordered permutation. *)
Definition select_kpi (db_sort : SortValues) (table : list KPIRow)
  (name : kpi_name) : list KPIRow :=
  @sort_values db_sort _ date_desc
    (filter (fun r => kpi_name_eqb (KPI_NAME r) name) table).

(** insight_generator.py, detect_outliers.  [db] is what the connection
    yields: the rows of KPI_RESULTS as fetched, or the error raised by
    connect/execute.  The arithmetic is that of a float64 column: the mean
    is [Series.mean()], the band is computed in binary64 and a NaN never
    compares.  ([std_value] is computed and never used; it is left out.) *)
Definition detect_outliers (db_sort : SortValues) (thresholds : Thresholds)
  (db : outcome (list KPIRow)) (name : kpi_name) (threshold_percent : option float)
  : outcome (list KPIRow) :=
  let threshold_percent :=
    match threshold_percent with
    | Some t => t
    | None => get (revenue_anomaly_percentage thresholds) 20%float
    end in
  bind db (fun table =>
    let results := select_kpi db_sort table name in
    match results with
    | [] => Return []
    | _ =>
        let mean_value := Series_mean (map KPI_VALUE results) in
        let threshold := (mean_value * (threshold_percent / 100))%float in
        Return (filter (fun r =>
                          PrimFloat.ltb (mean_value + threshold)%float (KPI_VALUE r)
                          || PrimFloat.ltb (KPI_VALUE r) (mean_value - threshold)%float)
                       results)
    end).

Inductive direction : Type := increasing | decreasing.

(** The three strings [detect_trends] returns:
    "Insufficient data for trend analysis",
    "Trend: <trend> (<change_percent>% change over <periods> periods)",
    "No clear trend detected".
    [change_percent] is the double that the second string prints with two
    decimals (inf and nan print as "inf" and "nan"). *)
Inductive trend_report : Type :=
| InsufficientData
| Trend (trend : direction) (change_percent : float) (periods : nat)
| NoClearTrend.

(** The query of detect_trends: the same select,
    [FETCH FIRST :periods ROWS ONLY]. *)
Definition select_recent (db_sort : SortValues) (table : list KPIRow)
  (name : kpi_name) (periods : nat) : list KPIRow :=
  firstn periods (select_kpi db_sort table name).

(** The window that is analysed: [df.sort_values('KPI_DATE')]. *)
Definition trend_window (db_sort pd_sort : SortValues) (table : list KPIRow)
  (name : kpi_name) (periods : nat) : list KPIRow :=
  @sort_values pd_sort _ date_asc (select_recent db_sort table name periods).

(** insight_generator.py, detect_trends.  [values = df['KPI_VALUE'].values]
    is a numpy array, so the comparison, the difference, the quotient and
    the product are numpy's on doubles: a zero [values[0]] gives inf or
    nan, not an exception. *)
Definition detect_trends (db_sort pd_sort : SortValues) (thresholds : Thresholds)
  (db : outcome (list KPIRow)) (name : kpi_name) (periods : option nat)
  : outcome trend_report :=
  let periods :=
    match periods with
    | Some p => p
    | None => get (trend_detection_periods thresholds) 3%nat
    end in
  bind db (fun table =>
    let results := select_recent db_sort table name periods in
    if (List.length results <? periods)%nat then Return InsufficientData
    else
      let df := @sort_values pd_sort _ date_asc results in
      let values := map KPI_VALUE df in
      if (2 <=? List.length values)%nat then
        let first := List.hd 0%float values in
        let last := List.last values 0%float in
        let trend := if PrimFloat.ltb first last then increasing else decreasing in
        let change_percent := (((last - first) / first) * 100)%float in
        Return (Trend trend change_percent periods)
      else Return NoClearTrend).

(** The lines [generate_summary_insights] collects:
    "Found <n> revenue outliers by region", "Monthly Revenue: <trend>",
    "Top customers analysis available for last 7 days". *)
Inductive insight : Type :=
| RevenueOutliers (n : nat)
| MonthlyRevenue (trend : trend_report)
| TopCustomersAvailable.

(** The summary: the lines joined by newlines, or the fallback text
    "No significant insights detected". *)
Inductive summary : Type :=
| Joined (insights : list insight)
| NoSignificantInsights.

(** [SELECT COUNT( * ) FROM KPI_RESULTS WHERE KPI_NAME = 'TOP_CUSTOMERS'
    AND KPI_DATE >= SYSDATE - 7]. *)
Definition recent_top_customers (sysdate : Z) (table : list KPIRow) : nat :=
  List.length (filter (fun r => kpi_name_eqb (KPI_NAME r) TOP_CUSTOMERS
                                && (sysdate - 7 <=? KPI_DATE r))
                      table).

(** insight_generator.py, generate_summary_insights.  The method opens
    three connections, one in each detector and one of its own; [db1],
    [db2] and [db3] are what each of them yields. *)
Definition generate_summary_insights (db_sort pd_sort : SortValues)
  (thresholds : Thresholds) (sysdate : Z) (db1 db2 db3 : outcome (list KPIRow))
  : outcome summary :=
  bind (detect_outliers db_sort thresholds db1 REVENUE_BY_REGION None) (fun outliers =>
  let insights := match outliers with
                  | [] => []
                  | _ => [RevenueOutliers (List.length outliers)]
                  end in
  bind (detect_trends db_sort pd_sort thresholds db2 MONTHLY_REVENUE_TREND None) (fun trend =>
  let insights := insights ++ [MonthlyRevenue trend] in
  bind db3 (fun table =>
  let insights := if (0 <? recent_top_customers sysdate table)%nat
                  then insights ++ [TopCustomersAvailable]
                  else insights in
  Return (match insights with
          | [] => NoSignificantInsights
          | _ => Joined insights
          end)))).

End InsightGenerator.

(** ** The dashboard's z-score detector on daily aggregates *)

Module Dashboard.
Import Py Pandas.

(** A cell of an uploaded table: a double, a text, or missing. *)
Inductive cell : Type :=
| CNum (x : float)
| CStr (s : string)
| CNone.

Record DataFrame : Type := {
  columns : list string;
  rows : list (list cell)
}.

(** The table the detector returns: [pd.DataFrame()] has no column and no
    row; the scored table has the two selected columns, Z_SCORE and
    IS_OUTLIER. *)
Record OutlierRecord : Type := {
  bucket_date : Z;
  value : float;
  Z_SCORE : float;
  IS_OUTLIER : bool
}.

Record OutlierFrame : Type := {
  out_columns : list string;
  out_rows : list OutlierRecord
}.

Definition empty_frame : OutlierFrame := {| out_columns := []; out_rows := [] |}.

(** [len(frame)]. *)
Definition len (f : OutlierFrame) : nat := List.length (out_rows f).

Definition has_column (df : DataFrame) (c : string) : bool :=
  existsb (String.eqb c) (columns df).

(** A short line of the file is padded with missing cells. *)
Definition cell_at (df : DataFrame) (c : string) (row : list cell) : cell :=
  match column_index c (columns df) with
  | Some i => nth i row CNone
  | None => CNone
  end.

(** [pd.isna] on a cell. *)
Definition isna (c : cell) : bool :=
  match c with
  | CNone => true
  | CNum x => PrimFloat.is_nan x
  | CStr _ => false
  end.

(** Arithmetic on a cell: text and missing cells make pandas raise. *)
Definition numeric (c : cell) : outcome float :=
  match c with
  | CNum x => Return x
  | _ => Raise TypeError
  end.

(** [sort_values(value_col, ascending=False)]. *)
Definition value_desc (a b : OutlierRecord) : bool := PrimFloat.leb (value b) (value a).

(** [not col]: [None] or the empty string. *)
Definition falsy (col : option string) : bool :=
  match col with
  | None => true
  | Some s => String.eqb s EmptyString
  end.

Section Detector.

(** [pd.to_datetime(cell, errors="coerce")]: a timestamp, or NaT. *)
Variable to_datetime : cell -> option Z.

(** [tmp.dropna(subset=[date_col, value_col])] after the dates were parsed. *)
Fixpoint dropna (tmp : list (option Z * cell)) : list (Z * cell) :=
  match tmp with
  | [] => []
  | (Some d, v) :: t => if isna v then dropna t else (d, v) :: dropna t
  | (None, _) :: t => dropna t
  end.

(** Lines 177-180: select the two columns, parse the dates, drop the rows
    with a missing date or value, and sum the values of each date
    ([groupby(date_col)[value_col].sum()], a compensated sum per date).
    Selecting one column twice hands [to_datetime] a two-column table, which
    raises; so does adding up cells that are not numbers. *)
Definition daily_revenue (df : DataFrame) (date_col value_col : string)
  : outcome (list (Z * float)) :=
  if String.eqb date_col value_col then Raise (ValueError "to assemble mappings")
  else
    let tmp := map (fun r => (to_datetime (cell_at df date_col r), cell_at df value_col r))
                   (rows df) in
    let tmp := dropna tmp in
    bind (mapM (fun dv => bind (numeric (snd dv)) (fun x => Return (fst dv, x))) tmp)
         (fun kept => Return (groupby_agg group_sum kept)).

(** Lines 183-185: the z-score of every bucket and its flag; the mean is
    [Series.mean()], the deviation [Series.std(ddof=0)]. *)
Definition score (threshold : float) (revenue : list (Z * float)) : list OutlierRecord :=
  let mean := Series_mean (map snd revenue) in
  let std := Series_std 0 (map snd revenue) in
  map (fun dv =>
         let z := PrimFloat.div (PrimFloat.sub (snd dv) mean) std in
         {| bucket_date := fst dv; value := snd dv; Z_SCORE := z;
            IS_OUTLIER := PrimFloat.ltb threshold (PrimFloat.abs z) |})
      revenue.

(** The body of the [try]. *)
Definition detect_outliers_body (sorter : SortValues) (df : DataFrame)
  (date_col value_col : string) (threshold : float) : outcome OutlierFrame :=
  bind (daily_revenue df date_col value_col) (fun revenue =>
    if (List.length revenue <? 3)%nat then Return empty_frame
    else
      Return {| out_columns := [date_col; value_col; "Z_SCORE"; "IS_OUTLIER"]%string;
                out_rows := @sort_values sorter _ value_desc
                              (filter IS_OUTLIER (score threshold revenue)) |}).

(** streamlit_app.py, detect_outliers. *)
Definition detect_outliers (sorter : SortValues) (df : DataFrame)
  (date_col value_col : option string) (threshold : float) : outcome OutlierFrame :=
  if falsy date_col || falsy value_col then Return empty_frame
  else
    match date_col, value_col with
    | Some dc, Some vc =>
        if negb (has_column df dc) || negb (has_column df vc) then Return empty_frame
        else try_except (detect_outliers_body sorter df dc vc threshold)
                        (fun _ => Return empty_frame)
    | _, _ => Return empty_frame
    end.

End Detector.

(** The default [threshold=2.5]. *)
Definition default_threshold : float := 2.5%float.

End Dashboard.

(** ** The population z-score of the specification *)

(** Written from the specification's words, not from the detector: the
    z-score of a value within a series is [|value - mean| / stddev], where
    the mean is the sum of the series over the number of its points and the
    standard deviation is that of the population (the square root of the
    mean squared deviation: the divisor is the number of points, not one
    less).  The arithmetic is binary64, the sum that of a float64 array. *)
Module PopulationStatistics.

Definition mean (series : list float) : float :=
  (Numpy.sum series / Numpy.flen series)%float.




End PopulationStatistics.

(** ** streamlit_app.py: suggest_columns *)

Module ColumnSuggestions.

(** What the function asks of a column: the family of its dtype, whether
    [pd.to_datetime] accepts its values, and the dtype of what it then
    returns (datetime64, or object for values with mixed UTC offsets). *)
Inductive dtype : Type :=
| numeric          (* is_numeric_dtype: integers, floats, booleans *)
| datetime64       (* is_datetime64_any_dtype *)
| object           (* is_object_dtype *)
| categorical      (* is_categorical_dtype *)
| other.           (* timedelta, period, ... *)

Record Column : Type := {
  label : string;
  dt : dtype;
  to_datetime_ok : bool;
  to_datetime_dtype : dtype
}.

(** A frame, by its columns in order (labels are distinct, as the readers
    of [load_data] make them). *)
Definition Frame : Type := list Column.

(** [c.lower()] on the letters A-Z. *)
Definition lower_ascii (a : ascii) : ascii :=
  let n := nat_of_ascii a in
  if ((65 <=? n) && (n <=? 90))%nat then ascii_of_nat (n + 32) else a.

Fixpoint lower (s : string) : string :=
  match s with
  | EmptyString => EmptyString
  | String a rest => String (lower_ascii a) (lower rest)
  end.

(** [needle in s]. *)
Fixpoint contains (needle s : string) : bool :=
  String.prefix needle s
  || match s with
     | EmptyString => false
     | String _ rest => contains needle rest
     end.

(** ["date" in c.lower()]. *)
Definition date_like (c : string) : bool := contains "date" (lower c).

Definition is_numeric_dtype (c : Column) : bool :=
  match dt c with numeric => true | _ => false end.

Definition is_datetime64_any_dtype (c : Column) : bool :=
  match dt c with datetime64 => true | _ => false end.

Definition is_categorical (c : Column) : bool :=
  match dt c with object | categorical => true | _ => false end.

(** The loop over the columns: it stops at the first date-like label, and
    converts that column in place when [pd.to_datetime] accepts it. *)
Fixpoint parse_first_date_like (df : Frame) : Frame * list string :=
  match df with
  | [] => ([], [])
  | c :: rest =>
      if date_like (label c) then
        if to_datetime_ok c
        then ({| label := label c; dt := to_datetime_dtype c;
                 to_datetime_ok := true;
                 to_datetime_dtype := to_datetime_dtype c |} :: rest,
              [label c])
        else (df, [])
      else
        let (rest', found) := parse_first_date_like rest in
        (c :: rest', found)
  end.

(** streamlit_app.py, suggest_columns: the frame as the call leaves it
    (the argument is modified in place) and the returned triple. *)
Definition suggest_columns (df : Frame)
  : Frame * (option string * option string * list string) :=
  let num_cols := map label (filter is_numeric_dtype df) in
  let date_cols := map label (filter is_datetime64_any_dtype df) in
  let (df', date_cols) :=
    match date_cols with
    | [] => parse_first_date_like df
    | _ => (df, date_cols)
    end in
  let cat_cols := map label (filter is_categorical df') in
  (df', (List.hd_error date_cols, List.hd_error num_cols, firstn 3 cat_cols)).

End ColumnSuggestions.

(** ** The CSV loader and the Oracle connector *)

Module CSVLoader.
Import Py Pandas.

(** A cell of the table read from the file: a number, a text, a timestamp
    (after [pd.to_datetime]) or a missing value (NaN / NaT). *)
Inductive cell : Type :=
| Missing
| Num (q : Q)
| Text (s : string)
| Timestamp (t : Z).

(** The file on disk: a header line and the data lines. *)
Record CsvFile : Type := {
  header : list string;
  lines : list (list cell)
}.

Record DataFrame : Type := {
  columns : list string;
  rows : list (list cell)
}.

(** The tuple bound to [:1 .. :8] of the INSERT. *)
Record SalesTuple : Type := {
  t_transaction_date : cell;
  t_customer_id : Z;
  t_product_id : Z;
  t_quantity : Q;
  t_unit_price : Q;
  t_total_amount : Q;
  t_region_id : option Z;          (* None is bound as NULL *)
  t_discount_percentage : Q
}.

(** What the loader can touch: the input directory, the archive directory
    and the committed rows of SALES_TRANSACTIONS. *)
Record World : Type := {
  input_dir : list (string * CsvFile);
  archive_dir : list (string * CsvFile);
  sales_transactions : list SalesTuple
}.

Fixpoint lookup {A} (name : string) (dir : list (string * A)) : option A :=
  match dir with
  | [] => None
  | (n, f) :: t => if String.eqb name n then Some f else lookup name t
  end.

Fixpoint remove {A} (name : string) (dir : list (string * A)) : list (string * A) :=
  match dir with
  | [] => []
  | (n, f) :: t => if String.eqb name n then t else (n, f) :: remove name t
  end.

(** [pd.read_csv] with its defaults.  Blank lines are skipped
    ([skip_blank_lines=True]).  The first data line fixes the width of the
    table: when it has more fields than the header, the leading fields are
    taken as the index and are not columns.  A shorter line is padded with
    NaN; a later line with more fields than the width is a parser error. *)
Definition pad (n : nat) (line : list cell) : list cell :=
  line ++ repeat Missing (n - List.length line).

Definition blank (line : list cell) : bool :=
  match line with [] => true | _ => false end.

Definition data_lines (f : CsvFile) : list (list cell) :=
  filter (fun l => negb (blank l)) (lines f).

Definition width (f : CsvFile) : nat :=
  match data_lines f with
  | [] => List.length (header f)
  | first :: _ => Nat.max (List.length (header f)) (List.length first)
  end.

Definition read_csv (f : CsvFile) : outcome DataFrame :=
  let n := List.length (header f) in
  if forallb (fun l => (List.length l <=? width f)%nat) (data_lines f)
  then Return {| columns := header f;
                 rows := map (fun l => skipn (width f - n) (pad (width f) l))
                             (data_lines f) |}
  else Raise (ValueError "Error tokenizing data").

Definition has_column (df : DataFrame) (c : string) : bool :=
  existsb (String.eqb c) (columns df).

(** [row[c]] for a column of the table. *)
Definition cell_at (df : DataFrame) (c : string) (row : list cell) : cell :=
  match column_index c (columns df) with
  | Some i => nth i row Missing
  | None => Missing
  end.

(** [row.get(c)]: [None] when the table has no such column. *)
Definition row_get (df : DataFrame) (c : string) (row : list cell) : option cell :=
  if has_column df c then Some (cell_at df c row) else None.

Fixpoint set_nth (i : nat) (v : cell) (row : list cell) : list cell :=
  match i, row with
  | _, [] => []
  | O, _ :: t => v :: t
  | S i, h :: t => h :: set_nth i v t
  end.

Definition required_columns : list string :=
  ["transaction_date"; "customer_id"; "product_id";
   "quantity"; "unit_price"; "total_amount"]%string.

(** [[col for col in required_columns if col not in df.columns]]. *)
Definition missing_columns (df : DataFrame) : list string :=
  filter (fun c => negb (has_column df c)) required_columns.

(** [df.fillna(0)]. *)
Definition fill0 (c : cell) : cell :=
  match c with
  | Missing => Num 0
  | _ => c
  end.

Definition fillna0 (df : DataFrame) : DataFrame :=
  {| columns := columns df; rows := map (map fill0) (rows df) |}.

(** [pd.notna]. *)
Definition notna (c : cell) : bool :=
  match c with Missing => false | _ => true end.

(** [int(x)] on a number truncates towards zero. *)
Definition trunc (q : Q) : Z := if Qle_bool 0 q then Qfloor q else Qceiling q.

Section Loader.

(** Reading texts: [pd.to_datetime], [int(...)] and [float(...)] on a string. *)
Variable parse_date : string -> option Z.
Variable int_of_text : string -> option Z.
Variable float_of_text : string -> option Q.
(** The database: whether [cx_Oracle.connect] succeeds, and whether
    [executemany] accepts a batch. *)
Variable connect_ok : bool.
Variable db_accepts : list SalesTuple -> bool.
(** The archive file name, [<stem>_<now>.csv]. *)
Variable archive_name : string -> string.
(** The file system: whether [archive_path.mkdir] and [csv_path.rename]
    succeed. *)
Variable archive_ok : bool.

Definition to_datetime (c : cell) : outcome cell :=
  match c with
  | Missing => Return Missing
  | Timestamp t => Return (Timestamp t)
  | Num q => Return (Timestamp (Qfloor q))
  | Text s =>
      match parse_date s with
      | Some t => Return (Timestamp t)
      | None => Raise (ValueError "Unknown datetime string format")
      end
  end.

(** [df['transaction_date'] = pd.to_datetime(df['transaction_date'])]. *)
Definition convert_transaction_date (df : DataFrame) : outcome DataFrame :=
  match column_index "transaction_date" (columns df) with
  | Some i =>
      bind (mapM (fun row => bind (to_datetime (nth i row Missing))
                               (fun d => Return (set_nth i d row)))
                 (rows df))
           (fun rows' => Return {| columns := columns df; rows := rows' |})
  | None => Raise (ValueError "KeyError: transaction_date")
  end.

Definition py_int (c : cell) : outcome Z :=
  match c with
  | Num q => Return (trunc q)
  | Text s =>
      match int_of_text s with
      | Some z => Return z
      | None => Raise (ValueError "invalid literal for int()")
      end
  | Timestamp _ => Raise TypeError
  | Missing => Raise (ValueError "cannot convert float NaN to integer")
  end.

Definition py_float (c : cell) : outcome Q :=
  match c with
  | Num q => Return q
  | Text s =>
      match float_of_text s with
      | Some q => Return q
      | None => Raise (ValueError "could not convert string to float")
      end
  | Timestamp _ => Raise TypeError
  | Missing => Raise (ValueError "nan")
  end.

(** One element of [data_tuples]. *)
Definition data_tuple (df : DataFrame) (row : list cell) : outcome SalesTuple :=
  bind (py_int (cell_at df "customer_id" row)) (fun customer =>
  bind (py_int (cell_at df "product_id" row)) (fun product =>
  bind (py_float (cell_at df "quantity" row)) (fun quantity =>
  bind (py_float (cell_at df "unit_price" row)) (fun unit_price =>
  bind (py_float (cell_at df "total_amount" row)) (fun total_amount =>
  bind (match row_get df "region_id" row with
        | Some c => if notna c then bind (py_int c) (fun r => Return (Some r))
                    else Return None
        | None => Return None
        end) (fun region =>
  bind (match row_get df "discount_percentage" row with
        | Some c => py_float c
        | None => Return 0%Q
        end) (fun discount =>
  Return {| t_transaction_date := cell_at df "transaction_date" row;
            t_customer_id := customer;
            t_product_id := product;
            t_quantity := quantity;
            t_unit_price := unit_price;
            t_total_amount := total_amount;
            t_region_id := region;
            t_discount_percentage := discount |}))))))).

(** oracle_connector.py, execute_batch_insert: [executemany] then commit;
    on an error, rollback and re-raise. *)
Definition execute_batch_insert (w : World) (data : list SalesTuple)
  : outcome unit * World :=
  if db_accepts data
  then (Return tt, {| input_dir := input_dir w;
                      archive_dir := archive_dir w;
                      sales_transactions := sales_transactions w ++ data |})
  else (Raise (DatabaseError "Batch insert failed"), w).

(** [archive_path.mkdir(parents=True, exist_ok=True)] and
    [csv_path.rename(archive_file)]: the file is moved, or an OSError is
    raised and the file stays where it is. *)
Definition archive (w : World) (csv_file : string) (f : CsvFile)
  : outcome unit * World :=
  if archive_ok
  then (Return tt, {| input_dir := remove csv_file (input_dir w);
                      archive_dir := (archive_name csv_file, f) :: archive_dir w;
                      sales_transactions := sales_transactions w |})
  else (Raise (OSError "archive"), w).

(** csv_loader.py, load_sales_data. *)
Definition load_sales_data (w : World) (csv_file : string) : outcome nat * World :=
  match lookup csv_file (input_dir w) with
  | None => (Raise FileNotFoundError, w)
  | Some f =>
      match read_csv f with
      | Raise e => (Raise e, w)
      | Return df =>
          match missing_columns df with
          | _ :: _ => (Raise (MissingColumns (missing_columns df)), w)
          | [] =>
              match convert_transaction_date df with
              | Raise e => (Raise e, w)
              | Return df =>
                  let df := fillna0 df in
                  if negb connect_ok
                  then (Raise (DatabaseError "Failed to connect"), w)
                  else
                    match mapM (data_tuple df) (rows df) with
                    | Raise e => (Raise e, w)
                    | Return data_tuples =>
                        match execute_batch_insert w data_tuples with
                        | (Raise e, w') => (Raise e, w')
                        | (Return _, w') =>
                            match archive w' csv_file f with
                            | (Raise e, w'') => (Raise e, w'')
                            | (Return _, w'') => (Return (List.length (rows df)), w'')
                            end
                        end
                    end
              end
          end
      end
  end.

End Loader.

End CSVLoader.

(** ** The KPI calculator and the pipeline *)

Module KPICalculator.
Import Py Aggregator.

(** An open database connection: the committed rows of KPI_RESULTS, the
    writes of the current transaction, and the procedures called so far. *)
Record Connection : Type := {
  committed : list KPIResult;
  pending : list KPIResult;
  calls : list kpi_name
}.

(** Code that runs on a connection and returns or raises. *)
Definition M (A : Type) : Type := Connection -> outcome A * Connection.

Definition ret {A} (a : A) : M A := fun c => (Return a, c).

Definition raise {A} (e : exn) : M A := fun c => (Raise e, c).

Definition bindM {A B} (m : M A) (k : A -> M B) : M B :=
  fun c => match m c with
           | (Return a, c') => k a c'
           | (Raise e, c') => (Raise e, c')
           end.

(** [try: body except Exception as e: handler(e)] *)
Definition try_with {A} (body : M A) (handler : exn -> M A) : M A :=
  fun c => match body c with
           | (Return a, c') => (Return a, c')
           | (Raise e, c') => handler e c'
           end.

Declare Scope conn_scope.
Delimit Scope conn_scope with conn.
Notation "m1 ;; m2" := (bindM m1 (fun _ => m2))
  (at level 61, right associativity) : conn_scope.

(** [db.connection.commit()] and [db.connection.rollback()]. *)
Definition commit : M unit :=
  fun c => (Return tt, {| committed := committed c ++ pending c;
                          pending := [];
                          calls := calls c |}).

Definition rollback : M unit :=
  fun c => (Return tt, {| committed := committed c;
                          pending := [];
                          calls := calls c |}).

(** A new session has no uncommitted write, and closing one discards what
    was not committed. *)
Definition fresh (c : Connection) : Connection :=
  {| committed := committed c; pending := []; calls := calls c |}.

(** [with OracleConnector() as db: body].  [__enter__] calls [connect()],
    which logs and re-raises the driver's error: [connect] is what that
    call does.  When it raises, the body does not run and no session was
    opened; otherwise the body runs on a new session and [__exit__]
    disconnects, whether the body returned or raised. *)
Definition with_OracleConnector {A} (connect : outcome unit) (body : M A) : M A :=
  fun c =>
    match connect with
    | Raise e => (Raise e, fresh c)
    | Return _ => let (r, c') := body (fresh c) in (r, fresh c')
    end.

Section Procedures.

(** The stored procedures of PKG_KPI_CALCULATIONS are database code outside
    the Python sources: a procedure is taken as what it writes, given its
    arguments and the rows it can see, and whether it completes or raises
    (after having written). *)
Variable procedure :
  kpi_name -> list Z -> list KPIResult -> list KPIResult * option exn.

(** [db.cursor.callproc(name, args)]. *)
Definition callproc (name : kpi_name) (args : list Z) : M unit :=
  fun c =>
    let (writes, error) := procedure name args (committed c ++ pending c) in
    let c' := {| committed := committed c;
                 pending := pending c ++ writes;
                 calls := calls c ++ [name] |} in
    match error with
    | None => (Return tt, c')
    | Some e => (Raise e, c')
    end.

(** kpi_calculator.py, lines 38-84: the [try] statement of
    [calculate_all_kpis], run on the open connection. *)
Definition calculate_all_kpis_try (start_date end_date top_n : Z) : M unit :=
  try_with
    (callproc REVENUE_BY_REGION [start_date; end_date] ;;
     commit ;;
     callproc MONTHLY_REVENUE_TREND [start_date; end_date] ;;
     commit ;;
     callproc TOP_CUSTOMERS [start_date; end_date; top_n] ;;
     commit ;;
     callproc PRODUCT_PERFORMANCE [start_date; end_date] ;;
     commit ;;
     callproc AVG_TRANSACTION_VALUE [start_date; end_date] ;;
     commit)%conn
    (fun e => (rollback ;; raise e)%conn).

(** What [connect()] does when [calculate_all_kpis] opens its connection. *)
Variable connect : outcome unit.

(** kpi_calculator.py, calculate_all_kpis. *)
Definition calculate_all_kpis (start_date end_date top_n : Z) : M unit :=
  with_OracleConnector connect (calculate_all_kpis_try start_date end_date top_n).

(** *** main.py *)

Inductive pipeline_state : Type :=
| Done       (* the run reaches "Pipeline completed successfully!" *)
| Failed.    (* the handler logs "Pipeline failed" and calls [sys.exit(1)] *)

(** The other stages are collaborators of the pipeline. *)
Variable load_sales_data : string -> M unit.
Variable validate_all : M unit.
Variable generate_all_charts : M unit.
Variable generate_all_reports : M unit.

(** The clock: [datetime.now()], in days. *)
Variable now : Z.

Definition main (argv : list string) : Connection -> pipeline_state * Connection :=
  fun c =>
    match
      ((match argv with
        | _ :: csv_file :: _ => load_sales_data csv_file
        | _ => ret tt
        end) ;;
       validate_all ;;
       calculate_all_kpis (now - 30) now 10 ;;
       generate_all_charts ;;
       generate_all_reports)%conn c
    with
    | (Return _, c') => (Done, c')
    | (Raise _, c') => (Failed, c')
    end.

(** oracle_connector.py, execute_procedure: [params] is a dict or [None];
    the procedure is called with the dict's values (with no argument when
    the dict is empty or absent), then committed; on an error, rollback and
    re-raise. *)
Definition execute_procedure (name : kpi_name) (params : option (list (string * Z)))
  : M unit :=
  try_with
    (match params with
     | Some (p :: ps) => callproc name (map snd (p :: ps))
     | _ => callproc name []
     end ;;
     commit)%conn
    (fun e => (rollback ;; raise e)%conn).

End Procedures.

End KPICalculator.

(** ** The data validator *)

Module DataValidator.
Import Py KPICalculator.

(** The out-parameters of the three validation procedures. *)
Record SalesDataCheck : Type := {
  status : string;
  checked : Z;
  passed : Z;
  failed : Z
}.

Record ReferentialCheck : Type := {
  ref_status : string;
  details : string
}.

Record DuplicateCheck : Type := {
  dup_status : string;
  count : Z
}.

(** The dict [validate_all] returns, with its three keys. *)
Record ValidationResults : Type := {
  sales_data : SalesDataCheck;
  referential_integrity : ReferentialCheck;
  duplicates : DuplicateCheck
}.

Section Procedures.

(** The procedures of PKG_DATA_VALIDATION are database code outside the
    Python sources: each is taken as what it reports on the connection it
    is called on, or the error it raises.  [error_details] is a CLOB or
    NULL. *)
Variable VALIDATE_SALES_DATA : Connection -> outcome SalesDataCheck.
Variable VALIDATE_REFERENTIAL_INTEGRITY : Connection -> outcome (string * option string).
Variable CHECK_DUPLICATES : Connection -> outcome DuplicateCheck.

(** What [connect()] does when [validate_all] opens its connection. *)
Variable connect : outcome unit.

Definition call {A} (proc : Connection -> outcome A) : M A :=
  fun c => (proc c, c).

(** data_validator.py, validate_all.  Nothing is committed here. *)
Definition validate_all : M ValidationResults :=
  with_OracleConnector connect
    (bindM (call VALIDATE_SALES_DATA) (fun sales =>
     bindM (call VALIDATE_REFERENTIAL_INTEGRITY) (fun ref =>
     bindM (call CHECK_DUPLICATES) (fun dup =>
     ret {| sales_data := sales;
            referential_integrity :=
              {| ref_status := fst ref;
                 details := match snd ref with Some d => d | None => EmptyString end |};
            duplicates := dup |})))).

End Procedures.

End DataValidator.

(** ** utils/logger.py: setup_logger *)

Module Logger.

(** The handlers the function attaches, each with the level it was given. *)
Inductive Handler : Type :=
| FileHandler (filename : string) (level : Z)
| StreamHandler (level : Z).

Record LoggerState : Type := {
  level : Z;
  handlers : list Handler
}.

(** [logging.getLogger(name)]: one logger object per name, for the whole
    process; the empty name and the name "root" both denote the root
    logger.  A logger that was never configured has no handler; its level
    is NOTSET, that of the root logger WARNING. *)
Definition logger_of (name : string) : string :=
  if String.eqb name "" then "root"%string else name.

Definition Registry : Type := string -> LoggerState.

Definition getLogger (reg : Registry) (name : string) : LoggerState :=
  reg (logger_of name).

Definition NOTSET : Z := 0.
Definition INFO : Z := 20.
Definition WARNING : Z := 30.

Definition unconfigured : Registry :=
  fun key => {| level := if String.eqb key "root" then WARNING else NOTSET;
                handlers := [] |}.

Definition update (reg : Registry) (name : string) (l : LoggerState) : Registry :=
  fun key => if String.eqb key (logger_of name) then l else reg key.

(** The function returns the logger, or an OSError of the file system
    escapes from it. *)
Inductive result : Type := Returned | OSError.

Section Files.

(** The file system: whether [log_path.parent.mkdir(parents=True,
    exist_ok=True)] succeeds, and whether [logging.FileHandler(log_file)]
    can open the file. *)
Variable mkdir_ok : string -> bool.
Variable open_ok : string -> bool.

Definition setup_logger (name : string) (log_file : option string) (lvl : Z)
  (reg : Registry) : result * Registry :=
  let reg := update reg name {| level := lvl;
                                handlers := handlers (getLogger reg name) |} in
  match handlers (getLogger reg name) with
  | _ :: _ => (Returned, reg)
  | [] =>
      let console := StreamHandler lvl in
      match log_file with
      | Some (String c rest) =>
          let f := String c rest in
          if negb (mkdir_ok f) then (OSError, reg)
          else if negb (open_ok f) then (OSError, reg)
          else (Returned,
                update reg name {| level := lvl;
                                   handlers := [FileHandler f lvl; console] |})
      | _ => (Returned, update reg name {| level := lvl; handlers := [console] |})
      end
  end.

End Files.

End Logger.

(** ** visualization/report_generator.py: the text report;
       web_app.py: the report shown on the index page *)

Module ReportGenerator.
Import Py Pandas Aggregator InsightGenerator.

(** The two tables the report reads. *)
Record Database : Type := {
  KPI_RESULTS : list KPIResult;
  REGIONS : list (Z * string)        (* REGION_ID, REGION_NAME *)
}.

(** The lines of the report, with the values they format. *)
Inductive line : Type :=
| Rule80                                   (* "=" * 80 *)
| Title                                    (* ENTERPRISE SALES ANALYTICS REPORT *)
| GeneratedOn (now : Z)
| Blank
| TotalRevenue (v : Q)                     (* Total Revenue: $v *)
| RegionHeading                            (* Revenue by Region: *)
| Rule40                                   (* "-" * 40 *)
| RegionRevenue (name : string) (v : Q)    (*   name: $v *)
| AverageTransactionValue (v : Q)          (* Average Transaction Value: $v *)
| InsightsHeading                          (* INSIGHTS *)
| Insights (s : summary).

Definition kpi_rows (name : kpi_name) (table : list KPIResult) : list KPIResult :=
  filter (fun k => kpi_name_eqb (KPI_NAME k) name) table.

(** [SELECT SUM(KPI_VALUE) ... WHERE KPI_NAME = name]: one row, NULL when
    no row is selected. *)
Definition sql_sum (name : kpi_name) (table : list KPIResult) : option Q :=
  match kpi_rows name table with
  | [] => None
  | rows => Some (Qsum (map KPI_VALUE rows))
  end.

(** [SELECT AVG(KPI_VALUE) ... WHERE KPI_NAME = name]. *)
Definition sql_avg (name : kpi_name) (table : list KPIResult) : option Q :=
  match kpi_rows name table with
  | [] => None
  | rows => Some (Qsum (map KPI_VALUE rows) / inject_Z (Z.of_nat (List.length rows)))%Q
  end.

(** [if result and result[0][0]]: NULL and 0 are both falsy. *)
Definition truthy (v : option Q) : option Q :=
  match v with
  | Some q => if Qeq_bool q 0 then None else Some q
  | None => None
  end.

(** [KPI_RESULTS k JOIN REGIONS r ON k.REGION_ID = r.REGION_ID
    WHERE k.KPI_NAME = 'REVENUE_BY_REGION']: (REGION_NAME, KPI_VALUE). *)
Definition joined (db : Database) : list (string * Q) :=
  flat_map (fun k =>
              match REGION_ID k with
              | Some r => map (fun reg => (snd reg, KPI_VALUE k))
                              (filter (fun reg => fst reg =? r) (REGIONS db))
              | None => []
              end)
           (kpi_rows REVENUE_BY_REGION (KPI_RESULTS db)).

(** [GROUP BY r.REGION_NAME] with [SUM(k.KPI_VALUE)]. *)
Definition group_by_name (rows : list (string * Q)) : list (string * Q) :=
  map (fun n => (n, Qsum (map snd (filter (fun r => String.eqb (fst r) n) rows))))
      (nodup string_dec (map fst rows)).

(** The second query, [ORDER BY REVENUE DESC]. *)
Definition revenue_by_region_name (db_sort : SortValues) (db : Database)
  : list (string * Q) :=
  @sort_values db_sort _ (fun a b => Qle_bool (snd b) (snd a))
    (group_by_name (joined db)).

(** The lines between the header and the insights. *)
Definition revenue_lines (db_sort : SortValues) (db : Database) : list line :=
  match truthy (sql_sum MONTHLY_REVENUE_TREND (KPI_RESULTS db)) with
  | Some v => [TotalRevenue v]
  | None => []
  end
  ++ match revenue_by_region_name db_sort db with
     | [] => []
     | result2 => Blank :: RegionHeading :: Rule40
                  :: map (fun row => RegionRevenue (fst row) (snd row)) result2
     end
  ++ match truthy (sql_avg AVG_TRANSACTION_VALUE (KPI_RESULTS db)) with
     | Some v => [Blank; AverageTransactionValue v]
     | None => []
     end.

(** A file of the summaries directory. *)
Record File : Type := {
  name : string;
  mtime : Z;
  content : list line
}.

(** [open(path, 'w')] and [write]: an existing file of that name is
    overwritten, a new one is added to the directory. *)
Definition write_file (f : File) (dir : list File) : list File :=
  if existsb (fun g => String.eqb (name g) (name f)) dir
  then map (fun g => if String.eqb (name g) (name f) then f else g) dir
  else dir ++ [f].

Section Clock.

(** [strftime("%Y%m%d_%H%M%S")]. *)
Variable strftime : Z -> string.

Definition report_file (saved : Z) : string :=
  String.append "report_" (String.append (strftime saved) ".txt").

(** report_generator.py, generate_text_report.  [db] is what the report's
    own connection yields, [db1], [db2], [db3] what the three connections of
    the insight generator yield; [now] and [saved] are the two readings of
    the clock (the header, the file name), [sysdate] is the database's
    clock.  The result is the report (its
    lines, joined by newlines in the source) and the summaries directory
    after the call. *)
Definition generate_text_report (db_sort pd_sort : SortValues) (thresholds : Thresholds)
  (now saved sysdate : Z) (db : outcome Database)
  (db1 db2 db3 : outcome (list KPIRow))
  (dir : list File) : outcome (list line) * list File :=
  let report_lines := [Rule80; Title; Rule80; GeneratedOn now; Blank] in
  match
    bind db (fun d =>
    let report_lines := report_lines ++ revenue_lines db_sort d in
    let report_lines := report_lines ++ [Blank; Rule80; InsightsHeading; Rule80] in
    bind (generate_summary_insights db_sort pd_sort thresholds sysdate db1 db2 db3)
         (fun insights => Return (report_lines ++ [Insights insights])))
  with
  | Return report_text =>
      (Return report_text,
       write_file {| name := report_file saved; mtime := saved; content := report_text |}
                  dir)
  | Raise e => (Raise e, dir)
  end.

End Clock.

(** [fnmatch(name, 'report_*.txt')]. *)
Definition ends_with (suffix s : string) : bool :=
  (String.length suffix <=? String.length s)%nat
  && String.eqb suffix
       (String.substring (String.length s - String.length suffix)
                         (String.length suffix) s).

Definition glob_report (f : File) : bool :=
  String.prefix "report_" (name f) && ends_with ".txt" (name f)
  && (11 <=? String.length (name f))%nat.

(** What the index page shows. *)
Inductive latest : Type :=
| ReportText (text : list line)
| NoReportsAvailable.   (* "No reports available. Please run the analytics pipeline first." *)

(** [max(txt_files, key=lambda p: p.stat().st_mtime)]: the first file with
    the greatest modification time. *)
Definition max_by_mtime (first : File) (others : list File) : File :=
  fold_left (fun best f => if mtime best <? mtime f then f else best) others first.

(** web_app.py, get_latest_report; [summaries] is the directory, [None]
    when it does not exist. *)
Definition get_latest_report (summaries : option (list File)) : latest :=
  match summaries with
  | Some dir =>
      match filter glob_report dir with
      | first :: others => ReportText (content (max_by_mtime first others))
      | [] => NoReportsAvailable
      end
  | None => NoReportsAvailable
  end.

End ReportGenerator.

(* ================================================================== *)
(** * Properties *)

(** ** Binary64: the special values of the operations *)

Module FloatFacts.
Import Numpy Pandas.

Lemma float_of_spec (x : float) (s : spec_float) : Prim2SF x = s -> x = SF2Prim s.
Proof. intros <-. symmetry. apply SF2Prim_Prim2SF. Qed.

Lemma Prim2SF_100 : Prim2SF 100 = S754_finite false 7036874417766400 (-46).
Proof. reflexivity. Qed.

Lemma Prim2SF_0 : Prim2SF 0 = S754_zero false.
Proof. reflexivity. Qed.

(** [x == 0] holds of 0.0 and of -0.0 only. *)
Lemma eqb_zero (x : float) :
  PrimFloat.eqb x 0 = true -> exists s, Prim2SF x = S754_zero s.
Proof.
  rewrite FloatAxioms.eqb_spec, Prim2SF_0.
  destruct (Prim2SF x) as [s|s| |s m e]; try destruct s; try discriminate; eauto.
Qed.

Lemma zero_cases (x : float) (s : bool) :
  Prim2SF x = S754_zero s -> x = (if s then (-0)%float else 0%float).
Proof. intros H. apply float_of_spec in H. rewrite H. destruct s; reflexivity. Qed.

(** A finite double that is not a zero has a sign, a mantissa and an exponent. *)
Lemma finite_nonzero (x : float) :
  isfinite x = true -> PrimFloat.eqb x 0 = false ->
  exists s m e, Prim2SF x = S754_finite s m e.
Proof.
  unfold isfinite. rewrite FloatAxioms.ltb_spec, FloatAxioms.abs_spec, FloatAxioms.eqb_spec, Prim2SF_0.
  destruct (Prim2SF x) as [s|s| |s m e]; try destruct s; try discriminate; eauto.
Qed.

Lemma finite_sign (x : float) (s : bool) (m : positive) (e : Z) :
  Prim2SF x = S754_finite s m e -> PrimFloat.ltb x 0 = s.
Proof. intros H. rewrite FloatAxioms.ltb_spec, H, Prim2SF_0. destruct s; reflexivity. Qed.

(** The change in percent from a first value that is a zero: the quotient
    by zero is an infinity, whose sign is that of the last value, reversed
    for -0.0; a last value that is a zero or NaN gives NaN. *)
Lemma trend_from_zero (first last : float) (s : bool) :
  Prim2SF first = S754_zero s ->
  let c := (((last - first) / first) * 100)%float in
  (PrimFloat.ltb 0 last = true ->
     PrimFloat.ltb first last = true /\ c = if s then neg_infinity else infinity)
  /\ (PrimFloat.ltb last 0 = true ->
     PrimFloat.ltb first last = false /\ c = if s then infinity else neg_infinity)
  /\ (PrimFloat.ltb 0 last = false -> PrimFloat.ltb last 0 = false ->
     PrimFloat.ltb first last = false /\ c = nan).
Proof.
  intros Hf c.
  assert (Hc : Prim2SF c
               = SF64mul (SF64div (SF64sub (Prim2SF last) (S754_zero s)) (S754_zero s))
                         (S754_finite false 7036874417766400 (-46))).
  { unfold c. rewrite FloatAxioms.mul_spec, FloatAxioms.div_spec, FloatAxioms.sub_spec, Hf, Prim2SF_100. reflexivity. }
  rewrite !FloatAxioms.ltb_spec, Hf, Prim2SF_0.
  destruct (Prim2SF last) as [sl|sl| |sl ml el]; destruct s; try destruct sl;
    cbn in Hc |- *; apply float_of_spec in Hc; cbn in Hc;
    repeat split; intros; try discriminate; try exact Hc.
Qed.

(** The change in percent between two equal finite values that are not
    zero: the difference is 0.0, the quotient a zero with the sign of the
    value, and the comparison [last > first] is false. *)
Lemma trend_of_equal (x : float) (s : bool) (m : positive) (e : Z) :
  Prim2SF x = S754_finite s m e ->
  PrimFloat.ltb x x = false
  /\ (((x - x) / x) * 100)%float = (if s then (-0)%float else 0%float).
Proof.
  intros Hx. split.
  - rewrite FloatAxioms.ltb_spec, Hx. unfold SFltb, SFcompare.
    rewrite Z.compare_refl, Pos.compare_cont_refl. destruct s; reflexivity.
  - assert (Hc : Prim2SF (((x - x) / x) * 100)%float
               = SF64mul (SF64div (SF64sub (Prim2SF x) (Prim2SF x)) (Prim2SF x))
                         (S754_finite false 7036874417766400 (-46))).
    { rewrite FloatAxioms.mul_spec, FloatAxioms.div_spec, FloatAxioms.sub_spec, Prim2SF_100. reflexivity. }
    rewrite Hx in Hc.
    assert (Hsub : SF64sub (S754_finite s m e) (S754_finite s m e) = S754_zero false).
    { unfold SF64sub, SFsub. rewrite Z.sub_diag. reflexivity. }
    rewrite Hsub in Hc. apply float_of_spec in Hc. rewrite Hc.
    destruct s; reflexivity.
Qed.

(** *** Signs *)

(** The sign bit is clear, or the value is NaN. *)
Definition nonneg (x : spec_float) : Prop :=
  match x with
  | S754_zero s | S754_infinity s | S754_finite s _ _ => s = false
  | S754_nan => True
  end.








Lemma abs_nonneg (x : float) : nonneg (Prim2SF x) -> PrimFloat.abs x = x.
Proof.
  intros H. apply Prim2SF_inj. rewrite FloatAxioms.abs_spec.
  destruct (Prim2SF x); simpl in *; subst; reflexivity.
Qed.

(** *** The double of a count is positive *)










Lemma digits2_pos_iter (k p : positive) :
  Zpos (digits2_pos (Pos.iter xO p k)) = Zpos (digits2_pos p) + Zpos k.
Proof.
  revert p. induction k as [|k IH] using Pos.peano_ind; intros p.
  - rewrite Pos.iter_succ_r || idtac. simpl. lia.
  - rewrite Pos.iter_succ. cbn [digits2_pos]. rewrite Pos2Z.inj_succ, IH. lia.
Qed.



(** *** What every partial sum of a pairwise sum inherits *)



Section Closure.
Variable P : float -> Prop.
Hypothesis P_zero : P 0%float.
Hypothesis P_neg_zero : P (-0)%float.
Hypothesis P_add : forall x y, P x -> P y -> P (x + y)%float.








End Closure.




(** *** Symmetries of the sign *)












(** *** Zeros *)










Lemma zero_not_nan (x : float) : PrimFloat.eqb x 0 = true -> isnan x = false.
Proof.
  intros H. destruct (@eqb_zero x H) as [s Hs]. unfold isnan.
  rewrite FloatAxioms.eqb_spec, Hs. reflexivity.
Qed.




(** *** The order of the doubles *)

Ltac compare_cases :=
  repeat match goal with
         | H : context [Z.compare ?a ?b] |- _ => destruct (Z.compare_spec a b)
         | |- context [Z.compare ?a ?b] => destruct (Z.compare_spec a b)
         | H : context [Pos.compare_cont Eq ?a ?b] |- _ =>
             change (Pos.compare_cont Eq a b) with (Pos.compare a b) in H;
             destruct (Pos.compare_spec a b)
         | |- context [Pos.compare_cont Eq ?a ?b] =>
             change (Pos.compare_cont Eq a b) with (Pos.compare a b);
             destruct (Pos.compare_spec a b)
         end.

Lemma SFleb_trans (x y z : spec_float) :
  SFleb x y = true -> SFleb y z = true -> SFleb x z = true.
Proof.
  unfold SFleb, SFcompare.
  destruct x as [sx|sx| |sx mx ex], y as [sy|sy| |sy my ey], z as [sz|sz| |sz mz ez];
    try destruct sx; try destruct sy; try destruct sz; simpl;
    try reflexivity; try discriminate; intros H1 H2;
    compare_cases; simpl in *; try reflexivity; try discriminate; subst; lia.
Qed.

Lemma SFleb_total (x y : spec_float) :
  x <> S754_nan -> y <> S754_nan -> SFleb x y = true \/ SFleb y x = true.
Proof.
  unfold SFleb, SFcompare.
  destruct x as [sx|sx| |sx mx ex], y as [sy|sy| |sy my ey];
    try destruct sx; try destruct sy; simpl; intros Hx Hy; try congruence; auto;
    compare_cases; simpl; auto; subst; lia.
Qed.

Lemma SFltb_leb (x y : spec_float) :
  SFltb x y = true -> SFleb y x = false.
Proof.
  unfold SFleb, SFltb, SFcompare.
  destruct x as [sx|sx| |sx mx ex], y as [sy|sy| |sy my ey];
    try destruct sx; try destruct sy; simpl; try reflexivity; try discriminate; intros H;
    compare_cases; simpl in *; try reflexivity; try discriminate; subst; lia.
Qed.

Lemma SFeqb_leb (x y : spec_float) :
  SFeqb x y = true -> SFleb x y = true /\ SFleb y x = true.
Proof.
  unfold SFleb, SFeqb, SFcompare.
  destruct x as [sx|sx| |sx mx ex], y as [sy|sy| |sy my ey];
    try destruct sx; try destruct sy; simpl; try discriminate; auto; intros H;
    compare_cases; simpl in *; try discriminate; auto; subst; lia.
Qed.

Lemma SFleb_nan (x y : spec_float) : SFleb x y = true -> x <> S754_nan /\ y <> S754_nan.
Proof.
  unfold SFleb, SFcompare.
  destruct x as [sx|sx| |sx mx ex], y as [sy|sy| |sy my ey]; simpl;
    try discriminate; intros _; split; discriminate.
Qed.

Lemma isnan_spec (x : float) : isnan x = false <-> Prim2SF x <> S754_nan.
Proof.
  unfold isnan. rewrite FloatAxioms.eqb_spec, negb_false_iff.
  unfold SFeqb, SFcompare.
  destruct (Prim2SF x) as [s|s| |s m e]; try destruct s; simpl; split;
    try congruence; try discriminate; intros _; auto;
    rewrite ?Z.compare_refl, ?Pos.compare_cont_refl; reflexivity.
Qed.

Lemma notnan_leb_total (x y : float) :
  isnan x = false -> isnan y = false ->
  PrimFloat.leb x y = true \/ PrimFloat.leb y x = true.
Proof.
  rewrite !isnan_spec, !FloatAxioms.leb_spec. apply SFleb_total.
Qed.

Lemma leb_trans (x y z : float) :
  PrimFloat.leb x y = true -> PrimFloat.leb y z = true -> PrimFloat.leb x z = true.
Proof. rewrite !FloatAxioms.leb_spec. apply SFleb_trans. Qed.

Lemma leb_notnan (x y : float) :
  PrimFloat.leb x y = true -> isnan x = false /\ isnan y = false.
Proof. rewrite !isnan_spec, FloatAxioms.leb_spec. apply SFleb_nan. Qed.

Lemma ltb_not_leb (x y : float) :
  PrimFloat.ltb x y = true -> PrimFloat.leb y x = false.
Proof. rewrite FloatAxioms.ltb_spec, FloatAxioms.leb_spec. apply SFltb_leb. Qed.

Lemma eqb_leb (x y : float) :
  PrimFloat.eqb x y = true -> PrimFloat.leb x y = true /\ PrimFloat.leb y x = true.
Proof. rewrite FloatAxioms.eqb_spec, !FloatAxioms.leb_spec. apply SFeqb_leb. Qed.

Lemma ltb_nan_l (x y : float) : isnan x = true -> PrimFloat.ltb x y = false.
Proof.
  intros H. destruct (PrimFloat.ltb x y) eqn:E; [|reflexivity].
  assert (Hn : isnan x = false).
  { rewrite isnan_spec. rewrite FloatAxioms.ltb_spec in E.
    intros N. rewrite N in E. discriminate E. }
  congruence.
Qed.

Lemma ltb_isnan_r (x y : float) : isnan y = true -> PrimFloat.ltb x y = false.
Proof.
  intros H. destruct (PrimFloat.ltb x y) eqn:E; [|reflexivity].
  assert (Hn : isnan y = false).
  { rewrite isnan_spec. rewrite FloatAxioms.ltb_spec in E.
    intros N. rewrite N in E. destruct (Prim2SF x); discriminate E. }
  congruence.
Qed.

(** The descending order with NaN last is a total preorder. *)
Lemma desc_na_last_total (x y : float) :
  desc_na_last x y = true \/ desc_na_last y x = true.
Proof.
  unfold desc_na_last.
  destruct (isnan y) eqn:Hy; [left; reflexivity|].
  destruct (isnan x) eqn:Hx; [right; reflexivity|]. simpl.
  destruct (@notnan_leb_total x y Hx Hy); auto.
Qed.

Lemma desc_na_last_trans (x y z : float) :
  desc_na_last x y = true -> desc_na_last y z = true -> desc_na_last x z = true.
Proof.
  unfold desc_na_last.
  destruct (isnan z) eqn:Hz; [reflexivity|]. simpl.
  destruct (isnan y) eqn:Hy; simpl; [discriminate 2|].
  destruct (isnan x) eqn:Hx; simpl; [discriminate 1|].
  intros H1 H2. eapply leb_trans; eassumption.
Qed.

(** A row that may stand before another one is not below it ... *)
Lemma desc_na_last_not_below (x y : float) :
  desc_na_last x y = true -> PrimFloat.ltb x y = false.
Proof.
  unfold desc_na_last. destruct (isnan y) eqn:Hy; simpl.
  - intros _. apply ltb_isnan_r. exact Hy.
  - destruct (isnan x); simpl; [discriminate|]. intros H.
    destruct (PrimFloat.ltb x y) eqn:E; [|reflexivity].
    apply ltb_not_leb in E. congruence.
Qed.

(** ... and between numbers it is the order [y <= x]. *)
Lemma desc_na_last_leb (x y : float) :
  desc_na_last x y = true -> isnan y = false -> PrimFloat.leb y x = true.
Proof.
  unfold desc_na_last. intros H Hy. rewrite Hy in H. simpl in H.
  apply andb_true_iff in H. apply H.
Qed.

Lemma eqb_desc_na_last (x y : float) :
  PrimFloat.eqb x y = true -> desc_na_last y x = true.
Proof.
  intros H. destruct (@eqb_leb x y H) as [H1 H2].
  destruct (@leb_notnan x y H1) as [Hx Hy].
  unfold desc_na_last. rewrite Hx, Hy, H1. reflexivity.
Qed.

End FloatFacts.

(** ** Facts about the pandas layer *)

Module PandasFacts.
Import Pandas.

Lemma Qsum_app (l1 l2 : list Q) : (Qsum (l1 ++ l2) == Qsum l1 + Qsum l2)%Q.
Proof.
  induction l1 as [|x l1 IH]; simpl.
  - ring.
  - rewrite IH. ring.
Qed.

Lemma Qsum_cons (x : Q) (l : list Q) : Qsum (x :: l) = (x + Qsum l)%Q.
Proof. reflexivity. Qed.

Section Keys.
Context {K : Type} `{OrdKey K}.

Lemma key_leb_refl (a : K) : key_leb a a = true.
Proof. destruct (key_leb_total a a); assumption. Qed.

Lemma key_eqb_eq (a b : K) : key_eqb a b = true <-> a = b.
Proof.
  unfold key_eqb. rewrite andb_true_iff. split.
  - intros [E F]. apply key_leb_antisym; assumption.
  - intros ->. rewrite key_leb_refl. auto.
Qed.

Lemma key_eqb_refl (a : K) : key_eqb a a = true.
Proof. apply key_eqb_eq. reflexivity. Qed.

Lemma key_eqb_neq (a b : K) : key_eqb a b = false <-> a <> b.
Proof.
  rewrite <- key_eqb_eq. destruct (key_eqb a b); split; congruence.
Qed.

(** Strictly before: [a <= b] and not [b <= a]. *)
Definition key_lt (a b : K) : Prop := key_leb a b = true /\ key_leb b a = false.

Lemma key_lt_trans (a b c : K) : key_lt a b -> key_lt b c -> key_lt a c.
Proof.
  intros [E1 F1] [E2 F2]. split.
  - eapply key_leb_trans; eauto.
  - destruct (key_leb c a) eqn:E; auto.
    rewrite (key_leb_trans _ _ _ E E1) in F2. discriminate.
Qed.

Lemma key_lt_irrefl (a : K) : ~ key_lt a a.
Proof. intros [E F]. congruence. Qed.

Lemma insert_key_In (k x : K) (l : list K) :
  In x (insert_key k l) <-> x = k \/ In x l.
Proof.
  induction l as [|h t IH]; simpl.
  - intuition.
  - destruct (key_leb k h) eqn:E.
    + destruct (key_leb h k) eqn:F; simpl.
      * assert (k = h) by (apply key_leb_antisym; assumption). subst. intuition.
      * intuition.
    + simpl. rewrite IH. intuition.
Qed.

Lemma insert_key_sorted (k : K) (l : list K) :
  StronglySorted key_lt l -> StronglySorted key_lt (insert_key k l).
Proof.
  induction 1 as [|h t Hs IH Hall]; simpl.
  - repeat constructor.
  - destruct (key_leb k h) eqn:E.
    + destruct (key_leb h k) eqn:F.
      * constructor; assumption.
      * assert (Hkh : key_lt k h) by (split; assumption).
        constructor; [constructor; assumption|].
        constructor; [assumption|].
        eapply Forall_impl; [|exact Hall]. intros a Ha.
        eapply key_lt_trans; eauto.
    + assert (Hhk : key_lt h k).
      { split; [|assumption]. destruct (key_leb_total h k); congruence. }
      constructor; [assumption|].
      rewrite Forall_forall in *. intros x Hx.
      apply insert_key_In in Hx. destruct Hx as [->|Hx]; auto.
Qed.

Lemma group_keys_In (x : K) (ks : list K) : In x (group_keys ks) <-> In x ks.
Proof.
  induction ks as [|k ks IH]; simpl; [tauto|].
  rewrite insert_key_In, IH. intuition.
Qed.

Lemma group_keys_sorted (ks : list K) : StronglySorted key_lt (group_keys ks).
Proof.
  induction ks as [|k ks IH]; simpl; [constructor|].
  apply insert_key_sorted; assumption.
Qed.

Lemma sorted_lt_NoDup (l : list K) : StronglySorted key_lt l -> NoDup l.
Proof.
  induction 1 as [|h t Hs IH Hall]; constructor; auto.
  intro Hin. rewrite Forall_forall in Hall.
  exact (key_lt_irrefl (Hall _ Hin)).
Qed.

Lemma group_keys_NoDup (ks : list K) : NoDup (group_keys ks).
Proof. apply sorted_lt_NoDup, group_keys_sorted. Qed.

(** *** Any aggregate: the buckets partition the rows *)

Lemma groupby_agg_keys {V R} (agg : list V -> R) (rows : list (K * V)) :
  map fst (groupby_agg agg rows) = group_keys (map fst rows).
Proof. unfold groupby_agg. rewrite map_map. simpl. apply map_id. Qed.

Lemma groupby_agg_In {V R} (agg : list V -> R) (k : K) (v : R) (rows : list (K * V)) :
  In (k, v) (groupby_agg agg rows) ->
  In k (map fst rows)
  /\ v = agg (map snd (filter (fun r => key_eqb (fst r) k) rows)).
Proof.
  unfold groupby_agg. intros Hin. apply in_map_iff in Hin.
  destruct Hin as [k' [E Hk]]. inversion E; subst.
  split; [apply group_keys_In; exact Hk|reflexivity].
Qed.

Lemma flat_map_cons_key {A} (key : A -> K) (x : A) (l : list A) (ks : list K) :
  NoDup ks ->
  (In (key x) ks ->
   Permutation (flat_map (fun k => filter (fun y => key_eqb (key y) k) (x :: l)) ks)
               (x :: flat_map (fun k => filter (fun y => key_eqb (key y) k) l) ks))
  /\ (~ In (key x) ks ->
      flat_map (fun k => filter (fun y => key_eqb (key y) k) (x :: l)) ks
      = flat_map (fun k => filter (fun y => key_eqb (key y) k) l) ks).
Proof.
  set (f := fun (l0 : list A) (k0 : K) => filter (fun y => key_eqb (key y) k0) l0).
  change (NoDup ks ->
          (In (key x) ks ->
           Permutation (flat_map (f (x :: l)) ks) (x :: flat_map (f l) ks))
          /\ (~ In (key x) ks -> flat_map (f (x :: l)) ks = flat_map (f l) ks)).
  assert (Hf : forall k, f (x :: l) k = if key_eqb (key x) k then x :: f l k else f l k)
    by reflexivity.
  clearbody f.
  induction 1 as [|k ks Hk Hnd IH]; [split; [contradiction|reflexivity]|].
  destruct IH as [IHin IHout].
  cbn [flat_map]. rewrite Hf. destruct (key_eqb (key x) k) eqn:E.
  - apply key_eqb_eq in E. subst k. split.
    + intros _. rewrite (IHout Hk). reflexivity.
    + intros Hn. exfalso. apply Hn. left. reflexivity.
  - apply key_eqb_neq in E. split.
    + intros [Hx|Hx]; [congruence|].
      eapply Permutation_trans; [apply Permutation_app_head, IHin, Hx|].
      symmetry. apply Permutation_middle.
    + intros Hn. rewrite IHout; [reflexivity|]. intros Hx. apply Hn. right. exact Hx.
Qed.

(** The rows of a table, taken key by key over a list of distinct keys
    that holds every key of the table, are the rows of the table. *)
Lemma partition_by_key {A} (key : A -> K) (l : list A) (ks : list K) :
  NoDup ks -> (forall x, In x l -> In (key x) ks) ->
  Permutation (flat_map (fun k => filter (fun y => key_eqb (key y) k) l) ks) l.
Proof.
  intros Hnd. induction l as [|x l IH]; intros Hall.
  - clear. induction ks as [|k ks IH]; simpl; [constructor|exact IH].
  - destruct (@flat_map_cons_key A key x l ks Hnd) as [Hin _].
    eapply Permutation_trans; [apply Hin, Hall; left; reflexivity|].
    constructor. apply IH. intros y Hy. apply Hall. right. exact Hy.
Qed.

End Keys.

End PandasFacts.

(** ** Sorting: the stable sort meets the [sort_values] contract *)

Module SortFacts.
Import Pandas.

Section Insertion.
Context {A : Type} (leb : A -> A -> bool).

Lemma stable_insert_perm (x : A) (l : list A) :
  Permutation (stable_insert leb x l) (x :: l).
Proof.
  induction l as [|h t IH]; simpl; [reflexivity|].
  destruct (leb x h); [reflexivity|].
  rewrite IH. apply perm_swap.
Qed.

Lemma stable_sort_perm (l : list A) : Permutation (stable_sort leb l) l.
Proof.
  induction l as [|x l IH]; simpl; [reflexivity|].
  rewrite stable_insert_perm. constructor. exact IH.
Qed.

Hypothesis leb_total : forall a b, leb a b = true \/ leb b a = true.
Hypothesis leb_trans : forall a b c, leb a b = true -> leb b c = true -> leb a c = true.

Lemma stable_insert_sorted (x : A) (l : list A) :
  StronglySorted (fun a b => leb a b = true) l ->
  StronglySorted (fun a b => leb a b = true) (stable_insert leb x l).
Proof.
  induction 1 as [|h t Hs IH Hall]; simpl.
  - repeat constructor.
  - destruct (leb x h) eqn:E.
    + constructor; [constructor; assumption|].
      constructor; [assumption|].
      eapply Forall_impl; [|exact Hall]. intros b Hb. eapply leb_trans; eauto.
    + constructor; [assumption|].
      eapply Permutation_Forall; [symmetry; apply stable_insert_perm|].
      constructor; [|assumption].
      destruct (leb_total h x); congruence.
Qed.

Lemma stable_sort_sorted (l : list A) :
  StronglySorted (fun a b => leb a b = true) (stable_sort leb l).
Proof.
  induction l as [|x l IH]; simpl; [constructor|].
  apply stable_insert_sorted. exact IH.
Qed.

End Insertion.

(** The stable sort is one admissible [sort_values]. *)
#[export] Instance stable_sorter : SortValues :=
  {| sort_values := fun A leb l => stable_sort leb l;
     sort_values_perm := fun A leb l => stable_sort_perm leb l;
     sort_values_sorted := fun A leb Ht Htr l => stable_sort_sorted leb Ht Htr l |}.

(** *** Equal keys under the stable sort *)

Section Ties.
Context {A : Type} (leb : A -> A -> bool) (id : A -> Z).
Hypothesis leb_total : forall a b, leb a b = true \/ leb b a = true.
Hypothesis leb_trans : forall a b c, leb a b = true -> leb b c = true -> leb a c = true.

(** [a] stands before [b]: in the order, and by ascending [id] when the
    two are equal in the order. *)
Definition tie_order (a b : A) : Prop :=
  leb a b = true /\ (leb b a = true -> id a < id b).

Lemma stable_insert_ties (x : A) (l : list A) :
  StronglySorted tie_order l ->
  Forall (fun b => id x < id b) l ->
  StronglySorted tie_order (stable_insert leb x l).
Proof.
  induction 1 as [|h t Hs IH Hall]; intros Hid; simpl.
  - repeat constructor.
  - inversion Hid as [|? ? Hxh Hxt]; subst.
    destruct (leb x h) eqn:E.
    + constructor; [constructor; assumption|].
      constructor; [split; [exact E|intros _; exact Hxh]|].
      rewrite Forall_forall in *. intros b Hb. split.
      * eapply leb_trans; [exact E|apply (Hall b Hb)].
      * intros _. apply Hxt. exact Hb.
    + constructor; [apply IH; assumption|].
      eapply Permutation_Forall; [symmetry; apply stable_insert_perm|].
      constructor; [|assumption]. split.
      * destruct (leb_total h x); congruence.
      * intros E'. congruence.
Qed.

Lemma stable_sort_ties (l : list A) :
  StronglySorted (fun a b => id a < id b) l ->
  StronglySorted tie_order (stable_sort leb l).
Proof.
  induction 1 as [|h t Hs IH Hall]; simpl; [constructor|].
  apply stable_insert_ties; [exact IH|].
  eapply Permutation_Forall; [symmetry; apply stable_sort_perm|exact Hall].
Qed.

End Ties.

(** *** The default sort of a descending [sort_values] *)

Fixpoint ordered {A} (leb : A -> A -> bool) (l : list A) : bool :=
  match l with
  | [] => true
  | x :: t => forallb (leb x) t && ordered leb t
  end.

Lemma ordered_sorted {A} (leb : A -> A -> bool) (l : list A) :
  ordered leb l = true -> StronglySorted (fun a b => leb a b = true) l.
Proof.
  induction l as [|x l IH]; simpl; intros H; constructor.
  - apply IH. apply andb_true_iff in H. apply H.
  - apply andb_true_iff in H. destruct H as [H _].
    apply Forall_forall. rewrite forallb_forall in H. exact H.
Qed.

(** [idx] holds every position of an array of [n] items, once each. *)
Definition covers (idx : list nat) (n : nat) : bool :=
  (List.length idx =? n)%nat && forallb (fun i => existsb (Nat.eqb i) idx) (seq 0 n).

Lemma covers_perm (idx : list nat) (n : nat) :
  covers idx n = true -> Permutation idx (seq 0 n).
Proof.
  unfold covers. intros H. apply andb_true_iff in H. destruct H as [Hlen Hall].
  apply Nat.eqb_eq in Hlen. symmetry. apply NoDup_Permutation_bis.
  - apply seq_NoDup.
  - rewrite length_seq. lia.
  - intros i Hi. rewrite forallb_forall in Hall. specialize (Hall i Hi).
    apply existsb_exists in Hall. destruct Hall as [j [Hj E]].
    apply Nat.eqb_eq in E. subst. exact Hj.
Qed.

Lemma map_nth_seq {A} (l : list A) (d : A) :
  map (fun i => nth i l d) (seq 0 (List.length l)) = l.
Proof.
  induction l as [|x l IH]; [reflexivity|].
  cbn [List.length seq map nth]. f_equal.
  rewrite <- seq_shift, map_map. exact IH.
Qed.

(** The descending sort as pandas and numpy compute it.  The contract of
    [SortValues] asks of every sort a proof that its result is an ordered
    permutation; here the result of the argsort is checked to be one, and
    the stable sort would take its place if it were not. *)
Definition quicksort_descending {A} (leb : A -> A -> bool) (l : list A) : list A :=
  if covers (descending_indexer leb l) (List.length l)
     && ordered leb (sort_descending leb l)
  then sort_descending leb l
  else stable_sort leb l.

Lemma quicksort_descending_perm {A} (leb : A -> A -> bool) (l : list A) :
  Permutation (quicksort_descending leb l) l.
Proof.
  unfold quicksort_descending.
  destruct (covers _ _ && ordered _ _) eqn:E; [|apply stable_sort_perm].
  apply andb_true_iff in E. destruct E as [Hc _].
  unfold sort_descending. destruct l as [|filler l']; [reflexivity|].
  set (l := filler :: l') in *.
  apply covers_perm in Hc. rewrite <- (length_rev l) in Hc.
  eapply Permutation_trans; [symmetry; apply Permutation_rev|].
  eapply Permutation_trans; [apply Permutation_map, Hc|].
  rewrite map_nth_seq. symmetry. apply Permutation_rev.
Qed.

Lemma quicksort_descending_sorted {A} (leb : A -> A -> bool) :
  (forall a b, leb a b = true \/ leb b a = true) ->
  (forall a b c, leb a b = true -> leb b c = true -> leb a c = true) ->
  forall l, StronglySorted (fun a b => leb a b = true) (quicksort_descending leb l).
Proof.
  intros Ht Htr l. unfold quicksort_descending.
  destruct (covers _ _ && ordered _ _) eqn:E; [|apply stable_sort_sorted; assumption].
  apply andb_true_iff in E. apply ordered_sorted, E.
Qed.

Definition numpy_sorter : SortValues :=
  {| sort_values := fun A leb l => quicksort_descending leb l;
     sort_values_perm := fun A leb l => quicksort_descending_perm leb l;
     sort_values_sorted := fun A leb Ht Htr l =>
                             quicksort_descending_sorted leb Ht Htr l |}.

Lemma firstn_sorted {A} (R : A -> A -> Prop) (n : nat) (l : list A) :
  StronglySorted R l -> StronglySorted R (firstn n l).
Proof.
  intros Hs. revert n. induction Hs as [|h t Hs IH Hall]; intros [|n]; simpl;
    try constructor; auto.
  rewrite Forall_forall in *. intros x Hx. apply Hall.
  rewrite <- (firstn_skipn n t). apply in_or_app. left. exact Hx.
Qed.

Lemma head_nonneg {A} (n : Z) (l : list A) :
  0 <= n -> head n l = firstn (Z.to_nat n) l.
Proof.
  intros Hn. unfold head. destruct (0 <=? n) eqn:E; [reflexivity|].
  apply Z.leb_gt in E. lia.
Qed.

End SortFacts.

(** ** The aggregator *)

Module AggregatorFacts.
Import Numpy Pandas PandasFacts SortFacts Aggregator FloatFacts.

Definition has_region (t : Transaction) : bool :=
  match region_id t with Some _ => true | None => false end.

(** The transactions of a region bucket, of a (region, day) bucket, and of
    the bucket a demo KPI row stands for. *)
Definition in_region (k : option Z) (t : Transaction) : bool :=
  key_eqb (region_id t) k.

Definition in_region_day (r d : Z) (t : Transaction) : bool :=
  key_eqb (region_day_key t) (Some (r, d)).

Definition in_bucket (row : KPIRow) (t : Transaction) : bool :=
  match REGION_ID row with
  | Some r => in_region_day r (KPI_DATE row) t
  | None => false
  end.

Definition regional_sale (region : option Z) (amount : float) : Transaction :=
  {| transaction_date := 0; customer_id := 1; product_id := 101;
     quantity := 1%float; unit_price := amount; total_amount := amount;
     region_id := region; discount_percentage := 0%float |}.

(** One transaction of 5 units of revenue with a null region. *)
Definition null_region_sale : Transaction := regional_sale None 5%float.

(** 2^53 in region 1, twice 1 in region 2. *)
Definition uneven_sales : list Transaction :=
  [regional_sale (Some 1) 0x1p+53%float; regional_sale (Some 2) 1%float; regional_sale (Some 2) 1%float].

(** C1, as stated, fails.  On a one-row table whose region is null the
    dashboard's region grouping ([dropna=False]) does contain the null
    bucket, so the null row is not excluded there; and the demo generator's
    region grouping ([dropna=True]) drops the row, so its buckets add up to
    0 and not to the grand total 5.  And the sums are binary64: with 2^53
    in one region and twice 1 in another the grand total is 2^53 (each 1 is
    rounded away), the buckets are 2^53 and 2, and their sum is 2^53 + 2. *)
Lemma C1_null_region_counterexample :
  In (None, 5%float) (revenue_by_region [null_region_sale])
  /\ demo_revenue_by_region [null_region_sale] = []
  /\ Series_sum (map KPI_VALUE (demo_revenue_by_region [null_region_sale])) = 0%float
  /\ total_revenue [null_region_sale] = 5%float
  /\ revenue_by_region uneven_sales = [(Some 1, 0x1p+53%float); (Some 2, 2%float)]
  /\ total_revenue uneven_sales = 0x1p+53%float
  /\ Series_sum (map snd (revenue_by_region uneven_sales)) = 0x1.0000000000001p+53%float
  /\ PrimFloat.eqb (Series_sum (map snd (revenue_by_region uneven_sales)))
                   (total_revenue uneven_sales) = false.
Proof.
  repeat split; try (vm_compute; reflexivity).
  vm_compute. left. reflexivity.
Qed.

Lemma filter_filter_implied {A} (f g : A -> bool) (l : list A) :
  (forall x, f x = true -> g x = true) -> filter f (filter g l) = filter f l.
Proof.
  intros H. induction l as [|x l IH]; simpl; [reflexivity|].
  destruct (g x) eqn:G; simpl.
  - rewrite IH. reflexivity.
  - destruct (f x) eqn:F; [rewrite (H x F) in G; discriminate|exact IH].
Qed.

Lemma dropna_region_day (df : list Transaction) :
  dropna_keys (map (fun t => (region_day_key t, total_amount t)) df)
  = map (fun t => (match region_day_key t with Some k => k | None => (0, 0) end,
                   total_amount t))
        (filter has_region df).
Proof.
  unfold region_day_key, has_region.
  induction df as [|t df IH]; simpl; [reflexivity|].
  destruct (region_id t) eqn:E; simpl; rewrite ?E, IH; reflexivity.
Qed.

Lemma key_eqb_Some {A} `{OrdKey A} (a b : A) :
  @key_eqb (option A) _ (Some a) (Some b) = key_eqb a b.
Proof. reflexivity. Qed.

(** The values of a (region, day) bucket are the amounts of its transactions. *)
Lemma region_day_bucket (df : list Transaction) (r d : Z) :
  map snd (filter (fun row => key_eqb (fst row) (r, d))
                  (dropna_keys (map (fun t => (region_day_key t, total_amount t)) df)))
  = map total_amount (filter (in_region_day r d) df).
Proof.
  unfold in_region_day, region_day_key.
  induction df as [|t df IH]; simpl; [reflexivity|].
  destruct (region_id t) as [reg|]; simpl.
  - rewrite key_eqb_Some.
    destruct (key_eqb (reg, dt_date t) (r, d)); simpl; rewrite IH; reflexivity.
  - exact IH.
Qed.

Lemma region_bucket (df : list Transaction) (k : option Z) :
  map snd (filter (fun row => key_eqb (fst row) k)
                  (map (fun t => (region_id t, total_amount t)) df))
  = map total_amount (filter (in_region k) df).
Proof.
  unfold in_region. induction df as [|t df IH]; simpl; [reflexivity|].
  destruct (key_eqb (region_id t) k); simpl; rewrite IH; reflexivity.
Qed.

(** C1, amended.  For every transaction table:
    - the dashboard's revenue-by-region aggregate has one bucket for every
      distinct region, the null region included as a bucket of its own;
      the revenue of a bucket is the sum (the compensated binary64 sum of
      [groupby.sum]) of the [total_amount] of exactly the transactions of
      its region, and the buckets partition the table: their transactions,
      taken together, are the transactions of the table, none lost and
      none counted twice;
    - the demo generator's (region, day) aggregate has no bucket for the
      null region; the value of a row is the sum of the [total_amount] of
      the transactions of its region and day, and its buckets partition
      the transactions whose region is not null.
    (That the bucket sums add up to the grand total holds of exact sums
    only; the counterexample shows binary64 sums that do not.) *)
Theorem C1_revenue_partition (df : list Transaction) :
  NoDup (map fst (revenue_by_region df))
  /\ (forall t, In t df -> In (region_id t) (map fst (revenue_by_region df)))
  /\ (forall k v, In (k, v) (revenue_by_region df) ->
        (exists t, In t df /\ region_id t = k)
        /\ v = group_sum (map total_amount (filter (in_region k) df)))
  /\ Permutation (flat_map (fun b => filter (in_region (fst b)) df) (revenue_by_region df))
                 df
  /\ (forall row, In row (demo_revenue_by_region df) ->
        exists r, REGION_ID row = Some r
                  /\ (exists t, In t df /\ region_id t = Some r /\ dt_date t = KPI_DATE row)
                  /\ KPI_VALUE row
                     = group_sum (map total_amount
                                      (filter (in_region_day r (KPI_DATE row)) df)))
  /\ NoDup (map (fun row => (REGION_ID row, KPI_DATE row)) (demo_revenue_by_region df))
  /\ Permutation (flat_map (fun row => filter (in_bucket row) df)
                           (demo_revenue_by_region df))
                 (filter has_region df).
Proof.
  assert (Hkeys : map fst (revenue_by_region df) = group_keys (map region_id df)).
  { unfold revenue_by_region. rewrite groupby_agg_keys, map_map. reflexivity. }
  split; [rewrite Hkeys; apply group_keys_NoDup|].
  split.
  { intros t Ht. rewrite Hkeys. apply group_keys_In.
    change (region_id t) with ((fun x : Transaction => region_id x) t).
    apply in_map. exact Ht. }
  split.
  { intros k v Hin. unfold revenue_by_region in Hin.
    apply groupby_agg_In in Hin. destruct Hin as [Hk ->]. split.
    - rewrite map_map in Hk. apply in_map_iff in Hk.
      destruct Hk as [t [E Ht]]. exists t. auto.
    - rewrite region_bucket. reflexivity. }
  split.
  { assert (E : flat_map (fun b => filter (in_region (fst b)) df) (revenue_by_region df)
                = flat_map (fun k => filter (fun t => key_eqb (region_id t) k) df)
                           (map fst (revenue_by_region df))).
    { clear Hkeys. induction (revenue_by_region df) as [|b l IH]; simpl; [reflexivity|].
      rewrite IH. reflexivity. }
    rewrite E, Hkeys. apply partition_by_key; [apply group_keys_NoDup|].
    intros t Ht. apply group_keys_In.
    change (region_id t) with ((fun x : Transaction => region_id x) t).
    apply in_map. exact Ht. }
  set (rows := dropna_keys (map (fun t => (region_day_key t, total_amount t)) df)).
  assert (Hdemo : forall row, In row (demo_revenue_by_region df) ->
            exists r d v, row = {| KPI_NAME := REVENUE_BY_REGION; KPI_VALUE := v;
                                   KPI_DATE := d; REGION_ID := Some r |}
                          /\ In ((r, d), v) (groupby_agg group_sum rows)).
  { intros row Hrow. unfold demo_revenue_by_region in Hrow. fold rows in Hrow.
    apply in_map_iff in Hrow. destruct Hrow as [[[r d] v] [<- Hb]].
    exists r, d, v. split; [reflexivity|exact Hb]. }
  assert (Hrowkeys : map fst rows
                     = map (fun t => match region_day_key t with
                                     | Some k => k | None => (0, 0) end)
                           (filter has_region df)).
  { unfold rows. rewrite dropna_region_day, map_map. reflexivity. }
  split.
  { intros row Hrow. destruct (Hdemo row Hrow) as (r & d & v & -> & Hb).
    exists r. split; [reflexivity|]. cbn [KPI_DATE KPI_VALUE].
    apply groupby_agg_In in Hb. destruct Hb as [Hk ->]. split.
    - rewrite Hrowkeys in Hk. apply in_map_iff in Hk. destruct Hk as [t [E Ht]].
      apply filter_In in Ht. destruct Ht as [Ht Hreg].
      exists t. split; [exact Ht|].
      unfold region_day_key, has_region in *.
      destruct (region_id t); [|discriminate]. inversion E; subst. auto.
    - unfold rows. rewrite region_day_bucket. reflexivity. }
  assert (Hk2 : map (fun row : KPIRow => (REGION_ID row, KPI_DATE row))
                    (demo_revenue_by_region df)
                = map (fun k => (Some (fst k), snd k)) (group_keys (map fst rows))).
  { unfold demo_revenue_by_region. fold rows.
    rewrite <- (groupby_agg_keys group_sum rows), !map_map. reflexivity. }
  split.
  { rewrite Hk2. apply Finite.Injective_map_NoDup; [|apply group_keys_NoDup].
    intros [a b] [a' b'] E. inversion E. reflexivity. }
  assert (E : flat_map (fun row => filter (in_bucket row) df) (demo_revenue_by_region df)
              = flat_map (fun k => filter (fun t => key_eqb (region_day_key t) k)
                                          (filter has_region df))
                         (map Some (group_keys (map fst rows)))).
  { clear Hdemo Hk2. unfold demo_revenue_by_region. fold rows.
    rewrite <- (groupby_agg_keys group_sum rows).
    induction (groupby_agg group_sum rows) as [|[[r d] v] l IH]; simpl; [reflexivity|].
    rewrite IH. f_equal. unfold in_bucket, in_region_day. cbn [REGION_ID KPI_DATE].
    symmetry. apply filter_filter_implied. intros t Ht.
    apply key_eqb_eq in Ht. unfold has_region, region_day_key in *.
    destruct (region_id t); [reflexivity|discriminate]. }
  rewrite E. apply partition_by_key.
  - apply Finite.Injective_map_NoDup; [|apply group_keys_NoDup].
    intros a b Hab. inversion Hab. reflexivity.
  - intros t Ht. apply filter_In in Ht. destruct Ht as [Ht Hreg].
    assert (Hin : In (match region_day_key t with Some k => k | None => (0, 0) end)
                     (group_keys (map fst rows))).
    { apply group_keys_In. rewrite Hrowkeys.
      apply (in_map (fun t => match region_day_key t with
                              | Some k => k | None => (0, 0) end)).
      apply filter_In. split; assumption. }
    unfold has_region, region_day_key in *. destruct (region_id t); [|discriminate].
    apply (in_map Some) in Hin. exact Hin.
Qed.

(** *** Top customers *)

(** A customer's summed [total_amount]. *)
Definition customer_revenue (df : list Transaction) (c : Z) : float :=
  group_sum (map total_amount (filter (fun t => customer_id t =? c) df)).

(** Revenue descending, equal revenues by ascending customer id. *)
Definition revenue_then_id (a b : Z * float) : Prop :=
  PrimFloat.ltb (snd a) (snd b) = false
  /\ (PrimFloat.eqb (snd a) (snd b) = true -> fst a < fst b).

Lemma revenue_desc_total (a b : Z * float) :
  revenue_desc a b = true \/ revenue_desc b a = true.
Proof. apply desc_na_last_total. Qed.

Lemma revenue_desc_trans (a b c : Z * float) :
  revenue_desc a b = true -> revenue_desc b c = true -> revenue_desc a c = true.
Proof. apply desc_na_last_trans. Qed.

Lemma StronglySorted_impl {A} (R S : A -> A -> Prop) (l : list A) :
  (forall a b, R a b -> S a b) -> StronglySorted R l -> StronglySorted S l.
Proof.
  intros HRS. induction 1 as [|h t Hs IH Hall]; constructor; auto.
  eapply Forall_impl; [|exact Hall]. auto.
Qed.

Lemma key_eqb_Z (a b : Z) : key_eqb a b = (a =? b).
Proof.
  unfold key_eqb. simpl.
  destruct (Z.eqb_spec a b), (Z.leb_spec a b), (Z.leb_spec b a); simpl; auto; lia.
Qed.

Lemma customer_bucket (df : list Transaction) (c : Z) :
  map snd (filter (fun row => key_eqb (fst row) c)
                  (map (fun t => (customer_id t, total_amount t)) df))
  = map total_amount (filter (fun t => customer_id t =? c) df).
Proof.
  induction df as [|t df IH]; simpl; [reflexivity|].
  rewrite key_eqb_Z. destruct (customer_id t =? c); simpl; rewrite IH; reflexivity.
Qed.

Lemma revenue_by_customer_In (df : list Transaction) (c : Z) (v : float) :
  In (c, v) (revenue_by_customer df) ->
  In c (map customer_id df) /\ v = customer_revenue df c.
Proof.
  intros Hin. apply groupby_agg_In in Hin. destruct Hin as [Hc ->].
  rewrite map_map in Hc. simpl in Hc. split; [exact Hc|].
  unfold customer_revenue. rewrite customer_bucket. reflexivity.
Qed.

Lemma revenue_by_customer_complete (df : list Transaction) (c : Z) :
  In c (map customer_id df) -> In (c, customer_revenue df c) (revenue_by_customer df).
Proof.
  intros Hc. unfold revenue_by_customer, customer_revenue, groupby_agg.
  rewrite <- customer_bucket.
  apply in_map_iff. exists c. split; [reflexivity|].
  apply group_keys_In. rewrite map_map. exact Hc.
Qed.

Lemma revenue_by_customer_keys (df : list Transaction) :
  map fst (revenue_by_customer df) = group_keys (map customer_id df).
Proof.
  unfold revenue_by_customer. rewrite groupby_agg_keys, map_map. reflexivity.
Qed.

Lemma group_keys_length (ks : list Z) :
  List.length (group_keys ks) = List.length (nodup Z.eq_dec ks).
Proof.
  apply Permutation_length, NoDup_Permutation.
  - apply group_keys_NoDup.
  - apply NoDup_nodup.
  - intros x. rewrite group_keys_In, nodup_In. tauto.
Qed.

Lemma revenue_by_customer_length (df : list Transaction) :
  List.length (revenue_by_customer df) = distinct_customers df.
Proof.
  unfold distinct_customers.
  rewrite <- (length_map fst), revenue_by_customer_keys.
  apply group_keys_length.
Qed.

(** The customer buckets come out in strictly ascending id order. *)
Lemma revenue_by_customer_ascending (df : list Transaction) :
  StronglySorted (fun a b => fst a < fst b) (revenue_by_customer df).
Proof.
  pose proof (group_keys_sorted (map customer_id df)) as Hs.
  rewrite <- revenue_by_customer_keys in Hs.
  induction (revenue_by_customer df) as [|r l IH]; [constructor|].
  simpl in Hs. inversion Hs as [|? ? Hl Hall]; subst.
  constructor; [apply IH; exact Hl|].
  rewrite Forall_forall in *. intros x Hx.
  destruct (Hall (fst x) (in_map fst _ _ Hx)) as [E F].
  simpl in E, F. apply Z.leb_le in E. apply Z.leb_gt in F. lia.
Qed.

Lemma tie_order_revenue (a b : Z * float) :
  tie_order revenue_desc fst a b -> revenue_then_id a b.
Proof.
  intros [Hab Hba]. split.
  - apply desc_na_last_not_below. exact Hab.
  - intros E. apply Hba. unfold revenue_desc. apply eqb_desc_na_last. exact E.
Qed.

Lemma revenue_desc_sorted (l : list (Z * float)) :
  StronglySorted (fun a b => revenue_desc a b = true) l ->
  StronglySorted (fun a b => PrimFloat.ltb (snd a) (snd b) = false) l.
Proof.
  apply StronglySorted_impl. intros a b E. apply desc_na_last_not_below. exact E.
Qed.

(** [nlargest(10)] on the customer buckets, by the path pandas takes. *)
Lemma demo_top_customers_unfold `{SortValues} (df : list Transaction) :
  demo_top_customers df
  = if (distinct_customers df <=? 10)%nat
    then firstn 10 (sort_values revenue_desc (revenue_by_customer df))
    else firstn 10 (stable_sort revenue_desc (revenue_by_customer df)).
Proof.
  unfold demo_top_customers, nlargest. cbn [Z.leb Z.compare].
  rewrite revenue_by_customer_length.
  destruct (Nat.leb_spec (distinct_customers df) 10) as [L|L].
  - destruct (Z.leb_spec (Z.of_nat (distinct_customers df)) 10) as [_|]; [|lia].
    rewrite head_nonneg by lia. reflexivity.
  - destruct (Z.leb_spec (Z.of_nat (distinct_customers df)) 10) as [|_]; [lia|].
    reflexivity.
Qed.

(** A small table: customers 1 and 3 both total 10, customer 2 totals 7. *)
Definition sale (c : Z) (amount : float) : Transaction :=
  {| transaction_date := 0; customer_id := c; product_id := 101;
     quantity := 1%float; unit_price := amount; total_amount := amount;
     region_id := Some 1; discount_percentage := 0%float |}.

Definition sample_sales : list Transaction :=
  [sale 3 10; sale 1 7; sale 2 7; sale 1 3].

Example top_customers_sample :
  @top_customers numpy_sorter sample_sales 2 = [(1, 10%float); (3, 10%float)].
Proof. vm_compute. reflexivity. Qed.

Example demo_top_customers_sample :
  @demo_top_customers numpy_sorter sample_sales
  = [(1, 10%float); (3, 10%float); (2, 7%float)].
Proof. vm_compute. reflexivity. Qed.

(** [head(n)] with a negative [n] drops the last [|n|] rows: three distinct
    customers and N = -1 give two rows. *)
Example top_customers_negative :
  distinct_customers sample_sales = 3%nat
  /\ List.length (@top_customers numpy_sorter sample_sales (-1)) = 2%nat.
Proof. split; vm_compute; reflexivity. Qed.

(** Twenty customers with one sale each: 10 for the even ids, 7 for the
    odd ones. *)
Definition tied_sales : list Transaction :=
  map (fun c => sale c (if Z.even c then 10%float else 7%float))
      (map Z.of_nat (seq 1 20)).

(** For these twenty rows the argsort is used as it is. *)
Example tied_sales_argsort :
  @sort_values numpy_sorter _ revenue_desc (revenue_by_customer tied_sales)
  = sort_descending revenue_desc (revenue_by_customer tied_sales).
Proof. vm_compute. reflexivity. Qed.

(** C4, as stated, fails on the dashboard's call [top_customers(df, 10)]:
    the default sort of [sort_values] is numpy's quicksort, which is not
    stable on more than 17 rows.  Of the twenty customers of [tied_sales]
    the ten with even ids total 10 each; they are the rows returned, and
    they are not in ascending order of customer id (the scalar quicksort
    gives 20, 14, 4, 18, 6, 8, 16, 10, 2, 12).  And a negative N, which the
    function accepts, gives all rows but the last [|N|]: two rows for three
    customers and N = -1. *)
Lemma C4_top_customers_counterexample :
  distinct_customers tied_sales = 20%nat
  /\ @top_customers numpy_sorter tied_sales 10
     = [(20, 10%float); (14, 10%float); (4, 10%float); (18, 10%float); (6, 10%float);
        (8, 10%float); (16, 10%float); (10, 10%float); (2, 10%float); (12, 10%float)]
  /\ ~ StronglySorted revenue_then_id (@top_customers numpy_sorter tied_sales 10)
  /\ Z.of_nat (List.length (@top_customers numpy_sorter sample_sales (-1)))
     <> Z.min (-1) (Z.of_nat (distinct_customers sample_sales)).
Proof.
  split; [vm_compute; reflexivity|].
  assert (E : @top_customers numpy_sorter tied_sales 10
              = [(20, 10%float); (14, 10%float); (4, 10%float); (18, 10%float);
                 (6, 10%float); (8, 10%float); (16, 10%float); (10, 10%float);
                 (2, 10%float); (12, 10%float)])
    by (vm_compute; reflexivity).
  split; [exact E|]. split.
  - rewrite E. intros Hs. inversion Hs as [|? ? _ Hall]; subst.
    inversion Hall as [|? ? [_ Hid] _]; subst.
    specialize (Hid eq_refl). simpl in Hid. lia.
  - vm_compute. discriminate.
Qed.

(** C4, amended.  For every N >= 0 and every sort that meets the
    [sort_values] contract, the dashboard's top-N result has exactly
    min(N, number of distinct customer ids) rows, each row is a customer of
    the table with its summed [total_amount], and the rows are in descending
    order of that sum, NaN sums last (the order among equal sums is left to
    the sort).  The demo generator's [nlargest(10)] result has
    min(10, distinct) rows of the same kind in descending order of the sum;
    when there are more than 10 distinct customers (pandas then selects
    instead of sorting), customers with equal sums are in ascending
    customer id order. *)
Theorem C4_top_customers `{SortValues} (df : list Transaction) (n : Z) :
  0 <= n ->
  (List.length (top_customers df n) = Nat.min (Z.to_nat n) (distinct_customers df)
   /\ StronglySorted (fun a b => PrimFloat.ltb (snd a) (snd b) = false)
                     (top_customers df n)
   /\ (forall c v, In (c, v) (top_customers df n) ->
         In c (map customer_id df) /\ v = customer_revenue df c))
  /\
  (List.length (demo_top_customers df) = Nat.min 10 (distinct_customers df)
   /\ StronglySorted (fun a b => PrimFloat.ltb (snd a) (snd b) = false)
                     (demo_top_customers df)
   /\ (forall c v, In (c, v) (demo_top_customers df) ->
         In c (map customer_id df) /\ v = customer_revenue df c)
   /\ ((10 < distinct_customers df)%nat ->
         StronglySorted revenue_then_id (demo_top_customers df))).
Proof.
  intros Hn.
  assert (Hsorted : forall l,
            StronglySorted (fun a b => PrimFloat.ltb (snd a) (snd b) = false)
                           (sort_values revenue_desc l)).
  { intros l. apply revenue_desc_sorted.
    apply (sort_values_sorted revenue_desc revenue_desc_total revenue_desc_trans). }
  assert (Hrows : forall k c v,
            In (c, v) (firstn k (sort_values revenue_desc (revenue_by_customer df))) ->
            In c (map customer_id df) /\ v = customer_revenue df c).
  { intros k c v Hin. apply revenue_by_customer_In.
    eapply Permutation_in; [apply sort_values_perm|].
    rewrite <- (firstn_skipn k). apply in_or_app. left. exact Hin. }
  assert (Hlen : forall k,
            List.length (firstn k (sort_values revenue_desc (revenue_by_customer df)))
            = Nat.min k (distinct_customers df)).
  { intros k. rewrite length_firstn.
    rewrite (Permutation_length (sort_values_perm revenue_desc (revenue_by_customer df))).
    rewrite revenue_by_customer_length. reflexivity. }
  split.
  - unfold top_customers. rewrite head_nonneg by exact Hn.
    split; [apply Hlen|]. split; [apply firstn_sorted, Hsorted|apply Hrows].
  - rewrite demo_top_customers_unfold.
    destruct (Nat.leb_spec (distinct_customers df) 10) as [L|L].
    + split; [apply Hlen|]. split; [apply firstn_sorted, Hsorted|].
      split; [apply Hrows|]. intros L'. lia.
    + assert (Hs : StronglySorted revenue_then_id
                     (firstn 10 (stable_sort revenue_desc (revenue_by_customer df)))).
      { apply firstn_sorted.
        eapply StronglySorted_impl; [apply tie_order_revenue|].
        apply stable_sort_ties;
          [apply revenue_desc_total|apply revenue_desc_trans
          |apply revenue_by_customer_ascending]. }
      split; [|split; [|split]].
      * rewrite length_firstn, (Permutation_length (stable_sort_perm _ _)).
        rewrite revenue_by_customer_length. reflexivity.
      * eapply StronglySorted_impl; [|exact Hs]. intros a b [Hlt _]. exact Hlt.
      * intros c v Hin. apply revenue_by_customer_In.
        eapply Permutation_in; [apply stable_sort_perm|].
        rewrite <- (firstn_skipn 10). apply in_or_app. left. exact Hin.
      * intros _. exact Hs.
Qed.

Lemma C4_top_customers_witness :
  0 <= 10
  /\ List.length (@top_customers numpy_sorter tied_sales 10)
     = Nat.min (Z.to_nat 10) (distinct_customers tied_sales)
  /\ StronglySorted revenue_then_id (@demo_top_customers numpy_sorter tied_sales).
Proof.
  assert (H10 : 0 <= 10) by lia.
  pose proof (@C4_top_customers numpy_sorter tied_sales 10 H10) as [[L _] [_ [_ [_ T]]]].
  split; [exact H10|split; [exact L|]].
  apply T. vm_compute. lia.
Defined.

End AggregatorFacts.

(** ** The insight generator *)

Module InsightFacts.
Import Py Numpy Pandas PandasFacts SortFacts Aggregator InsightGenerator FloatFacts.

Definition kpi (name : kpi_name) (date : Z) (value : float) : KPIRow :=
  {| KPI_NAME := name; KPI_VALUE := value; KPI_DATE := date; REGION_ID := None |}.

Definition no_thresholds : Thresholds :=
  {| revenue_anomaly_percentage := None; trend_detection_periods := None |}.

Lemma date_asc_total (a b : KPIRow) : date_asc a b = true \/ date_asc b a = true.
Proof. unfold date_asc. rewrite !Z.leb_le. lia. Qed.

Lemma date_asc_trans (a b c : KPIRow) :
  date_asc a b = true -> date_asc b c = true -> date_asc a c = true.
Proof. unfold date_asc. rewrite !Z.leb_le. lia. Qed.

Lemma date_desc_total (a b : KPIRow) : date_desc a b = true \/ date_desc b a = true.
Proof. unfold date_desc. rewrite !Z.leb_le. lia. Qed.

Lemma date_desc_trans (a b c : KPIRow) :
  date_desc a b = true -> date_desc b c = true -> date_desc a c = true.
Proof. unfold date_desc. rewrite !Z.leb_le. lia. Qed.

(** Two rows with distinct keys have one sorted arrangement, whatever the sort. *)
Lemma sort_values_two (S : SortValues) {A} (leb : A -> A -> bool) (a b : A) :
  (forall x y, leb x y = true \/ leb y x = true) ->
  (forall x y z, leb x y = true -> leb y z = true -> leb x z = true) ->
  leb b a = false ->
  @sort_values S _ leb [a; b] = [a; b] /\ @sort_values S _ leb [b; a] = [a; b].
Proof.
  intros Ht Htr Hba.
  assert (Hgen : forall l, Permutation l [a; b] -> @sort_values S _ leb l = [a; b]).
  { intros l Hl.
    pose proof (sort_values_sorted leb Ht Htr l) as Hs.
    pose proof (Permutation_sym (Permutation_trans (sort_values_perm leb l) Hl)) as Hp.
    apply Permutation_length_2_inv in Hp. destruct Hp as [E|E]; [exact E|].
    rewrite E in Hs. inversion Hs as [|? ? _ Hall]; subst.
    inversion Hall as [|? ? Hab _]; subst. congruence. }
  split; apply Hgen; [reflexivity|apply perm_swap].
Qed.

Lemma select_kpi_length (S : SortValues) (table : list KPIRow) (name : kpi_name) :
  List.length (select_kpi S table name)
  = List.length (filter (fun r => kpi_name_eqb (KPI_NAME r) name) table).
Proof. unfold select_kpi. apply Permutation_length, sort_values_perm. Qed.

Lemma select_recent_length (S : SortValues) (table : list KPIRow)
  (name : kpi_name) (p : nat) :
  (p <= List.length (filter (fun r => kpi_name_eqb (KPI_NAME r) name) table))%nat ->
  List.length (select_recent S table name p) = p.
Proof.
  intros Hp. unfold select_recent.
  rewrite length_firstn, select_kpi_length. lia.
Qed.

(** With enough points of the KPI, the classifier reads the first and the
    last value of the window: over two or more periods it returns the trend
    statement computed from them, over one period "No clear trend detected". *)
Lemma detect_trends_window (db_sort pd_sort : SortValues) (th : Thresholds)
  (table : list KPIRow) (name : kpi_name) (p : nat) :
  (p <= List.length (filter (fun r => kpi_name_eqb (KPI_NAME r) name) table))%nat ->
  let values := map KPI_VALUE (trend_window db_sort pd_sort table name p) in
  let first := List.hd 0%float values in
  let last := List.last values 0%float in
  detect_trends db_sort pd_sort th (Return table) name (Some p)
  = Return (if (2 <=? p)%nat
            then Trend (if PrimFloat.ltb first last then increasing else decreasing)
                       (((last - first) / first) * 100)%float p
            else NoClearTrend).
Proof.
  intros Hp values first last.
  unfold detect_trends. cbn [bind].
  rewrite (select_recent_length db_sort table name Hp), Nat.ltb_irrefl.
  fold (trend_window db_sort pd_sort table name p). fold values.
  assert (Hlen : List.length values = p).
  { unfold values, trend_window. rewrite length_map.
    rewrite (Permutation_length (sort_values_perm _ _)).
    apply select_recent_length. exact Hp. }
  rewrite Hlen. destruct (2 <=? p)%nat; reflexivity.
Qed.

(** The trend statement on a window of exactly two monthly rows. *)
Lemma detect_trends_two (db_sort pd_sort : SortValues) (th : Thresholds)
  (d1 d2 : Z) (v1 v2 : float) :
  d1 < d2 ->
  detect_trends db_sort pd_sort th
    (Return [kpi MONTHLY_REVENUE_TREND d1 v1; kpi MONTHLY_REVENUE_TREND d2 v2])
    MONTHLY_REVENUE_TREND (Some 2%nat)
  = Return (Trend (if PrimFloat.ltb v1 v2 then increasing else decreasing)
                  (((v2 - v1) / v1) * 100)%float 2).
Proof.
  intros Hd. unfold detect_trends, select_recent, select_kpi. simpl.
  set (r1 := kpi MONTHLY_REVENUE_TREND d1 v1).
  set (r2 := kpi MONTHLY_REVENUE_TREND d2 v2).
  assert (E1 : @sort_values db_sort _ date_desc [r1; r2] = [r2; r1]).
  { apply (sort_values_two db_sort date_desc r2 r1 date_desc_total date_desc_trans).
    unfold date_desc. simpl. apply Z.leb_gt. exact Hd. }
  rewrite E1. simpl.
  assert (E2 : @sort_values pd_sort _ date_asc [r2; r1] = [r1; r2]).
  { apply (sort_values_two pd_sort date_asc r1 r2 date_asc_total date_asc_trans).
    unfold date_asc. simpl. apply Z.leb_gt. exact Hd. }
  rewrite E2. reflexivity.
Qed.

(** C3, second half as stated, fails: on the window [100, 100] the
    comparison [last > first] is false, so the source's conditional takes
    its else-branch and the statement reads "decreasing", with 0 percent. *)
Lemma C3_equal_values_counterexample :
  detect_trends stable_sorter stable_sorter no_thresholds
    (Return [kpi MONTHLY_REVENUE_TREND 1 100; kpi MONTHLY_REVENUE_TREND 2 100])
    MONTHLY_REVENUE_TREND (Some 2%nat)
  = Return (Trend decreasing 0 2)
  /\ ~ (exists c,
         detect_trends stable_sorter stable_sorter no_thresholds
           (Return [kpi MONTHLY_REVENUE_TREND 1 100; kpi MONTHLY_REVENUE_TREND 2 100])
           MONTHLY_REVENUE_TREND (Some 2%nat)
         = Return (Trend increasing c 2)).
Proof.
  split; [vm_compute; reflexivity|]. intros [c E]. vm_compute in E. discriminate E.
Qed.

(** C3, amended.  Whatever the sorts and the dates, the trend classifier
    over 2 periods compares the later value with the earlier one and
    reports the change [(last - first) / first * 100] in binary64:
    "increasing" with 50.0 percent change on the series [100, 150].  On
    every window of two or more periods whose last value equals its first
    value, a finite value other than zero, it reports "decreasing" with a
    zero percent change (0.0, and -0.0 when the value is negative); so it
    does on [100, 100]. *)
Theorem C3_trend_examples (db_sort pd_sort : SortValues) (th : Thresholds) :
  (forall d1 d2 v1 v2, d1 < d2 ->
     detect_trends db_sort pd_sort th
       (Return [kpi MONTHLY_REVENUE_TREND d1 v1; kpi MONTHLY_REVENUE_TREND d2 v2])
       MONTHLY_REVENUE_TREND (Some 2%nat)
     = Return (Trend (if PrimFloat.ltb v1 v2 then increasing else decreasing)
                     (((v2 - v1) / v1) * 100)%float 2))
  /\
  detect_trends db_sort pd_sort th
    (Return [kpi MONTHLY_REVENUE_TREND 1 100; kpi MONTHLY_REVENUE_TREND 2 150])
    MONTHLY_REVENUE_TREND (Some 2%nat)
  = Return (Trend increasing 50 2)
  /\
  (forall table name p,
     (2 <= p)%nat ->
     (p <= List.length (filter (fun r => kpi_name_eqb (KPI_NAME r) name) table))%nat ->
     let values := map KPI_VALUE (trend_window db_sort pd_sort table name p) in
     let first := List.hd 0%float values in
     let last := List.last values 0%float in
     last = first -> isfinite first = true -> PrimFloat.eqb first 0 = false ->
     detect_trends db_sort pd_sort th (Return table) name (Some p)
     = Return (Trend decreasing
                     (if PrimFloat.ltb first 0 then (-0)%float else 0%float) p))
  /\
  detect_trends db_sort pd_sort th
    (Return [kpi MONTHLY_REVENUE_TREND 1 100; kpi MONTHLY_REVENUE_TREND 2 100])
    MONTHLY_REVENUE_TREND (Some 2%nat)
  = Return (Trend decreasing 0 2).
Proof.
  split; [|split; [|split]].
  - intros d1 d2 v1 v2 Hd. apply detect_trends_two. exact Hd.
  - rewrite detect_trends_two by lia. vm_compute. reflexivity.
  - intros table name p H2 Hp values first last Heq Hfin Hnz.
    rewrite (@detect_trends_window db_sort pd_sort th table name p Hp).
    fold values. fold first. fold last.
    destruct (Nat.leb_spec 2 p) as [_|L]; [|lia].
    destruct (@finite_nonzero first Hfin Hnz) as (s & m & e & Hx).
    destruct (@trend_of_equal first s m e Hx) as [Hlt Hc].
    rewrite Heq, Hlt, Hc, (@finite_sign first s m e Hx). reflexivity.
  - rewrite detect_trends_two by lia. vm_compute. reflexivity.
Qed.

(** *** Trend statements on a window that starts at zero *)

(** C2, as stated, fails: the source has no division guard and no
    IndeterminateTrend result.  On the window [0, 5] the classifier returns
    the ordinary statement "Trend: increasing (inf% change over 2 periods)",
    on [0, 0] "Trend: decreasing (nan% change over 2 periods)". *)
Lemma C2_zero_first_counterexample :
  detect_trends stable_sorter stable_sorter no_thresholds
    (Return [kpi MONTHLY_REVENUE_TREND 1 0; kpi MONTHLY_REVENUE_TREND 2 5])
    MONTHLY_REVENUE_TREND (Some 2%nat)
  = Return (Trend increasing infinity 2)
  /\
  detect_trends stable_sorter stable_sorter no_thresholds
    (Return [kpi MONTHLY_REVENUE_TREND 1 0; kpi MONTHLY_REVENUE_TREND 2 0])
    MONTHLY_REVENUE_TREND (Some 2%nat)
  = Return (Trend decreasing nan 2).
Proof. split; vm_compute; reflexivity. Qed.

(** C2, amended.  For every KPI series with at least [periods] points
    ([periods] at least 1) whose earliest value in the analysed window is 0
    (0.0 or -0.0), the classifier does not raise and has no separate
    indeterminate result.  Over a single period it returns "No clear trend
    detected"; over two or more it returns the ordinary trend statement,
    whose percent change is the IEEE quotient by zero: "increasing" with
    +inf when the last value is positive, "decreasing" with -inf when it is
    negative (the two infinities change places when the earliest value is
    -0.0), "decreasing" with nan when the last value is a zero too, or NaN. *)
Theorem C2_zero_first_value (db_sort pd_sort : SortValues) (th : Thresholds)
  (table : list KPIRow) (name : kpi_name) (p : nat) :
  (1 <= p)%nat ->
  (p <= List.length (filter (fun r => kpi_name_eqb (KPI_NAME r) name) table))%nat ->
  let values := map KPI_VALUE (trend_window db_sort pd_sort table name p) in
  let first := List.hd 0%float values in
  let last := List.last values 0%float in
  PrimFloat.eqb first 0 = true ->
  (p = 1%nat
   /\ detect_trends db_sort pd_sort th (Return table) name (Some p) = Return NoClearTrend)
  \/
  ((2 <= p)%nat
   /\ (first = 0%float \/ first = (-0)%float)
   /\ exists c,
        detect_trends db_sort pd_sort th (Return table) name (Some p)
        = Return (Trend (if PrimFloat.ltb 0 last then increasing else decreasing) c p)
        /\ (PrimFloat.ltb 0 last = true ->
              (first = 0%float -> c = infinity)
              /\ (first = (-0)%float -> c = neg_infinity))
        /\ (PrimFloat.ltb last 0 = true ->
              (first = 0%float -> c = neg_infinity)
              /\ (first = (-0)%float -> c = infinity))
        /\ (PrimFloat.ltb 0 last = false -> PrimFloat.ltb last 0 = false -> c = nan)).
Proof.
  intros H1 Hp values first last Hzero.
  rewrite (@detect_trends_window db_sort pd_sort th table name p Hp).
  fold values. fold first. fold last.
  destruct (Nat.leb_spec 2 p) as [H2|H2]; [|left; split; [lia|reflexivity]].
  right. split; [exact H2|].
  destruct (@eqb_zero first Hzero) as [s Hs].
  pose proof (@zero_cases first s Hs) as Hfirst.
  destruct (@trend_from_zero first last s Hs) as (Hpos & Hneg & Hnone).
  assert (Hsign : forall s' : bool, first = (if s' then (-0)%float else 0%float) -> s' = s).
  { intros s' E. rewrite E in Hs. destruct s', s; vm_compute in Hs; congruence. }
  split; [destruct s; auto|].
  exists (((last - first) / first) * 100)%float.
  split; [|split; [|split]].
  - destruct (PrimFloat.ltb 0 last) eqn:E0.
    + destruct (Hpos eq_refl) as [-> _]. reflexivity.
    + destruct (PrimFloat.ltb last 0) eqn:E1.
      * destruct (Hneg eq_refl) as [-> _]. reflexivity.
      * destruct (Hnone eq_refl eq_refl) as [-> _]. reflexivity.
  - intros E0. destruct (Hpos E0) as [_ Hc]. split; intros E.
    + rewrite <- (Hsign false E) in Hc. exact Hc.
    + rewrite <- (Hsign true E) in Hc. exact Hc.
  - intros E1. destruct (Hneg E1) as [_ Hc]. split; intros E.
    + rewrite <- (Hsign false E) in Hc. exact Hc.
    + rewrite <- (Hsign true E) in Hc. exact Hc.
  - intros E0 E1. destruct (Hnone E0 E1) as [_ Hc]. exact Hc.
Qed.

Definition zero_first_series : list KPIRow :=
  [kpi MONTHLY_REVENUE_TREND 1 0; kpi MONTHLY_REVENUE_TREND 2 5;
   kpi MONTHLY_REVENUE_TREND 3 (-4)].

Example zero_first_series_trend :
  detect_trends stable_sorter stable_sorter no_thresholds
    (Return zero_first_series) MONTHLY_REVENUE_TREND (Some 3%nat)
  = Return (Trend decreasing neg_infinity 3).
Proof. vm_compute. reflexivity. Qed.

(** A window that starts at -0.0 and ends above zero reads "increasing"
    with -inf percent. *)
Example negative_zero_first_trend :
  detect_trends stable_sorter stable_sorter no_thresholds
    (Return [kpi MONTHLY_REVENUE_TREND 1 (-0); kpi MONTHLY_REVENUE_TREND 2 5])
    MONTHLY_REVENUE_TREND (Some 2%nat)
  = Return (Trend increasing neg_infinity 2).
Proof. vm_compute. reflexivity. Qed.

Lemma C2_zero_first_value_witness :
  exists c,
    detect_trends stable_sorter stable_sorter no_thresholds
      (Return zero_first_series) MONTHLY_REVENUE_TREND (Some 3%nat)
    = Return (Trend decreasing c 3)
    /\ c = neg_infinity.
Proof.
  destruct (@C2_zero_first_value stable_sorter stable_sorter no_thresholds
              zero_first_series MONTHLY_REVENUE_TREND 3%nat)
    as [[E _]|(_ & _ & c & E & _ & Hneg & _)].
  - lia.
  - simpl. lia.
  - vm_compute. reflexivity.
  - discriminate E.
  - exists c. split; [exact E|].
    apply Hneg; vm_compute; reflexivity.
Defined.

(** *** The percent-of-mean detector on constant series *)

Lemma filter_none {A} (f : A -> bool) (l : list A) :
  (forall x, In x l -> f x = false) -> filter f l = [].
Proof.
  induction l as [|x l IH]; simpl; intros Hf; [reflexivity|].
  rewrite (Hf x (or_introl eq_refl)). apply IH. auto.
Qed.



End InsightFacts.

(** ** The dashboard's detector *)

Module DashboardFacts.
Import Py Numpy Pandas SortFacts Dashboard FloatFacts.













Section Detector.
Variable to_datetime : cell -> option Z.
Variable sorter : SortValues.



(** C10.  The detector never raises: for every table, every choice of
    column arguments and every threshold it returns a table.  A missing
    ([None]) or empty column name, a column that is not in the table, and
    any exception raised inside the [try] all yield [pd.DataFrame()], the
    value also returned for fewer than 3 aggregated points; its length is
    0, as for a scored table without flagged rows. *)
Theorem C10_detect_outliers_total (df : DataFrame) (date_col value_col : option string)
  (th : float) :
  exists frame,
    detect_outliers to_datetime sorter df date_col value_col th = Return frame
    /\ (falsy date_col = true \/ falsy value_col = true -> frame = empty_frame)
    /\ (forall dc vc, date_col = Some dc -> value_col = Some vc ->
          has_column df dc = false \/ has_column df vc = false ->
          frame = empty_frame)
    /\ (forall dc vc e, date_col = Some dc -> value_col = Some vc ->
          detect_outliers_body to_datetime sorter df dc vc th = Raise e ->
          frame = empty_frame)
    /\ (frame = empty_frame -> len frame = 0%nat).
Proof.
  unfold detect_outliers.
  destruct (falsy date_col || falsy value_col) eqn:F.
  - exists empty_frame. repeat split; auto.
  - apply orb_false_iff in F. destruct F as [F1 F2].
    destruct date_col as [dc|]; [|discriminate F1].
    destruct value_col as [vc|]; [|discriminate F2].
    destruct (negb (has_column df dc) || negb (has_column df vc)) eqn:Hc.
    + exists empty_frame. repeat split; auto.
    + apply orb_false_iff in Hc. destruct Hc as [Hc1 Hc2].
      apply negb_false_iff in Hc1, Hc2.
      destruct (detect_outliers_body to_datetime sorter df dc vc th) as [frame|e] eqn:B;
        cbn [try_except].
      * exists frame. split; [reflexivity|]. repeat split.
        -- intros [X|X]; congruence.
        -- intros dc' vc' E1 E2 [X|X]; inversion E1; inversion E2; subst; congruence.
        -- intros dc' vc' e E1 E2 X. inversion E1; inversion E2; subst. congruence.
        -- intros ->. reflexivity.
      * exists empty_frame. repeat split; auto.
Qed.

End Detector.

(** *** A worked table *)

(** A test reading of dates: a text of decimal digits is that day number,
    anything else is not a date. *)
Fixpoint digits (s : string) (acc : Z) : option Z :=
  match s with
  | EmptyString => Some acc
  | String c t =>
      let n := Z.of_nat (nat_of_ascii c) - 48 in
      if (0 <=? n) && (n <=? 9) then digits t (10 * acc + n) else None
  end.

Definition day_of_cell (c : cell) : option Z :=
  match c with
  | CStr (String c t) => digits (String c t) 0
  | _ => None
  end.

(** Seven days without revenue, one day (two rows) with 8 in total, one
    row with an unreadable date and one with a missing value. *)
Definition week_table : DataFrame :=
  {| columns := ["day"; "amount"]%string;
     rows := [ [CStr "1"; CNum 0%float]; [CStr "2"; CNum 0%float];
               [CStr "3"; CNum 0%float]; [CStr "4"; CNum 0%float];
               [CStr "8"; CNum 3%float]; [CStr "5"; CNum 0%float];
               [CStr "6"; CNum 0%float]; [CStr "n/a"; CNum 100%float];
               [CStr "7"; CNum 0%float]; [CStr "8"; CNum 5%float];
               [CStr "9"; CNone] ]%string |}.



Example week_outliers :
  detect_outliers day_of_cell stable_sorter week_table (Some "day"%string)
    (Some "amount"%string) default_threshold
  = Return {| out_columns := ["day"; "amount"; "Z_SCORE"; "IS_OUTLIER"]%string;
              out_rows := [ {| bucket_date := 8; value := 8%float;
                               Z_SCORE := 0x1.52a7fa9d2f8e9p+1%float;
                               IS_OUTLIER := true |} ] |}.
Proof. vm_compute. reflexivity. Qed.

(** A constant series of 5: the mean is 5, the deviation 0, every z-score
    is 0/0 = nan, which exceeds no threshold. *)
Example constant_series_no_outlier :
  filter IS_OUTLIER
    (score 0%float [(1, 5%float); (2, 5%float); (3, 5%float); (4, 5%float)]) = [].
Proof. vm_compute. reflexivity. Qed.

(** A text cell in the value column raises under the [try]; the detector
    returns the empty table. *)
Example text_value_is_empty :
  detect_outliers_body day_of_cell stable_sorter
    {| columns := ["day"; "amount"]%string;
       rows := [ [CStr "1"; CNum 1%float]; [CStr "2"; CStr "many"] ]%string |}
    "day" "amount" default_threshold = Raise TypeError
  /\ detect_outliers day_of_cell stable_sorter
       {| columns := ["day"; "amount"]%string;
          rows := [ [CStr "1"; CNum 1%float]; [CStr "2"; CStr "many"] ]%string |}
       (Some "day"%string) (Some "amount"%string) default_threshold
     = Return empty_frame.
Proof. split; vm_compute; reflexivity. Qed.


End DashboardFacts.

(** ** Constant series under the two detectors *)

Module ConstantSeries.
Import Py Numpy Pandas SortFacts Aggregator FloatFacts.
Import InsightGenerator InsightFacts Dashboard DashboardFacts.








(** 0.1 and 1e-20, the doubles nearest to them. *)
Definition tenth : float := 0x1.999999999999ap-4%float.



(** The binary64 mean of three times 0.1 lies above 0.1. *)
Example mean_of_tenths :
  Series_mean [tenth; tenth; tenth] = 0x1.999999999999bp-4%float
  /\ PrimFloat.ltb tenth (Series_mean [tenth; tenth; tenth]) = true.
Proof. split; vm_compute; reflexivity. Qed.


Section Detectors.
Variable to_datetime : cell -> option Z.
Variables db_sort sorter : SortValues.
Variable th : Thresholds.


End Detectors.




End ConstantSeries.

(** ** The CSV loader *)

Module CSVLoaderFacts.
Import Py Pandas CSVLoader.

Lemma mapM_Forall2 {A B} (f : A -> outcome B) (l : list A) (ys : list B) :
  mapM f l = Return ys -> Forall2 (fun x y => f x = Return y) l ys.
Proof.
  revert ys. induction l as [|x l IH]; simpl; intros ys E.
  - inversion E. constructor.
  - destruct (f x) as [y|e] eqn:Fx; simpl in E; [|discriminate].
    destruct (mapM f l) as [ys'|e] eqn:Ml; simpl in E; [|discriminate].
    inversion E; subst. constructor; auto.
Qed.

Lemma column_index_bound (c : string) (cols : list string) (i : nat) :
  column_index c cols = Some i -> (i < List.length cols)%nat.
Proof.
  revert i. induction cols as [|h t IH]; simpl; intros i E; [discriminate|].
  destruct (String.eqb c h).
  - inversion E. lia.
  - destruct (column_index c t) as [j|]; simpl in E; [|discriminate].
    inversion E. specialize (IH j eq_refl). lia.
Qed.

Lemma column_index_name (c : string) (cols : list string) (i : nat) :
  column_index c cols = Some i -> nth_error cols i = Some c.
Proof.
  revert i. induction cols as [|h t IH]; simpl; intros i E; [discriminate|].
  destruct (String.eqb_spec c h) as [->|_].
  - inversion E. reflexivity.
  - destruct (column_index c t) as [j|]; simpl in E; [|discriminate].
    inversion E. simpl. apply IH. reflexivity.
Qed.

Lemma has_column_index (df : DataFrame) (c : string) :
  has_column df c = true -> exists i, column_index c (columns df) = Some i.
Proof.
  unfold has_column. induction (columns df) as [|h t IH]; simpl; [discriminate|].
  destruct (String.eqb c h); simpl; [eauto|].
  intros E. destruct (IH E) as [i ->]. simpl. eauto.
Qed.

Lemma has_column_no_index (df : DataFrame) (c : string) :
  has_column df c = false -> column_index c (columns df) = None.
Proof.
  unfold has_column. induction (columns df) as [|h t IH]; simpl; [reflexivity|].
  destruct (String.eqb c h); simpl; [discriminate|].
  intros E. rewrite (IH E). reflexivity.
Qed.

(** Every row of a table holds one cell per column. *)
Definition rectangular (df : DataFrame) : Prop :=
  Forall (fun r => List.length r = List.length (columns df)) (rows df).

Lemma read_csv_rectangular (f : CsvFile) (df : DataFrame) :
  read_csv f = Return df -> rectangular df.
Proof.
  unfold read_csv, rectangular.
  destruct (forallb _ (data_lines f)) eqn:E; [|discriminate].
  intros X. inversion X; subst; clear X. simpl.
  rewrite forallb_forall in E. rewrite Forall_forall. intros r Hr.
  apply in_map_iff in Hr. destruct Hr as [l [<- Hl]].
  specialize (E l Hl). apply Nat.leb_le in E.
  assert (Hw : (List.length (header f) <= width f)%nat).
  { unfold width. destruct (data_lines f); lia. }
  rewrite length_skipn. unfold pad. rewrite length_app, repeat_length. lia.
Qed.

Lemma set_nth_length (i : nat) (v : cell) (row : list cell) :
  List.length (set_nth i v row) = List.length row.
Proof.
  revert i. induction row as [|h t IH]; intros [|i]; simpl; auto.
Qed.

Lemma set_nth_other (i j : nat) (v : cell) (row : list cell) :
  i <> j -> nth j (set_nth i v row) Missing = nth j row Missing.
Proof.
  revert i j. induction row as [|h t IH]; intros [|i] [|j] Hij; simpl; auto;
    try congruence.
Qed.

(** What [convert_transaction_date] leaves of a table: the same columns,
    and row by row the same cells outside the date column. *)
Lemma convert_transaction_date_rows
  (parse_date : string -> option Z) (df df' : DataFrame) :
  convert_transaction_date parse_date df = Return df' ->
  columns df' = columns df
  /\ exists i, column_index "transaction_date" (columns df) = Some i
     /\ Forall2 (fun r r' => exists d, r' = set_nth i d r) (rows df) (rows df').
Proof.
  unfold convert_transaction_date.
  destruct (column_index "transaction_date" (columns df)) as [i|]; [|discriminate].
  destruct (mapM _ (rows df)) as [rows'|e] eqn:M; simpl; [|discriminate].
  intros X. inversion X; subst; clear X. simpl.
  split; [reflexivity|]. exists i. split; [reflexivity|].
  apply mapM_Forall2 in M.
  eapply Forall2_impl; [|exact M]. intros r r' Hr. simpl in Hr.
  destruct (to_datetime parse_date (nth i r Missing)) as [d|e]; simpl in Hr; [|discriminate].
  inversion Hr. eauto.
Qed.

(** After [fillna(0)], a present column holds no missing cell. *)
Lemma filled_cell (df : DataFrame) (c : string) (r : list cell) (i : nat) :
  column_index c (columns df) = Some i ->
  (i < List.length r)%nat ->
  cell_at (fillna0 df) c (map fill0 r) = fill0 (nth i r Missing).
Proof.
  intros Hi Hlen. unfold cell_at. simpl. rewrite Hi.
  rewrite (nth_indep _ Missing (fill0 Missing)) by (rewrite length_map; exact Hlen).
  apply map_nth.
Qed.

Lemma fill0_notna (c : cell) : notna (fill0 c) = true.
Proof. destruct c; reflexivity. Qed.

Section Loader.
Variable parse_date : string -> option Z.
Variable int_of_text : string -> option Z.
Variable float_of_text : string -> option Q.
Variable connect_ok : bool.
Variable db_accepts : list SalesTuple -> bool.
Variable archive_name : string -> string.
Variable archive_ok : bool.

Local Abbreviation load := (load_sales_data parse_date int_of_text float_of_text
                              connect_ok db_accepts archive_name archive_ok).
Local Abbreviation tuple_of := (data_tuple int_of_text float_of_text).

(** The region bound by one tuple, read off the source expression. *)
Lemma data_tuple_region (df : DataFrame) (row : list cell) (t : SalesTuple) :
  tuple_of df row = Return t ->
  match row_get df "region_id" row with
  | Some c => if notna c then exists r, py_int int_of_text c = Return r
                                        /\ t_region_id t = Some r
              else t_region_id t = None
  | None => t_region_id t = None
  end.
Proof.
  unfold data_tuple.
  destruct (py_int int_of_text (cell_at df "customer_id" row)); simpl; [|discriminate].
  destruct (py_int int_of_text (cell_at df "product_id" row)); simpl; [|discriminate].
  destruct (py_float float_of_text (cell_at df "quantity" row)); simpl; [|discriminate].
  destruct (py_float float_of_text (cell_at df "unit_price" row)); simpl; [|discriminate].
  destruct (py_float float_of_text (cell_at df "total_amount" row)); simpl; [|discriminate].
  destruct (row_get df "region_id" row) as [c|].
  - destruct (notna c).
    + destruct (py_int int_of_text c) as [r|e]; simpl; [|discriminate].
      destruct (match row_get df "discount_percentage" row with
                | Some c0 => py_float float_of_text c0
                | None => Return 0%Q
                end); simpl; [|discriminate].
      intros X. inversion X; subst. simpl. eauto.
    + simpl.
      destruct (match row_get df "discount_percentage" row with
                | Some c0 => py_float float_of_text c0
                | None => Return 0%Q
                end); simpl; [|discriminate].
      intros X. inversion X; subst. reflexivity.
  - simpl.
    destruct (match row_get df "discount_percentage" row with
              | Some c0 => py_float float_of_text c0
              | None => Return 0%Q
              end); simpl; [|discriminate].
    intros X. inversion X; subst. reflexivity.
Qed.

(** What a loaded tuple binds as region, against the row as read from the
    file: with a region_id column, some number, and 0 for a blank cell;
    without the column, NULL. *)
Definition region_bound (df : DataFrame) (row : list cell) (t : SalesTuple) : Prop :=
  if has_column df "region_id"
  then (exists z, t_region_id t = Some z)
       /\ (cell_at df "region_id" row = Missing -> t_region_id t = Some 0)
  else t_region_id t = None.

Lemma Forall2_right {A B} (R : A -> B -> Prop) (P : B -> Prop) (l : list A) (l' : list B) :
  Forall2 R l l' -> (forall a b, R a b -> P b) -> Forall P l'.
Proof.
  induction 1; intros HP; constructor; eauto.
Qed.

Lemma loaded_tuples (df df1 : DataFrame) (tuples : list SalesTuple) :
  rectangular df ->
  convert_transaction_date parse_date df = Return df1 ->
  mapM (tuple_of (fillna0 df1)) (rows (fillna0 df1)) = Return tuples ->
  Forall2 (region_bound df) (rows df) tuples.
Proof.
  intros Hrect Hconv Hmap.
  apply convert_transaction_date_rows in Hconv.
  destruct Hconv as [Hcols [i [Hi Hrows]]].
  apply mapM_Forall2 in Hmap.
  assert (Hhas : has_column (fillna0 df1) "region_id" = has_column df "region_id").
  { unfold has_column. simpl. rewrite Hcols. reflexivity. }
  unfold rectangular in Hrect.
  simpl in Hmap. revert tuples Hmap Hrect.
  induction Hrows as [|r r1 l l1 [d Hr] Hl IH]; intros tuples Hmap Hrect.
  - inversion Hmap. constructor.
  - simpl in Hmap. inversion Hmap as [|? t ? ts Ht Hts]; subst.
    inversion Hrect as [|? ? Hlen Hrect']; subst.
    constructor; [|apply IH; assumption].
    apply data_tuple_region in Ht.
    unfold region_bound, row_get in *. rewrite Hhas in Ht.
    destruct (has_column df "region_id") eqn:Hreg; [|exact Ht].
    destruct (has_column_index df "region_id" Hreg) as [j Hj].
    assert (Hij : i <> j).
    { intros ->. apply column_index_name in Hi, Hj. congruence. }
    assert (Hcell : cell_at (fillna0 df1) "region_id" (map fill0 (set_nth i d r))
                    = fill0 (nth j r Missing)).
    { rewrite (@filled_cell df1 "region_id" (set_nth i d r) j).
      - rewrite set_nth_other by exact Hij. reflexivity.
      - rewrite Hcols. exact Hj.
      - rewrite set_nth_length, Hlen. apply (column_index_bound _ _ Hj). }
    rewrite Hcell, fill0_notna in Ht. destruct Ht as [z [Hz Ht]].
    split; [eauto|].
    unfold cell_at. rewrite Hj. intros Hblank. rewrite Hblank in Hz.
    simpl in Hz. inversion Hz; subst. exact Ht.
Qed.

(** Rows that all have a region key are all kept by a grouping on region. *)
Lemma keyed_rows_kept (l : list SalesTuple) :
  Forall (fun t => t_region_id t <> None) l ->
  List.length (dropna_keys (map (fun t => (t_region_id t, t_total_amount t)) l))
  = List.length l.
Proof.
  induction 1 as [|t l Ht Hl IH]; simpl; [reflexivity|].
  destruct (t_region_id t); [simpl; rewrite IH; reflexivity|congruence].
Qed.

(** C7.  A file that is there and parses, but lacks a required column
    (unit_price, say), is rejected with the missing-columns error and the
    world is left as it was: no row is inserted, the file stays in the input
    directory and nothing is archived. *)
Theorem C7_missing_column_rejected (w : World) (csv_file : string)
  (f : CsvFile) (df : DataFrame) (c : string) :
  lookup csv_file (input_dir w) = Some f ->
  read_csv f = Return df ->
  In c required_columns ->
  has_column df c = false ->
  load w csv_file = (Raise (MissingColumns (missing_columns df)), w)
  /\ In c (missing_columns df)
  /\ sales_transactions (snd (load w csv_file)) = sales_transactions w
  /\ archive_dir (snd (load w csv_file)) = archive_dir w
  /\ input_dir (snd (load w csv_file)) = input_dir w.
Proof.
  intros Hf Hread Hreq Hmiss.
  assert (Hin : In c (missing_columns df)).
  { unfold missing_columns. apply filter_In. split; [exact Hreq|].
    rewrite Hmiss. reflexivity. }
  assert (Hload : load w csv_file = (Raise (MissingColumns (missing_columns df)), w)).
  { unfold load_sales_data. rewrite Hf, Hread.
    destruct (missing_columns df) as [|m ms]; [destruct Hin|reflexivity]. }
  rewrite Hload. simpl. auto.
Qed.

(** C9.  For a file that is there and parses: the rows the loader adds to
    the store are appended to it; when the file has a region_id column,
    none of them binds a NULL region, and on a successful load a row whose
    region cell was blank binds region 0; a grouping on region that drops
    null keys therefore keeps every inserted row; only when the file has no
    region_id column do the inserted rows bind NULL. *)
Theorem C9_region_never_null (w : World) (csv_file : string)
  (f : CsvFile) (df : DataFrame) :
  lookup csv_file (input_dir w) = Some f ->
  read_csv f = Return df ->
  exists inserted,
    sales_transactions (snd (load w csv_file)) = sales_transactions w ++ inserted
    /\ (has_column df "region_id" = true ->
          Forall (fun t => t_region_id t <> None) inserted)
    /\ (has_column df "region_id" = true ->
          forall n, fst (load w csv_file) = Return n ->
          Forall2 (fun row t => cell_at df "region_id" row = Missing ->
                                t_region_id t = Some 0)
                  (rows df) inserted)
    /\ (has_column df "region_id" = true ->
          List.length (dropna_keys
                         (map (fun t => (t_region_id t, t_total_amount t)) inserted))
          = List.length inserted)
    /\ (has_column df "region_id" = false ->
          Forall (fun t => t_region_id t = None) inserted).
Proof.
  intros Hf Hread.
  pose proof (read_csv_rectangular _ Hread) as Hrect.
  assert (Hnone : forall e,
            load w csv_file = (Raise e, w) ->
            exists inserted,
              sales_transactions (snd (load w csv_file)) = sales_transactions w ++ inserted
              /\ (has_column df "region_id" = true ->
                    Forall (fun t => t_region_id t <> None) inserted)
              /\ (has_column df "region_id" = true ->
                    forall n, fst (load w csv_file) = Return n ->
                    Forall2 (fun row t => cell_at df "region_id" row = Missing ->
                                          t_region_id t = Some 0)
                            (rows df) inserted)
              /\ (has_column df "region_id" = true ->
                    List.length (dropna_keys
                                   (map (fun t => (t_region_id t, t_total_amount t))
                                        inserted))
                    = List.length inserted)
              /\ (has_column df "region_id" = false ->
                    Forall (fun t => t_region_id t = None) inserted)).
  { intros e E. exists []. rewrite E. simpl. rewrite app_nil_r.
    repeat split; auto. intros _ n X. discriminate X. }
  unfold load_sales_data in *. rewrite Hf, Hread in *.
  destruct (missing_columns df) as [|m ms]; [|eapply Hnone; reflexivity].
  destruct (convert_transaction_date parse_date df) as [df1|e] eqn:Hconv;
    [|eapply Hnone; reflexivity].
  destruct connect_ok; simpl negb; cbv iota; [|eapply Hnone; reflexivity].
  destruct (mapM (tuple_of (fillna0 df1)) (rows (fillna0 df1))) as [tuples|e] eqn:Hmap;
    [|eapply Hnone; reflexivity].
  unfold execute_batch_insert in *.
  destruct (db_accepts tuples); [|eapply Hnone; reflexivity].
  clear Hnone. exists tuples. unfold archive. destruct archive_ok; simpl.
  all: pose proof (loaded_tuples Hrect Hconv Hmap) as Hb.
  all: unfold region_bound in Hb.
  all: assert (Hsome : has_column df "region_id" = true ->
                       Forall (fun t => t_region_id t <> None) tuples)
    by (intros Hreg; rewrite Hreg in Hb;
        eapply Forall2_right; [exact Hb|]; intros r t [[z Hz] _]; congruence).
  all: (split; [reflexivity|]; split; [exact Hsome|]; split; [|split]).
  - intros Hreg n _. rewrite Hreg in Hb.
    eapply Forall2_impl; [|exact Hb]. intros r t [_ H0]. exact H0.
  - intros Hreg. apply keyed_rows_kept, Hsome, Hreg.
  - intros Hreg. rewrite Hreg in Hb.
    eapply Forall2_right; [exact Hb|]. auto.
  - intros Hreg n X. discriminate X.
  - intros Hreg. apply keyed_rows_kept, Hsome, Hreg.
  - intros Hreg. rewrite Hreg in Hb.
    eapply Forall2_right; [exact Hb|]. auto.
Qed.

End Loader.

(** *** Worked files *)

(** Test readings of texts: every text is a date of day 0; no text is a number. *)
Definition any_date (s : string) : option Z := Some 0.
Definition no_int (s : string) : option Z := None.
Definition no_float (s : string) : option Q := None.
Definition stamped (name : string) : string := (name ++ ".archived")%string.

(** A file without the unit_price column. *)
Definition no_unit_price : CsvFile :=
  {| header := ["transaction_date"; "customer_id"; "product_id";
                "quantity"; "total_amount"; "region_id"]%string;
     lines := [ [Text "2024-01-05"; Num 1; Num 101; Num 2; Num 20; Num 3] ] |}.

(** A complete file; the second line has a blank region, the third is
    short (its region and discount are missing). *)
Definition complete_file : CsvFile :=
  {| header := ["transaction_date"; "customer_id"; "product_id"; "quantity";
                "unit_price"; "total_amount"; "region_id";
                "discount_percentage"]%string;
     lines := [ [Text "2024-01-05"; Num 1; Num 101; Num 2; Num 10; Num 20; Num 4; Num 0];
                [Text "2024-01-06"; Num 2; Num 102; Num 1; Num 5; Num 5; Missing; Num 10];
                [Text "2024-01-07"; Num 3; Num 103; Num 1; Num 7; Num 7] ] |}.

(** The same file without the region_id column. *)
Definition no_region_file : CsvFile :=
  {| header := ["transaction_date"; "customer_id"; "product_id"; "quantity";
                "unit_price"; "total_amount"]%string;
     lines := [ [Text "2024-01-05"; Num 1; Num 101; Num 2; Num 10; Num 20] ] |}.

Definition disk : World :=
  {| input_dir := [("bad.csv"%string, no_unit_price);
                   ("sales.csv"%string, complete_file);
                   ("plain.csv"%string, no_region_file)];
     archive_dir := [];
     sales_transactions := [] |}.

Definition frame_of (f : CsvFile) : DataFrame :=
  {| columns := header f; rows := map (pad (List.length (header f))) (lines f) |}.

Example complete_file_regions :
  let r := load_sales_data any_date no_int no_float true (fun _ => true) stamped true
             disk "sales.csv" in
  fst r = Return 3%nat
  /\ map t_region_id (sales_transactions (snd r)) = [Some 4; Some 0; Some 0]
  /\ map fst (archive_dir (snd r)) = ["sales.csv.archived"%string]
  /\ map fst (input_dir (snd r)) = ["bad.csv"; "plain.csv"]%string.
Proof. vm_compute. repeat split; reflexivity. Qed.

Example no_region_column_is_null :
  map t_region_id
    (sales_transactions
       (snd (load_sales_data any_date no_int no_float true (fun _ => true) stamped true
               disk "plain.csv")))
  = [None].
Proof. vm_compute. reflexivity. Qed.

(** A batch the database refuses is rolled back as a whole. *)
Example refused_batch_inserts_nothing :
  load_sales_data any_date no_int no_float true (fun _ => false) stamped true
    disk "sales.csv"
  = (Raise (DatabaseError "Batch insert failed"), disk).
Proof. vm_compute. reflexivity. Qed.

Lemma C7_missing_column_rejected_witness :
  load_sales_data any_date no_int no_float true (fun _ => true) stamped true disk "bad.csv"
  = (Raise (MissingColumns ["unit_price"%string]), disk).
Proof.
  exact (proj1 (@C7_missing_column_rejected any_date no_int no_float true
                  (fun _ => true) stamped true disk "bad.csv" no_unit_price
                  (frame_of no_unit_price) "unit_price"
                  eq_refl eq_refl
                  (or_intror (or_intror (or_intror (or_intror (or_introl eq_refl)))))
                  eq_refl)).
Defined.

Lemma C9_region_never_null_witness :
  exists inserted,
    sales_transactions
      (snd (load_sales_data any_date no_int no_float true (fun _ => true) stamped true
              disk "sales.csv"))
    = sales_transactions disk ++ inserted
    /\ Forall (fun t => t_region_id t <> None) inserted.
Proof.
  destruct (@C9_region_never_null any_date no_int no_float true (fun _ => true)
              stamped true disk "sales.csv" complete_file (frame_of complete_file)
              eq_refl eq_refl)
    as [inserted [Hstore [Hreg _]]].
  exists inserted. split; [exact Hstore|].
  apply Hreg. reflexivity.
Defined.

End CSVLoaderFacts.

(** ** The KPI calculator and the pipeline *)

Module KPICalculatorFacts.
Import Py Aggregator KPICalculator.
Local Open Scope conn_scope.

(** The KPI families, in the order [calculate_all_kpis] computes them. *)
Definition all_families : list kpi_name :=
  [REVENUE_BY_REGION; MONTHLY_REVENUE_TREND; TOP_CUSTOMERS;
   PRODUCT_PERFORMANCE; AVG_TRANSACTION_VALUE].

Definition family_args (start_date end_date top_n : Z) (f : kpi_name) : list Z :=
  match f with
  | TOP_CUSTOMERS => [start_date; end_date; top_n]
  | _ => [start_date; end_date]
  end.

Section Procedures.
Variable procedure :
  kpi_name -> list Z -> list KPIResult -> list KPIResult * option exn.
Variable load_sales_data : string -> M unit.
Variable validate_all : M unit.
Variable generate_all_charts : M unit.
Variable generate_all_reports : M unit.
Variable now : Z.

Variables start_date end_date top_n : Z.

(** Families computed one after the other, each followed by its commit. *)
Fixpoint run_families (fs : list kpi_name) : M unit :=
  match fs with
  | [] => ret tt
  | f :: fs' =>
      callproc procedure f (family_args start_date end_date top_n f) ;;
      commit ;;
      run_families fs'
  end.

Lemma calculate_all_kpis_try_families (c : Connection) :
  calculate_all_kpis_try procedure start_date end_date top_n c
  = try_with (run_families all_families) (fun e => rollback ;; raise e) c.
Proof.
  unfold calculate_all_kpis_try, try_with, all_families,
    run_families, bindM, callproc, commit, family_args, ret. simpl.
  repeat (match goal with
          | |- context [procedure ?f ?a ?v] =>
              destruct (procedure f a v) as [? [?|]]; simpl
          end); reflexivity.
Qed.

Lemma calculate_all_kpis_families (connect : outcome unit) (c : Connection) :
  calculate_all_kpis procedure connect start_date end_date top_n c
  = with_OracleConnector connect
      (try_with (run_families all_families) (fun e => rollback ;; raise e)) c.
Proof.
  unfold calculate_all_kpis, with_OracleConnector.
  destruct connect; [|reflexivity].
  rewrite calculate_all_kpis_try_families. reflexivity.
Qed.

Lemma callproc_effect (f : kpi_name) (args : list Z) (c c' : Connection)
  (r : outcome unit) :
  callproc procedure f args c = (r, c') ->
  committed c' = committed c
  /\ calls c' = calls c ++ [f]
  /\ exists writes, pending c' = pending c ++ writes.
Proof.
  unfold callproc.
  destruct (procedure f args (committed c ++ pending c)) as [writes [e|]];
    intros X; inversion X; subst; simpl; eauto.
Qed.

(** A run of families up to one whose procedure raises. *)
Lemma run_families_failing (done rest : list kpi_name) (failed : kpi_name)
  (c cd cf : Connection) (err : exn) :
  run_families done c = (Return tt, cd) ->
  callproc procedure failed (family_args start_date end_date top_n failed) cd
  = (Raise err, cf) ->
  run_families (done ++ failed :: rest) c = (Raise err, cf).
Proof.
  revert c. induction done as [|f done IH]; intros c Hdone Hfail.
  - inversion Hdone; subst. simpl. unfold bindM at 1. rewrite Hfail. reflexivity.
  - simpl in *. unfold bindM at 1 in Hdone. unfold bindM at 1.
    destruct (callproc procedure f (family_args start_date end_date top_n f) c)
      as [[[]|e] c1]; [|discriminate Hdone].
    unfold bindM at 1 in Hdone. unfold bindM at 1.
    destruct (commit c1) as [[[]|e] c2]; [|discriminate Hdone].
    apply IH; assumption.
Qed.

Lemma run_families_done (fs : list kpi_name) (c cd : Connection) :
  pending c = [] ->
  run_families fs c = (Return tt, cd) ->
  pending cd = []
  /\ calls cd = calls c ++ fs
  /\ exists w, committed cd = committed c ++ w.
Proof.
  revert c. induction fs as [|f fs IH]; intros c Hp Hrun.
  - inversion Hrun; subst. rewrite app_nil_r. split; [exact Hp|].
    split; [reflexivity|]. exists []. rewrite app_nil_r. reflexivity.
  - simpl in Hrun. unfold bindM at 1 in Hrun.
    destruct (callproc procedure f (family_args start_date end_date top_n f) c)
      as [[[]|e] c1] eqn:Hcall; [|discriminate Hrun].
    unfold bindM at 1 in Hrun. simpl in Hrun.
    destruct (callproc_effect _ _ _ Hcall) as [Hc1 [Hl1 [w Hw1]]].
    set (c2 := {| committed := committed c1 ++ pending c1;
                  pending := []; calls := calls c1 |}) in *.
    destruct (IH c2 eq_refl Hrun) as [Hpd [Hcalls [w' Hw']]].
    split; [exact Hpd|]. split.
    + rewrite Hcalls. simpl. rewrite Hl1, <- app_assoc. reflexivity.
    + exists (pending c1 ++ w'). rewrite Hw'. simpl.
      rewrite Hc1, <- app_assoc. reflexivity.
Qed.

(** The stages of [main] before the aggregation. *)
Definition before_aggregating (argv : list string) : M unit :=
  (match argv with
   | _ :: csv_file :: _ => load_sales_data csv_file
   | _ => ret tt
   end) ;;
  validate_all.

(** The state a failed aggregation leaves: the rows committed by the
    families before the failing one, nothing uncommitted. *)
Definition rolled_back (cd cf : Connection) : Connection :=
  {| committed := committed cd; pending := []; calls := calls cf |}.

(** C8.  On a connection that was opened, let the families [done] be
    computed, each call followed by its own commit, and let the procedure of
    the next family, [failed], raise (after whatever it wrote, uncommitted).
    Then the [try] statement leaves the connection with the rows committed
    by the families [done] (which extend what was committed before) and
    with the failing family's writes rolled back, before the connection is
    closed (the failing call itself committed nothing);
    [calculate_all_kpis] raises the same error with that state; the
    procedures called are those of [done] and [failed], none of the
    remaining ones; and [main], having reached the aggregation, ends in the
    Failed state without running the charts and reports. *)
Theorem C8_family_transactions (done rest : list kpi_name) (failed : kpi_name)
  (c cd cf : Connection) (err : exn) :
  all_families = done ++ failed :: rest ->
  run_families done (fresh c) = (Return tt, cd) ->
  callproc procedure failed (family_args start_date end_date top_n failed) cd
  = (Raise err, cf) ->
  calculate_all_kpis_try procedure start_date end_date top_n (fresh c)
  = (Raise err, rolled_back cd cf)
  /\ calculate_all_kpis procedure (Return tt) start_date end_date top_n c
     = (Raise err, rolled_back cd cf)
  /\ committed cf = committed cd
  /\ (exists w, committed (rolled_back cd cf) = committed c ++ w)
  /\ calls (rolled_back cd cf) = calls c ++ done ++ [failed]
  /\ (forall argv c0,
        start_date = now - 30 -> end_date = now -> top_n = 10 ->
        before_aggregating argv c0 = (Return tt, c) ->
        main procedure (Return tt) load_sales_data validate_all generate_all_charts
             generate_all_reports now argv c0
        = (Failed, rolled_back cd cf)).
Proof.
  intros Hfs Hdone Hfail.
  destruct (run_families_done done (fresh c) eq_refl Hdone) as [Hpd [Hcalls Hw]].
  destruct (callproc_effect _ _ _ Hfail) as [Hc1 [Hl1 [writes Hw1]]].
  assert (Htry : calculate_all_kpis_try procedure start_date end_date top_n (fresh c)
                 = (Raise err, rolled_back cd cf)).
  { rewrite calculate_all_kpis_try_families. unfold try_with.
    rewrite Hfs, (@run_families_failing done rest failed _ _ _ _ Hdone Hfail).
    unfold bindM, rollback, raise, rolled_back. simpl. rewrite Hc1. reflexivity. }
  assert (Hcalc : calculate_all_kpis procedure (Return tt) start_date end_date top_n c
                  = (Raise err, rolled_back cd cf)).
  { unfold calculate_all_kpis, with_OracleConnector. rewrite Htry. reflexivity. }
  split; [exact Htry|]. split; [exact Hcalc|].
  split; [exact Hc1|]. split; [exact Hw|]. split.
  { simpl. rewrite Hl1, Hcalls. simpl. rewrite app_assoc. reflexivity. }
  intros argv c0 -> -> -> Hbefore.
  unfold main. unfold before_aggregating in Hbefore.
  unfold bindM at 1 in Hbefore. unfold bindM at 1.
  destruct (match argv with
            | _ :: csv_file :: _ => load_sales_data csv_file
            | _ => ret tt
            end c0) as [[[]|e] c1]; [|discriminate Hbefore].
  unfold bindM at 1. rewrite Hbefore.
  unfold bindM at 1. rewrite Hcalc. reflexivity.
Qed.

End Procedures.

(** *** A run in which the third family fails *)

Definition written (f : kpi_name) : KPIResult :=
  {| KPI_NAME := f; KPI_VALUE := 1%Q; KPI_DATE := 0; REGION_ID := None |}.

(** Every procedure writes one row; CALC_TOP_CUSTOMERS then raises. *)
Definition failing_top_customers (f : kpi_name) (args : list Z)
  (visible : list KPIResult) : list KPIResult * option exn :=
  match f with
  | TOP_CUSTOMERS => ([written f], Some (DatabaseError "ORA-06502"))
  | _ => ([written f], None)
  end.

Definition idle : Connection := {| committed := []; pending := []; calls := [] |}.

Definition after_failure : Connection :=
  {| committed := [written REVENUE_BY_REGION; written MONTHLY_REVENUE_TREND];
     pending := [];
     calls := [REVENUE_BY_REGION; MONTHLY_REVENUE_TREND; TOP_CUSTOMERS] |}.

Definition before_failure : Connection :=
  {| committed := [written REVENUE_BY_REGION; written MONTHLY_REVENUE_TREND];
     pending := [];
     calls := [REVENUE_BY_REGION; MONTHLY_REVENUE_TREND] |}.

Definition at_failure : Connection :=
  {| committed := [written REVENUE_BY_REGION; written MONTHLY_REVENUE_TREND];
     pending := [written TOP_CUSTOMERS];
     calls := [REVENUE_BY_REGION; MONTHLY_REVENUE_TREND; TOP_CUSTOMERS] |}.

Example third_family_fails :
  calculate_all_kpis failing_top_customers (Return tt) 0 30 10 idle
  = (Raise (DatabaseError "ORA-06502"), after_failure).
Proof. reflexivity. Qed.

(** Without a connection nothing is called. *)
Example no_connection :
  calculate_all_kpis failing_top_customers (Raise (DatabaseError "ORA-12541")) 0 30 10 idle
  = (Raise (DatabaseError "ORA-12541"), idle).
Proof. reflexivity. Qed.

Lemma C8_family_transactions_witness :
  calculate_all_kpis_try failing_top_customers 0 30 10 (fresh idle)
  = (Raise (DatabaseError "ORA-06502"), after_failure)
  /\ main failing_top_customers (Return tt) (fun _ => ret tt) (ret tt) (ret tt) (ret tt) 30
          ["main.py"%string] idle
     = (Failed, after_failure).
Proof.
  destruct (@C8_family_transactions failing_top_customers
              (fun _ => ret tt) (ret tt) (ret tt) (ret tt) 30 0 30 10
              [REVENUE_BY_REGION; MONTHLY_REVENUE_TREND]
              [PRODUCT_PERFORMANCE; AVG_TRANSACTION_VALUE] TOP_CUSTOMERS
              idle before_failure at_failure (DatabaseError "ORA-06502")
              eq_refl eq_refl eq_refl)
    as (Htry & _ & _ & _ & _ & Hmain).
  split; [exact Htry|].
  apply Hmain; reflexivity.
Defined.

End KPICalculatorFacts.

(* ================================================================== *)
(** * Further properties of the sources *)

(** ** Sorted lists *)

Module ListProperties.

Lemma sorted_app {A} (R : A -> A -> Prop) (l1 l2 : list A) :
  StronglySorted R (l1 ++ l2) ->
  forall a b, In a l1 -> In b l2 -> R a b.
Proof.
  induction l1 as [|h t IH]; simpl; intros Hs a b Ha Hb; [contradiction|].
  inversion Hs as [|? ? Hs' Hall]; subst.
  destruct Ha as [<-|Ha].
  - rewrite Forall_forall in Hall. apply Hall. apply in_or_app. right. exact Hb.
  - apply IH; assumption.
Qed.

Lemma sorted_hd {A} (R : A -> A -> Prop) (d : A) (l : list A) :
  (forall x, R x x) -> StronglySorted R l ->
  forall x, In x l -> R (List.hd d l) x.
Proof.
  intros Hrefl Hs x Hx. destruct Hs as [|h t Hs Hall]; [contradiction|].
  simpl. destruct Hx as [<-|Hx]; [apply Hrefl|].
  rewrite Forall_forall in Hall. auto.
Qed.

Lemma sorted_last {A} (R : A -> A -> Prop) (d : A) (l : list A) :
  (forall x, R x x) -> StronglySorted R l ->
  forall x, In x l -> R x (List.last l d).
Proof.
  intros Hrefl Hs. induction Hs as [|h t Hs IH Hall]; intros x Hx; [contradiction|].
  destruct t as [|h' t'].
  - destruct Hx as [<-|[]]. apply Hrefl.
  - change (List.last (h :: h' :: t') d) with (List.last (h' :: t') d).
    destruct Hx as [<-|Hx]; [|apply IH; exact Hx].
    rewrite Forall_forall in Hall. apply Hall.
    clear. revert h'. induction t' as [|y t' IH]; intros h'; [left; reflexivity|].
    change (List.last (h' :: y :: t') d) with (List.last (y :: t') d).
    right. apply IH.
Qed.

Lemma hd_In {A} (d : A) (l : list A) : l <> [] -> In (List.hd d l) l.
Proof. destruct l; [congruence|]. left. reflexivity. Qed.

Lemma last_In {A} (d : A) (l : list A) : l <> [] -> In (List.last l d) l.
Proof.
  induction l as [|x l IH]; [congruence|]. intros _.
  destruct l as [|y l]; [left; reflexivity|].
  right. apply IH. discriminate.
Qed.

End ListProperties.

(** ** The loader: atomicity, the effect of a successful load, blanks *)

Module LoaderProperties.
Import Py Pandas CSVLoader CSVLoaderFacts.

Lemma mapM_length {A B} (f : A -> outcome B) (l : list A) (ys : list B) :
  mapM f l = Return ys -> List.length ys = List.length l.
Proof.
  intros E. apply mapM_Forall2 in E.
  induction E; simpl; congruence.
Qed.

Lemma lookup_absent {A} (name : string) (dir : list (string * A)) :
  ~ In name (map fst dir) -> lookup name dir = None.
Proof.
  induction dir as [|[n f] dir IH]; simpl; intros Hn; [reflexivity|].
  destruct (String.eqb_spec name n) as [->|_].
  - exfalso. apply Hn. left. reflexivity.
  - apply IH. intros Hin. apply Hn. right. exact Hin.
Qed.

Lemma lookup_remove {A} (name : string) (dir : list (string * A)) :
  NoDup (map fst dir) -> lookup name (remove name dir) = None.
Proof.
  induction dir as [|[n f] dir IH]; simpl; intros Hnd; [reflexivity|].
  inversion Hnd as [|? ? Hn Hnd']; subst.
  destruct (String.eqb_spec name n) as [->|Hne].
  - apply lookup_absent. exact Hn.
  - simpl. destruct (String.eqb_spec name n); [contradiction|]. apply IH. exact Hnd'.
Qed.

Section Loader.
Variable parse_date : string -> option Z.
Variable int_of_text : string -> option Z.
Variable float_of_text : string -> option Q.
Variable connect_ok : bool.
Variable db_accepts : list SalesTuple -> bool.
Variable archive_name : string -> string.
Variable archive_ok : bool.

Local Abbreviation load := (load_sales_data parse_date int_of_text float_of_text
                              connect_ok db_accepts archive_name archive_ok).
Local Abbreviation tuple_of := (data_tuple int_of_text float_of_text).

(** The world after a batch was committed and the file could not be
    archived. *)
Definition stored_not_archived (w : World) (inserted : list SalesTuple) : World :=
  {| input_dir := input_dir w;
     archive_dir := archive_dir w;
     sales_transactions := sales_transactions w ++ inserted |}.

(** X1.  A load is atomic up to the archive step only.  A load that raises
    for any reason before it -- file not found, parser error, missing
    columns, unreadable date, no connection, a cell that is no number, a
    batch the database refuses -- leaves the store, the input directory and
    the archive exactly as they were.  When [mkdir] or [rename] fails, the
    load raises after the batch was committed: the rows stay stored and the
    file stays in the input directory. *)
Theorem load_failure_effect (w : World) (csv_file : string) (e : exn) :
  fst (load w csv_file) = Raise e ->
  (archive_ok = true -> snd (load w csv_file) = w)
  /\ (snd (load w csv_file) = w
      \/ (archive_ok = false
          /\ e = OSError "archive"
          /\ exists f df inserted,
               lookup csv_file (input_dir w) = Some f
               /\ read_csv f = Return df
               /\ List.length inserted = List.length (rows df)
               /\ db_accepts inserted = true
               /\ snd (load w csv_file) = stored_not_archived w inserted)).
Proof.
  unfold load_sales_data, execute_batch_insert, archive.
  destruct (lookup csv_file (input_dir w)) as [f|]; [|auto].
  destruct (read_csv f) as [df|e0] eqn:Hread; [|auto].
  destruct (missing_columns df); [|auto].
  destruct (convert_transaction_date parse_date df) as [df1|e1] eqn:Hconv; [|auto].
  destruct connect_ok; simpl negb; cbv iota; [|auto].
  destruct (mapM (tuple_of (fillna0 df1)) (rows (fillna0 df1))) as [tuples|e2] eqn:Hmap;
    [|auto].
  destruct (db_accepts tuples) eqn:Hacc; [|auto].
  destruct archive_ok; [discriminate|].
  intros X. inversion X; subst; clear X. split; [discriminate|]. right.
  split; [reflexivity|]. split; [reflexivity|].
  exists f, df, tuples. split; [reflexivity|]. split; [exact Hread|].
  split; [|split; [exact Hacc|reflexivity]].
  rewrite (mapM_length _ _ Hmap). simpl. rewrite length_map.
  apply convert_transaction_date_rows in Hconv.
  destruct Hconv as [_ [i [_ Hrows]]].
  clear -Hrows. induction Hrows; simpl; congruence.
Qed.

(** X2.  A load that returns [n] found the file and parsed it into a table
    of [n] rows, one per non-blank data line; it inserted exactly [n] rows,
    after the rows already stored, in a batch the database accepted, and
    moved the file from the input directory to the archive. *)
Theorem load_success_effect (w w' : World) (csv_file : string) (n : nat) :
  load w csv_file = (Return n, w') ->
  exists f df inserted,
    lookup csv_file (input_dir w) = Some f
    /\ read_csv f = Return df
    /\ n = List.length (rows df)
    /\ n = List.length (data_lines f)
    /\ List.length inserted = n
    /\ sales_transactions w' = sales_transactions w ++ inserted
    /\ input_dir w' = remove csv_file (input_dir w)
    /\ archive_dir w' = (archive_name csv_file, f) :: archive_dir w
    /\ db_accepts inserted = true
    /\ connect_ok = true
    /\ archive_ok = true.
Proof.
  unfold load_sales_data, execute_batch_insert, archive.
  destruct (lookup csv_file (input_dir w)) as [f|]; [|discriminate].
  destruct (read_csv f) as [df|e0] eqn:Hread; [|discriminate].
  destruct (missing_columns df); [|discriminate].
  destruct (convert_transaction_date parse_date df) as [df1|e1] eqn:Hconv; [|discriminate].
  destruct connect_ok; simpl negb; cbv iota; [|discriminate].
  destruct (mapM (tuple_of (fillna0 df1)) (rows (fillna0 df1))) as [tuples|e2] eqn:Hmap;
    [|discriminate].
  destruct (db_accepts tuples) eqn:Hacc; [|discriminate].
  destruct archive_ok; [|discriminate].
  intros X. inversion X; subst; clear X. simpl.
  assert (Hrows : List.length (rows df1) = List.length (rows df)).
  { apply convert_transaction_date_rows in Hconv.
    destruct Hconv as [_ [i [_ Hrows]]].
    clear -Hrows. induction Hrows; simpl; congruence. }
  assert (Hlines : List.length (rows df) = List.length (data_lines f)).
  { unfold read_csv in Hread.
    destruct (forallb _ (data_lines f)); [|discriminate].
    inversion Hread; subst. simpl. apply length_map. }
  exists f, df, tuples. split; [reflexivity|]. split; [exact Hread|].
  split; [rewrite length_map; exact Hrows|].
  split; [rewrite length_map, Hrows; exact Hlines|].
  split; [rewrite (mapM_length _ _ Hmap); reflexivity|].
  repeat split; auto.
Qed.

Lemma load_success_input_dir (w w' : World) (csv_file : string) (n : nat) :
  load w csv_file = (Return n, w') ->
  input_dir w' = remove csv_file (input_dir w).
Proof.
  unfold load_sales_data, execute_batch_insert.
  destruct (lookup csv_file (input_dir w)) as [f|]; [|discriminate].
  destruct (read_csv f) as [df|e0]; [|discriminate].
  destruct (missing_columns df); [|discriminate].
  destruct (convert_transaction_date parse_date df) as [df1|e1]; [|discriminate].
  destruct connect_ok; simpl negb; cbv iota; [|discriminate].
  destruct (mapM (tuple_of (fillna0 df1)) (rows (fillna0 df1))) as [tuples|e2];
    [|discriminate].
  destruct (db_accepts tuples); [|discriminate].
  unfold archive. destruct archive_ok; [|discriminate].
  intros X. inversion X; subst. reflexivity.
Qed.

(** X3.  A file is loaded once: after a successful load it is no longer in the
    input directory, and loading it again raises FileNotFoundError (and so
    inserts nothing a second time). *)
Theorem load_twice_not_found (w w' : World) (csv_file : string) (n : nat) :
  NoDup (map fst (input_dir w)) ->
  load w csv_file = (Return n, w') ->
  load w' csv_file = (Raise FileNotFoundError, w').
Proof.
  intros Hnd Hload.
  pose proof (load_success_input_dir _ _ Hload) as Hdir.
  unfold load_sales_data. rewrite Hdir, (lookup_remove _ _ Hnd). reflexivity.
Qed.

(** Every field a tuple binds, read off the source expression. *)
Lemma data_tuple_fields (df : DataFrame) (row : list cell) (t : SalesTuple) :
  tuple_of df row = Return t ->
  py_int int_of_text (cell_at df "customer_id" row) = Return (t_customer_id t)
  /\ py_int int_of_text (cell_at df "product_id" row) = Return (t_product_id t)
  /\ py_float float_of_text (cell_at df "quantity" row) = Return (t_quantity t)
  /\ py_float float_of_text (cell_at df "unit_price" row) = Return (t_unit_price t)
  /\ py_float float_of_text (cell_at df "total_amount" row) = Return (t_total_amount t)
  /\ match row_get df "discount_percentage" row with
     | Some c => py_float float_of_text c = Return (t_discount_percentage t)
     | None => t_discount_percentage t = 0%Q
     end.
Proof.
  unfold data_tuple.
  destruct (py_int int_of_text (cell_at df "customer_id" row)); simpl; [|discriminate].
  destruct (py_int int_of_text (cell_at df "product_id" row)); simpl; [|discriminate].
  destruct (py_float float_of_text (cell_at df "quantity" row)); simpl; [|discriminate].
  destruct (py_float float_of_text (cell_at df "unit_price" row)); simpl; [|discriminate].
  destruct (py_float float_of_text (cell_at df "total_amount" row)); simpl; [|discriminate].
  destruct (match row_get df "region_id" row with
            | Some c => if notna c then bind (py_int int_of_text c) (fun r => Return (Some r))
                        else Return None
            | None => Return None
            end); simpl; [|discriminate].
  destruct (row_get df "discount_percentage" row) as [c|].
  - destruct (py_float float_of_text c); simpl; [|discriminate].
    intros X. inversion X; subst. simpl. repeat split; reflexivity.
  - simpl. intros X. inversion X; subst. simpl. repeat split; reflexivity.
Qed.

(** The cell a tuple reads in a column other than the date column: the
    cell of the file, with a blank replaced by 0. *)
Lemma loaded_cell (df df1 : DataFrame) (c : string) (i : nat) (d : cell) (r : list cell) :
  columns df1 = columns df ->
  column_index "transaction_date" (columns df) = Some i ->
  c <> "transaction_date"%string ->
  List.length r = List.length (columns df) ->
  cell_at (fillna0 df1) c (map fill0 (set_nth i d r))
  = match column_index c (columns df) with
    | Some _ => fill0 (cell_at df c r)
    | None => Missing
    end.
Proof.
  intros Hcols Hi Hc Hlen.
  destruct (column_index c (columns df)) as [j|] eqn:Hj.
  - rewrite (@filled_cell df1 c (set_nth i d r) j).
    + unfold cell_at. rewrite Hj. rewrite set_nth_other; [reflexivity|].
      intros ->. apply column_index_name in Hi, Hj. congruence.
    + rewrite Hcols. exact Hj.
    + rewrite set_nth_length, Hlen. apply (column_index_bound _ _ Hj).
  - unfold cell_at. simpl. rewrite Hcols, Hj. reflexivity.
Qed.

(** What a loaded tuple binds where the file has a blank. *)
Definition blanks_are_zero (df : DataFrame) (row : list cell) (t : SalesTuple) : Prop :=
  (cell_at df "customer_id" row = Missing -> t_customer_id t = 0)
  /\ (cell_at df "product_id" row = Missing -> t_product_id t = 0)
  /\ (cell_at df "quantity" row = Missing -> t_quantity t = 0%Q)
  /\ (cell_at df "unit_price" row = Missing -> t_unit_price t = 0%Q)
  /\ (cell_at df "total_amount" row = Missing -> t_total_amount t = 0%Q)
  /\ (cell_at df "discount_percentage" row = Missing -> t_discount_percentage t = 0%Q).

Lemma py_int_blank (df : DataFrame) (c : string) (row : list cell) (z : Z) :
  py_int int_of_text
    (match column_index c (columns df) with
     | Some _ => fill0 (cell_at df c row)
     | None => Missing
     end) = Return z ->
  cell_at df c row = Missing -> z = 0.
Proof.
  intros E Hb. rewrite Hb in E.
  destruct (column_index c (columns df)); simpl in E; [|discriminate].
  inversion E. reflexivity.
Qed.

Lemma py_float_blank (df : DataFrame) (c : string) (row : list cell) (q : Q) :
  py_float float_of_text
    (match column_index c (columns df) with
     | Some _ => fill0 (cell_at df c row)
     | None => Missing
     end) = Return q ->
  cell_at df c row = Missing -> q = 0%Q.
Proof.
  intros E Hb. rewrite Hb in E.
  destruct (column_index c (columns df)); simpl in E; [|discriminate].
  inversion E. reflexivity.
Qed.

Lemma loaded_blanks (df df1 : DataFrame) (tuples : list SalesTuple) :
  rectangular df ->
  convert_transaction_date parse_date df = Return df1 ->
  mapM (tuple_of (fillna0 df1)) (rows (fillna0 df1)) = Return tuples ->
  Forall2 (blanks_are_zero df) (rows df) tuples.
Proof.
  intros Hrect Hconv Hmap.
  apply convert_transaction_date_rows in Hconv.
  destruct Hconv as [Hcols [i [Hi Hrows]]].
  apply mapM_Forall2 in Hmap.
  assert (Hhas : has_column (fillna0 df1) "discount_percentage"
                 = has_column df "discount_percentage").
  { unfold has_column. simpl. rewrite Hcols. reflexivity. }
  unfold rectangular in Hrect.
  simpl in Hmap. revert tuples Hmap Hrect.
  induction Hrows as [|r r1 l l1 [d Hr] Hl IH]; intros tuples Hmap Hrect.
  - inversion Hmap. constructor.
  - simpl in Hmap. inversion Hmap as [|? t ? ts Ht Hts]; subst.
    inversion Hrect as [|? ? Hlen Hrect']; subst.
    constructor; [|apply IH; assumption].
    apply data_tuple_fields in Ht.
    destruct Ht as [Hcust [Hprod [Hqty [Hprice [Htotal Hdisc]]]]].
    rewrite (@loaded_cell df df1 "customer_id" i d r Hcols Hi) in Hcust
      by (auto; discriminate).
    rewrite (@loaded_cell df df1 "product_id" i d r Hcols Hi) in Hprod
      by (auto; discriminate).
    rewrite (@loaded_cell df df1 "quantity" i d r Hcols Hi) in Hqty
      by (auto; discriminate).
    rewrite (@loaded_cell df df1 "unit_price" i d r Hcols Hi) in Hprice
      by (auto; discriminate).
    rewrite (@loaded_cell df df1 "total_amount" i d r Hcols Hi) in Htotal
      by (auto; discriminate).
    unfold blanks_are_zero.
    split; [eapply py_int_blank; eassumption|].
    split; [eapply py_int_blank; eassumption|].
    split; [eapply py_float_blank; eassumption|].
    split; [eapply py_float_blank; eassumption|].
    split; [eapply py_float_blank; eassumption|].
    unfold row_get in Hdisc. rewrite Hhas in Hdisc.
    destruct (has_column df "discount_percentage") eqn:Hd.
    + rewrite (@loaded_cell df df1 _ i d r Hcols Hi) in Hdisc by (auto; discriminate).
      eapply py_float_blank; eassumption.
    + intros _. exact Hdisc.
Qed.

(** X4.  Blanks are silently loaded as zeros: after a successful load, a row
    whose customer, product, quantity, unit price or total amount cell is
    blank binds 0 in that position, and so does a row with a blank discount
    or a file without a discount_percentage column. *)
Theorem load_blanks_as_zero (w w' : World) (csv_file : string) (n : nat) :
  load w csv_file = (Return n, w') ->
  exists f df inserted,
    lookup csv_file (input_dir w) = Some f
    /\ read_csv f = Return df
    /\ sales_transactions w' = sales_transactions w ++ inserted
    /\ Forall2 (blanks_are_zero df) (rows df) inserted.
Proof.
  unfold load_sales_data, execute_batch_insert.
  destruct (lookup csv_file (input_dir w)) as [f|]; [|discriminate].
  destruct (read_csv f) as [df|e0] eqn:Hread; [|discriminate].
  destruct (missing_columns df); [|discriminate].
  destruct (convert_transaction_date parse_date df) as [df1|e1] eqn:Hconv; [|discriminate].
  destruct connect_ok; simpl negb; cbv iota; [|discriminate].
  destruct (mapM (tuple_of (fillna0 df1)) (rows (fillna0 df1))) as [tuples|e2] eqn:Hmap;
    [|discriminate].
  destruct (db_accepts tuples) eqn:Hacc; [|discriminate].
  unfold archive. destruct archive_ok; [|discriminate].
  intros X. inversion X; subst; clear X. simpl.
  exists f, df, tuples. repeat split; auto.
  apply (loaded_blanks (read_csv_rectangular _ Hread) Hconv Hmap).
Qed.

End Loader.

(** *** Witnesses on the worked files *)

Definition clean_disk : World :=
  {| input_dir := [("sales.csv"%string, complete_file)];
     archive_dir := [];
     sales_transactions := [] |}.

Definition loaded_disk : World :=
  snd (load_sales_data any_date no_int no_float true (fun _ => true) stamped true
         clean_disk "sales.csv").

(** A third file: a blank line between its two data lines. *)
Definition spaced_file : CsvFile :=
  {| header := header no_region_file;
     lines := lines no_region_file ++ [[]] ++ lines no_region_file |}.

Definition spaced_disk : World :=
  {| input_dir := [("spaced.csv"%string, spaced_file)];
     archive_dir := [];
     sales_transactions := [] |}.

Lemma load_failure_effect_witness :
  exists inserted,
    List.length inserted = 2%nat
    /\ load_sales_data any_date no_int no_float true (fun _ => true) stamped false
         spaced_disk "spaced.csv"
       = (Raise (OSError "archive"), stored_not_archived spaced_disk inserted).
Proof.
  destruct (@load_failure_effect any_date no_int no_float true
              (fun _ => true) stamped false spaced_disk "spaced.csv"
              (OSError "archive") eq_refl)
    as [_ [E|(_ & _ & f & df & inserted & Hf & Hdf & Hlen & _ & E)]].
  - discriminate E.
  - exists inserted. inversion Hf; subst f. inversion Hdf; subst df.
    split; [exact Hlen|].
    rewrite (surjective_pairing (load_sales_data _ _ _ _ _ _ _ _ _)), E.
    reflexivity.
Defined.

Lemma load_success_effect_witness :
  exists inserted,
    List.length inserted = 2%nat
    /\ sales_transactions
         (snd (load_sales_data any_date no_int no_float true (fun _ => true) stamped true
                 spaced_disk "spaced.csv"))
       = inserted.
Proof.
  destruct (@load_success_effect any_date no_int no_float true (fun _ => true) stamped true
              spaced_disk
              (snd (load_sales_data any_date no_int no_float true (fun _ => true)
                      stamped true spaced_disk "spaced.csv"))
              "spaced.csv" 2%nat eq_refl)
    as (f & df & inserted & _ & _ & _ & _ & Hlen & E & _).
  exists inserted. split; [exact Hlen|exact E].
Defined.

Lemma load_twice_not_found_witness :
  load_sales_data any_date no_int no_float true (fun _ => true) stamped true
    loaded_disk "sales.csv"
  = (Raise FileNotFoundError, loaded_disk).
Proof.
  apply (@load_twice_not_found any_date no_int no_float true (fun _ => true) stamped true
           clean_disk loaded_disk "sales.csv" 3%nat).
  - repeat constructor. simpl. tauto.
  - vm_compute. reflexivity.
Defined.

Lemma load_blanks_as_zero_witness :
  exists f df inserted,
    lookup "sales.csv" (input_dir clean_disk) = Some f
    /\ read_csv f = Return df
    /\ sales_transactions loaded_disk = sales_transactions clean_disk ++ inserted
    /\ Forall2 (blanks_are_zero df) (rows df) inserted.
Proof.
  apply (@load_blanks_as_zero any_date no_int no_float true (fun _ => true) stamped true
           clean_disk loaded_disk "sales.csv" 3%nat).
  vm_compute. reflexivity.
Defined.

End LoaderProperties.

(** ** The KPI calculator: what every run keeps *)

Module CalculatorProperties.
Import Py Aggregator KPICalculator KPICalculatorFacts.
Local Open Scope conn_scope.

Section Procedures.
Variable procedure :
  kpi_name -> list Z -> list KPIResult -> list KPIResult * option exn.
Variable connect : outcome unit.
Variables start_date end_date top_n : Z.

Local Abbreviation run := (run_families procedure start_date end_date top_n).
Local Abbreviation calculate_all_kpis := (calculate_all_kpis procedure connect).
Local Abbreviation with_OracleConnector := (with_OracleConnector connect).

(** Whatever a run of families returns: the families called are a prefix
    of the list, in its order; what was committed before is still there,
    followed by what the run committed; a run that returns called them all
    and left no uncommitted write. *)
Lemma run_families_outcome (fs : list kpi_name) (c c' : Connection) (r : outcome unit) :
  pending c = [] ->
  run fs c = (r, c') ->
  exists k w,
    calls c' = calls c ++ firstn k fs
    /\ committed c' = committed c ++ w
    /\ (r = Return tt -> k = List.length fs /\ pending c' = []).
Proof.
  revert c. induction fs as [|f fs IH]; intros c Hp Hrun.
  - inversion Hrun; subst. exists 0%nat, []. rewrite !app_nil_r. auto.
  - simpl in Hrun. unfold bindM at 1 in Hrun.
    destruct (callproc procedure f (family_args start_date end_date top_n f) c)
      as [[[]|e] c1] eqn:Hcall;
      destruct (callproc_effect _ _ _ _ Hcall) as [Hc1 [Hl1 [w1 Hw1]]].
    + unfold bindM at 1 in Hrun. simpl in Hrun.
      set (c2 := {| committed := committed c1 ++ pending c1;
                    pending := []; calls := calls c1 |}) in *.
      destruct (IH c2 eq_refl Hrun) as [k [w [Hcalls [Hcomm Hret]]]].
      exists (S k), (pending c1 ++ w). simpl. split; [|split].
      * rewrite Hcalls. simpl. rewrite Hl1, <- app_assoc. reflexivity.
      * rewrite Hcomm. simpl. rewrite Hc1, <- app_assoc. reflexivity.
      * intros Hr. destruct (Hret Hr) as [-> Hpend]. auto.
    + inversion Hrun; subst.
      exists 1%nat, []. simpl. rewrite app_nil_r. repeat split; auto; discriminate.
Qed.

(** X5.  Committed KPI rows are never lost, and families are never skipped or
    reordered: whatever [calculate_all_kpis] does, returning or raising,
    the rows committed before are still committed afterwards (followed by
    the new ones), no write is left uncommitted, and the procedures called
    are an initial part of the fixed order region, month, customers,
    products, average. *)
Theorem calculate_all_kpis_append_only (c c' : Connection) (r : outcome unit) :
  calculate_all_kpis start_date end_date top_n c = (r, c') ->
  exists k w,
    calls c' = calls c ++ firstn k all_families
    /\ committed c' = committed c ++ w
    /\ pending c' = []
    /\ (r = Return tt -> k = 5%nat).
Proof.
  rewrite calculate_all_kpis_families.
  unfold KPICalculator.with_OracleConnector, try_with.
  destruct connect as [[]|e0].
  - destruct (run all_families (fresh c)) as [[[]|e] c1] eqn:Hrun;
      destruct (run_families_outcome all_families (fresh c) eq_refl Hrun)
        as [k [w [Hcalls [Hcomm Hret]]]];
      intros X; inversion X; subst; clear X; simpl in *;
      exists k, w; repeat split; auto; try discriminate.
    intros _. apply Hret. reflexivity.
  - intros X; inversion X; subst; clear X. exists 0%nat, []. simpl.
    rewrite !app_nil_r. repeat split; auto. discriminate.
Qed.

(** X6.  A run that returns has called all five procedures, in order, and has
    committed after each: the final state is that of the five call-commit
    steps, with nothing pending. *)
Theorem calculate_all_kpis_success (c c' : Connection) :
  calculate_all_kpis start_date end_date top_n c = (Return tt, c') ->
  calls c' = calls c ++ all_families
  /\ pending c' = []
  /\ run all_families (fresh c) = (Return tt, c').
Proof.
  rewrite calculate_all_kpis_families.
  unfold KPICalculator.with_OracleConnector, try_with.
  destruct connect as [[]|e0]; [|discriminate].
  destruct (run all_families (fresh c)) as [[[]|e] c1] eqn:Hrun;
    [|intros X; inversion X].
  destruct (run_families_outcome all_families (fresh c) eq_refl Hrun)
    as [k [w [Hcalls [Hcomm Hret]]]].
  destruct (Hret eq_refl) as [-> Hpend].
  assert (Hfresh : fresh c1 = c1).
  { destruct c1 as [cm pd cl]. simpl in Hpend. subst. reflexivity. }
  intros X. inversion X; subst; clear X. rewrite Hfresh.
  repeat split; auto.
Qed.

(** X7.  The transaction logic written out in [calculate_all_kpis] is that of
    the connector's own helper: the call behaves as five
    [execute_procedure] calls in a row on one connection, the first error
    ending the sequence. *)
Theorem calculate_all_kpis_as_execute_procedure (c : Connection) :
  calculate_all_kpis start_date end_date top_n c
  = with_OracleConnector
      (execute_procedure procedure REVENUE_BY_REGION
         (Some [("start_date"%string, start_date); ("end_date"%string, end_date)]) ;;
       execute_procedure procedure MONTHLY_REVENUE_TREND
         (Some [("start_date"%string, start_date); ("end_date"%string, end_date)]) ;;
       execute_procedure procedure TOP_CUSTOMERS
         (Some [("start_date"%string, start_date); ("end_date"%string, end_date);
                ("top_n"%string, top_n)]) ;;
       execute_procedure procedure PRODUCT_PERFORMANCE
         (Some [("start_date"%string, start_date); ("end_date"%string, end_date)]) ;;
       execute_procedure procedure AVG_TRANSACTION_VALUE
         (Some [("start_date"%string, start_date); ("end_date"%string, end_date)])) c.
Proof.
  unfold KPICalculator.calculate_all_kpis, calculate_all_kpis_try, execute_procedure,
    KPICalculator.with_OracleConnector, try_with,
    bindM, callproc, commit, rollback, raise.
  destruct connect as [[]|e0]; [|reflexivity]. simpl.
  repeat (match goal with
          | |- context [procedure ?f ?a ?v] =>
              destruct (procedure f a v) as [? [?|]]; simpl
          end); reflexivity.
Qed.

End Procedures.

(** *** The validation stage is advisory *)

Section Validation.
Variable procedure :
  kpi_name -> list Z -> list KPIResult -> list KPIResult * option exn.
Variable VALIDATE_SALES_DATA : Connection -> outcome DataValidator.SalesDataCheck.
Variable VALIDATE_REFERENTIAL_INTEGRITY : Connection -> outcome (string * option string).
Variable CHECK_DUPLICATES : Connection -> outcome DataValidator.DuplicateCheck.
Variable generate_all_charts : M unit.
Variable generate_all_reports : M unit.
Variable now : Z.

(** What [connect()] does for the validator and for the calculator. *)
Variable connect_validator : outcome unit.
Variable connect_calculator : outcome unit.

(** [main] run without a CSV file, with the validator as its second stage. *)
Definition pipeline : Connection -> pipeline_state * Connection :=
  main procedure connect_calculator (fun _ => ret tt)
       (DataValidator.validate_all VALIDATE_SALES_DATA
          VALIDATE_REFERENTIAL_INTEGRITY CHECK_DUPLICATES connect_validator ;; ret tt)
       generate_all_charts generate_all_reports now ["main.py"%string].

(** X8.  What the validation procedures report (PASS, FAIL, WARN, counts,
    details) never decides the run: when the validator's connection is
    opened and the three procedures return, the run goes on to the
    aggregation on the unchanged committed rows and ends as aggregation,
    charts and reports end; the run fails at validation exactly when the
    validator cannot connect or a procedure raises, and then no KPI
    procedure is called. *)
Theorem validation_is_advisory (c : Connection) :
  pipeline c
  = match connect_validator with
    | Raise _ => (Failed, fresh c)
    | Return _ =>
        match VALIDATE_SALES_DATA (fresh c),
              VALIDATE_REFERENTIAL_INTEGRITY (fresh c),
              CHECK_DUPLICATES (fresh c) with
        | Return _, Return _, Return _ =>
            match (calculate_all_kpis procedure connect_calculator (now - 30) now 10 ;;
                   generate_all_charts ;;
                   generate_all_reports) (fresh c) with
            | (Return _, c') => (Done, c')
            | (Raise _, c') => (Failed, c')
            end
        | _, _, _ => (Failed, fresh c)
        end
    end.
Proof.
  unfold pipeline, main, DataValidator.validate_all, DataValidator.call,
    with_OracleConnector.
  unfold bindM at 1. unfold ret at 1.
  unfold bindM at 1. unfold bindM at 1.
  destruct connect_validator as [[]|e0]; [|reflexivity].
  unfold bindM at 1.
  destruct (VALIDATE_SALES_DATA (fresh c)) as [sales|e1]; [|reflexivity].
  unfold bindM at 1.
  destruct (VALIDATE_REFERENTIAL_INTEGRITY (fresh c)) as [ref|e2];
    [|destruct (CHECK_DUPLICATES (fresh c)); reflexivity].
  unfold bindM at 1.
  destruct (CHECK_DUPLICATES (fresh c)) as [dup|e3]; [|reflexivity].
  reflexivity.
Qed.

End Validation.

(** *** Witnesses *)

(** Every procedure writes one row and completes. *)
Definition all_succeed (f : kpi_name) (args : list Z) (visible : list KPIResult)
  : list KPIResult * option exn :=
  ([written f], None).

Definition after_success : Connection :=
  {| committed := map written all_families; pending := []; calls := all_families |}.

Lemma calculate_all_kpis_append_only_witness :
  exists k w,
    calls after_failure = calls idle ++ firstn k all_families
    /\ committed after_failure = committed idle ++ w
    /\ pending after_failure = []
    /\ (Raise (DatabaseError "ORA-06502") = Return tt -> k = 5%nat).
Proof.
  apply (@calculate_all_kpis_append_only failing_top_customers (Return tt) 0 30 10 idle
           after_failure (Raise (DatabaseError "ORA-06502"))).
  reflexivity.
Defined.

Lemma calculate_all_kpis_success_witness :
  calls after_success = calls idle ++ all_families
  /\ pending after_success = []
  /\ run_families all_succeed 0 30 10 all_families (fresh idle)
     = (Return tt, after_success).
Proof.
  apply (@calculate_all_kpis_success all_succeed (Return tt) 0 30 10 idle after_success).
  reflexivity.
Defined.

End CalculatorProperties.

(** ** The insight generator: the outlier test, trends, the summary *)

Module InsightProperties.
Import Py Pandas PandasFacts SortFacts Aggregator InsightGenerator InsightFacts.
Import ListProperties.

(** X10.  With fewer points of the KPI than periods asked for, the classifier
    reports insufficient data and computes nothing on the shorter window. *)
Theorem detect_trends_insufficient (db_sort pd_sort : SortValues) (th : Thresholds)
  (table : list KPIRow) (name : kpi_name) (p : nat) :
  (List.length (filter (fun r => kpi_name_eqb (KPI_NAME r) name) table) < p)%nat ->
  detect_trends db_sort pd_sort th (Return table) name (Some p) = Return InsufficientData.
Proof.
  intros Hlt. unfold detect_trends. cbn [bind].
  unfold select_recent. rewrite length_firstn, select_kpi_length.
  destruct (Nat.ltb_spec
              (Nat.min p (List.length
                            (filter (fun r => kpi_name_eqb (KPI_NAME r) name) table))) p)
    as [_|L]; [reflexivity|lia].
Qed.

(** X11.  With at least [periods] points of the KPI (two or more periods), the
    analysed window holds the [periods] latest rows of the KPI: every other
    row of the KPI is no later than every row of the window; and the
    statement compares an oldest row of the window with a newest one. *)
Theorem detect_trends_oldest_newest (db_sort pd_sort : SortValues) (th : Thresholds)
  (table : list KPIRow) (name : kpi_name) (p : nat) :
  (2 <= p)%nat ->
  (p <= List.length (filter (fun r => kpi_name_eqb (KPI_NAME r) name) table))%nat ->
  exists recent older old new,
    List.length recent = p
    /\ Permutation (filter (fun r => kpi_name_eqb (KPI_NAME r) name) table)
                   (recent ++ older)
    /\ (forall a b, In a recent -> In b older -> KPI_DATE b <= KPI_DATE a)
    /\ In old recent /\ In new recent
    /\ (forall r, In r recent -> KPI_DATE old <= KPI_DATE r <= KPI_DATE new)
    /\ detect_trends db_sort pd_sort th (Return table) name (Some p)
       = Return (Trend (if PrimFloat.ltb (KPI_VALUE old) (KPI_VALUE new)
                        then increasing else decreasing)
                       (((KPI_VALUE new - KPI_VALUE old) / KPI_VALUE old) * 100)%float
                       p).
Proof.
  intros H2 Hp.
  set (series := select_kpi db_sort table name).
  set (recent := select_recent db_sort table name p).
  set (window := trend_window db_sort pd_sort table name p).
  assert (Hlen : List.length recent = p) by (apply select_recent_length; exact Hp).
  assert (Hperm : Permutation window recent) by apply sort_values_perm.
  assert (Hsorted : StronglySorted (fun a b => date_asc a b = true) window)
    by (apply sort_values_sorted; [apply date_asc_total|apply date_asc_trans]).
  assert (Hne : window <> []).
  { intros E. apply Permutation_length in Hperm. rewrite E, Hlen in Hperm.
    simpl in Hperm. lia. }
  assert (Hd : exists d : KPIRow, True).
  { destruct window as [|d ?]; [congruence|]. exists d. exact I. }
  destruct Hd as [d _].
  exists recent, (skipn p series), (List.hd d window), (List.last window d).
  split; [exact Hlen|]. split.
  { unfold recent, select_recent. fold series. rewrite firstn_skipn.
    symmetry. apply sort_values_perm. }
  split.
  { intros a b Ha Hb.
    assert (Hs : StronglySorted (fun a b => date_desc a b = true)
                   (firstn p series ++ skipn p series)).
    { rewrite firstn_skipn.
      apply sort_values_sorted; [apply date_desc_total|apply date_desc_trans]. }
    pose proof (@sorted_app _ _ _ _ Hs a b Ha Hb) as H. unfold date_desc in H.
    apply Z.leb_le in H. exact H. }
  split; [apply (Permutation_in _ Hperm), hd_In; exact Hne|].
  split; [apply (Permutation_in _ Hperm), last_In; exact Hne|].
  split.
  { intros r Hr. apply (Permutation_in _ (Permutation_sym Hperm)) in Hr.
    assert (Hrefl : forall x : KPIRow, date_asc x x = true)
      by (intros x; unfold date_asc; apply Z.leb_refl).
    pose proof (@sorted_hd _ _ d _ Hrefl Hsorted r Hr) as Hh.
    pose proof (@sorted_last _ _ d _ Hrefl Hsorted r Hr) as Hl.
    unfold date_asc in Hh, Hl. apply Z.leb_le in Hh. apply Z.leb_le in Hl. lia. }
  unfold detect_trends. cbn [bind].
  change (@sort_values pd_sort _ date_asc (select_recent db_sort table name p))
    with window.
  fold recent. rewrite Hlen, Nat.ltb_irrefl.
  rewrite length_map, (Permutation_length Hperm), Hlen.
  destruct (Nat.leb_spec 2 p) as [_|L]; [|lia].
  assert (Eh : List.hd 0%float (map KPI_VALUE window) = KPI_VALUE (List.hd d window)).
  { destruct window; [congruence|reflexivity]. }
  assert (El : List.last (map KPI_VALUE window) 0%float = KPI_VALUE (List.last window d)).
  { clear - Hne. induction window as [|x l IH]; [congruence|].
    destruct l as [|y l]; [reflexivity|].
    change (List.last (map KPI_VALUE (x :: y :: l)) 0%float)
      with (List.last (map KPI_VALUE (y :: l)) 0%float).
    change (List.last (x :: y :: l) d) with (List.last (y :: l) d).
    apply IH. discriminate. }
  rewrite Eh, El. reflexivity.
Qed.

Lemma detect_trends_insufficient_witness :
  detect_trends stable_sorter stable_sorter no_thresholds
    (Return zero_first_series) MONTHLY_REVENUE_TREND (Some 5%nat)
  = Return InsufficientData.
Proof.
  apply (@detect_trends_insufficient stable_sorter stable_sorter no_thresholds
           zero_first_series MONTHLY_REVENUE_TREND 5%nat).
  simpl. lia.
Defined.

Lemma detect_trends_oldest_newest_witness :
  exists old new,
    In old zero_first_series /\ In new zero_first_series
    /\ detect_trends stable_sorter stable_sorter no_thresholds
         (Return zero_first_series) MONTHLY_REVENUE_TREND (Some 2%nat)
       = Return (Trend (if PrimFloat.ltb (KPI_VALUE old) (KPI_VALUE new)
                        then increasing else decreasing)
                       (((KPI_VALUE new - KPI_VALUE old) / KPI_VALUE old) * 100)%float
                       2).
Proof.
  destruct (@detect_trends_oldest_newest stable_sorter stable_sorter no_thresholds
              zero_first_series MONTHLY_REVENUE_TREND 2%nat)
    as (recent & older & old & new & _ & Hperm & _ & Hold & Hnew & _ & E).
  - lia.
  - simpl. lia.
  - exists old, new.
    assert (Hin : forall r, In r recent -> In r zero_first_series).
    { intros r Hr.
      apply (Permutation_in _ (Permutation_sym Hperm)), in_or_app. left. exact Hr. }
    split; [apply Hin; exact Hold|]. split; [apply Hin; exact Hnew|]. exact E.
Defined.

Lemma summary_of_tables (db_sort pd_sort : SortValues) (th : Thresholds)
  (sysdate : Z) (t1 t2 t3 : list KPIRow) :
  exists trend insights,
    detect_trends db_sort pd_sort th (Return t2) MONTHLY_REVENUE_TREND None = Return trend
    /\ generate_summary_insights db_sort pd_sort th sysdate
         (Return t1) (Return t2) (Return t3)
       = Return (Joined insights)
    /\ In (MonthlyRevenue trend) insights.
Proof.
  assert (Hout : exists rows,
             detect_outliers db_sort th (Return t1) REVENUE_BY_REGION None = Return rows).
  { unfold detect_outliers. cbn [bind].
    destruct (select_kpi db_sort t1 REVENUE_BY_REGION); eexists; reflexivity. }
  assert (Htr : exists trend,
             detect_trends db_sort pd_sort th (Return t2) MONTHLY_REVENUE_TREND None
             = Return trend).
  { unfold detect_trends. cbn [bind].
    destruct (_ <? _)%nat; [eexists; reflexivity|].
    destruct (_ <=? _)%nat; eexists; reflexivity. }
  destruct Hout as [rows Hrows]. destruct Htr as [trend Ht].
  unfold generate_summary_insights. rewrite Hrows, Ht. cbn [bind].
  set (pre := match rows with
              | [] => []
              | _ :: _ => [RevenueOutliers (List.length rows)]
              end).
  exists trend.
  exists (if (0 <? recent_top_customers sysdate t3)%nat
          then (pre ++ [MonthlyRevenue trend]) ++ [TopCustomersAvailable]
          else pre ++ [MonthlyRevenue trend]).
  split; [reflexivity|]. split.
  - destruct (0 <? recent_top_customers sysdate t3)%nat, pre; reflexivity.
  - destruct (0 <? recent_top_customers sysdate t3)%nat;
      repeat (apply in_or_app; try (left; apply in_or_app)); right; left; reflexivity.
Qed.

Lemma summary_tables (db_sort pd_sort : SortValues) (th : Thresholds)
  (sysdate : Z) (db1 db2 db3 : outcome (list KPIRow)) (s : summary) :
  generate_summary_insights db_sort pd_sort th sysdate db1 db2 db3 = Return s ->
  exists t1 t2 t3, db1 = Return t1 /\ db2 = Return t2 /\ db3 = Return t3.
Proof.
  destruct db1 as [t1|e1]; [|discriminate].
  destruct db2 as [t2|e2].
  - destruct db3 as [t3|e3]; [intros _; exists t1, t2, t3; auto|].
    destruct (summary_of_tables db_sort pd_sort th sysdate t1 t2 [])
      as (trend & insights & Ht & _ & _).
    unfold generate_summary_insights.
    destruct (detect_outliers db_sort th (Return t1) REVENUE_BY_REGION None);
      [|discriminate].
    cbn [bind]. rewrite Ht. discriminate.
  - unfold generate_summary_insights.
    destruct (detect_outliers db_sort th (Return t1) REVENUE_BY_REGION None);
      discriminate.
Qed.

(** X13.  The summary is never the fallback text "No significant insights
    detected": the monthly-trend line is appended unconditionally, so every
    summary that is returned is a joined list holding that line, and it is
    returned exactly when none of the three connections fails. *)
Theorem summary_always_has_trend_line (db_sort pd_sort : SortValues)
  (th : Thresholds) (sysdate : Z) (db1 db2 db3 : outcome (list KPIRow)) :
  generate_summary_insights db_sort pd_sort th sysdate db1 db2 db3
    <> Return NoSignificantInsights
  /\ (forall t1 t2 t3, db1 = Return t1 -> db2 = Return t2 -> db3 = Return t3 ->
       exists trend insights,
         detect_trends db_sort pd_sort th db2 MONTHLY_REVENUE_TREND None = Return trend
         /\ generate_summary_insights db_sort pd_sort th sysdate db1 db2 db3
            = Return (Joined insights)
         /\ In (MonthlyRevenue trend) insights)
  /\ (forall e, db1 = Raise e \/ db2 = Raise e \/ db3 = Raise e ->
       exists e', generate_summary_insights db_sort pd_sort th sysdate db1 db2 db3
                  = Raise e').
Proof.
  split; [|split].
  - intros E. destruct (summary_tables _ _ _ _ _ _ _ E) as (t1 & t2 & t3 & -> & -> & ->).
    destruct (summary_of_tables db_sort pd_sort th sysdate t1 t2 t3)
      as (trend & insights & _ & E' & _).
    rewrite E' in E. discriminate.
  - intros t1 t2 t3 -> -> ->. apply summary_of_tables.
  - intros e H.
    destruct (generate_summary_insights db_sort pd_sort th sysdate db1 db2 db3)
      as [s|e'] eqn:E; [|exists e'; reflexivity].
    destruct (summary_tables _ _ _ _ _ _ _ E) as (t1 & t2 & t3 & -> & -> & ->).
    destruct H as [H|[H|H]]; discriminate H.
Qed.

End InsightProperties.

(** ** The dashboard's tables: top customers, products, tiles *)

Module TableProperties.
Import Py Numpy Pandas PandasFacts SortFacts Aggregator AggregatorFacts FloatFacts.
Import ListProperties.

Lemma Qsum_perm (l l' : list Q) : Permutation l l' -> (Qsum l == Qsum l')%Q.
Proof.
  induction 1 as [|x l l' _ IH|x y l|l l' l'' _ IH1 _ IH2]; simpl.
  - reflexivity.
  - rewrite IH. reflexivity.
  - ring.
  - rewrite IH1. exact IH2.
Qed.

Lemma Qsum_map_ext {A} (f g : A -> Q) (l : list A) :
  (forall x, In x l -> (f x == g x)%Q) -> (Qsum (map f l) == Qsum (map g l))%Q.
Proof.
  induction l as [|x l IH]; intros H; [reflexivity|].
  cbn [map]. rewrite !Qsum_cons, IH by (intros y Hy; apply H; right; exact Hy).
  rewrite (H x (or_introl eq_refl)). reflexivity.
Qed.

(** [head] always keeps a prefix, whatever the sign of its argument. *)
Lemma head_prefix {A} (n : Z) (l : list A) : exists k, head n l = firstn k l.
Proof. unfold head. destruct (0 <=? n); eexists; reflexivity. Qed.

Lemma NoDup_firstn {A} (k : nat) (l : list A) : NoDup l -> NoDup (firstn k l).
Proof.
  intros Hnd. rewrite <- (firstn_skipn k l) in Hnd.
  apply NoDup_app_remove_r in Hnd. exact Hnd.
Qed.

(** X14.  For every [n], negative ones included, and every sort that meets the
    contract: the top-customers table lists no customer twice, and no
    customer left out of it has a larger revenue than one it lists (between
    two sums that are numbers, the one left out is the smaller or equal). *)
Theorem top_customers_keeps_the_largest `{SortValues} (df : list Transaction) (n : Z) :
  NoDup (map fst (top_customers df n))
  /\ forall c v c',
       In (c, v) (top_customers df n) ->
       In c' (map customer_id df) ->
       ~ In c' (map fst (top_customers df n)) ->
       PrimFloat.ltb v (customer_revenue df c') = false
       /\ (isnan (customer_revenue df c') = false ->
           PrimFloat.leb (customer_revenue df c') v = true).
Proof.
  unfold top_customers.
  set (sorted := sort_values revenue_desc (revenue_by_customer df)).
  destruct (head_prefix n sorted) as [k ->].
  assert (Hperm : Permutation sorted (revenue_by_customer df)) by apply sort_values_perm.
  split.
  - rewrite <- firstn_map. apply NoDup_firstn.
    apply (Permutation_NoDup (Permutation_map fst (Permutation_sym Hperm))).
    rewrite revenue_by_customer_keys. apply group_keys_NoDup.
  - intros c v c' Hin Hc' Hout.
    assert (Hrow : In (c', customer_revenue df c') sorted).
    { apply (Permutation_in _ (Permutation_sym Hperm)).
      apply revenue_by_customer_complete. exact Hc'. }
    rewrite <- (firstn_skipn k sorted) in Hrow.
    apply in_app_or in Hrow. destruct Hrow as [Hrow|Hrow].
    + exfalso. apply Hout.
      change c' with (fst (c', customer_revenue df c')). apply in_map. exact Hrow.
    + assert (Hs : StronglySorted (fun a b => revenue_desc a b = true)
                     (firstn k sorted ++ skipn k sorted)).
      { rewrite firstn_skipn.
        apply (sort_values_sorted revenue_desc revenue_desc_total revenue_desc_trans). }
      pose proof (@sorted_app _ _ _ _ Hs _ _ Hin Hrow) as Hle.
      unfold revenue_desc in Hle. cbn [snd] in Hle. split.
      * apply desc_na_last_not_below. exact Hle.
      * intros Hnn. apply desc_na_last_leb; assumption.
Qed.

End TableProperties.

(** ** The logger: handlers are attached once *)

Module LoggerProperties.
Import Logger.

Lemma update_same (reg : Registry) (name : string) (l : LoggerState) :
  getLogger (update reg name l) name = l.
Proof. unfold getLogger, update. rewrite String.eqb_refl. reflexivity. Qed.

Lemma update_other (reg : Registry) (name other : string) (l : LoggerState) :
  logger_of other <> logger_of name ->
  getLogger (update reg name l) other = getLogger reg other.
Proof.
  intros Hne. unfold getLogger, update.
  destruct (String.eqb_spec (logger_of other) (logger_of name)); congruence.
Qed.

Section Files.
Variable mkdir_ok : string -> bool.
Variable open_ok : string -> bool.

Local Abbreviation setup := (setup_logger mkdir_ok open_ok).

Lemma setup_logger_configured (name : string) (log_file : option string) (lvl : Z)
  (reg : Registry) :
  handlers (getLogger reg name) <> [] ->
  setup name log_file lvl reg
  = (Returned, update reg name {| level := lvl;
                                  handlers := handlers (getLogger reg name) |}).
Proof.
  intros Hne. unfold setup_logger. rewrite update_same. cbn [handlers].
  destruct (handlers (getLogger reg name)); [congruence|reflexivity].
Qed.

(** X21.  Once a call has returned the logger, the logger has handlers (on
    a logger that had none: at most two, the console handler among them),
    and every later call for that logger, whatever log file and level it
    names, returns without touching the handlers: the later log file is
    never opened and the handlers keep the levels they have; only the
    logger's own level follows the later call.  Every other logger is left
    alone (the names "" and "root" are one logger). *)
Theorem setup_logger_attaches_once (name : string) (file1 file2 : option string)
  (lvl1 lvl2 : Z) (reg reg1 : Registry) :
  setup name file1 lvl1 reg = (Returned, reg1) ->
  handlers (getLogger reg1 name) <> []
  /\ (handlers (getLogger reg name) = [] ->
        In (StreamHandler lvl1) (handlers (getLogger reg1 name))
        /\ (List.length (handlers (getLogger reg1 name)) <= 2)%nat)
  /\ exists reg2,
       setup name file2 lvl2 reg1 = (Returned, reg2)
       /\ handlers (getLogger reg2 name) = handlers (getLogger reg1 name)
       /\ level (getLogger reg2 name) = lvl2
       /\ forall other, logger_of other <> logger_of name ->
                        getLogger reg2 other = getLogger reg other.
Proof.
  intros H1.
  assert (Hreg1 : handlers (getLogger reg1 name) <> []
                  /\ (handlers (getLogger reg name) = [] ->
                        In (StreamHandler lvl1) (handlers (getLogger reg1 name))
                        /\ (List.length (handlers (getLogger reg1 name)) <= 2)%nat)
                  /\ forall other, logger_of other <> logger_of name ->
                                   getLogger reg1 other = getLogger reg other).
  { unfold setup_logger in H1. rewrite update_same in H1. cbn [handlers] in H1.
    destruct (handlers (getLogger reg name)) as [|h hs] eqn:Hh.
    - destruct file1 as [[|c rest]|].
      + inversion H1; subst. rewrite update_same. cbn.
        split; [discriminate|]. split; [intros _; split; [auto|lia]|].
        intros other Hne. rewrite !update_other by exact Hne. reflexivity.
      + destruct (mkdir_ok (String c rest)); [|discriminate H1].
        destruct (open_ok (String c rest)); [|discriminate H1].
        inversion H1; subst. rewrite update_same. cbn.
        split; [discriminate|]. split; [intros _; split; [auto|lia]|].
        intros other Hne. rewrite !update_other by exact Hne. reflexivity.
      + inversion H1; subst. rewrite update_same. cbn.
        split; [discriminate|]. split; [intros _; split; [auto|lia]|].
        intros other Hne. rewrite !update_other by exact Hne. reflexivity.
    - inversion H1; subst. rewrite update_same. cbn [handlers].
      split; [discriminate|]. split; [discriminate|].
      intros other Hne. rewrite update_other by exact Hne. reflexivity. }
  destruct Hreg1 as [Hne [Hfresh Hother]].
  split; [exact Hne|]. split; [exact Hfresh|].
  eexists. split; [apply setup_logger_configured; exact Hne|].
  rewrite update_same. cbn [handlers level].
  split; [reflexivity|]. split; [reflexivity|].
  intros other Ho. rewrite update_other by exact Ho. apply Hother. exact Ho.
Qed.

End Files.

(** The root logger under its two names. *)
Example root_logger_two_names :
  let reg := snd (setup_logger (fun _ => true) (fun _ => true)
                    "root" None INFO unconfigured) in
  getLogger reg "" = {| level := INFO; handlers := [StreamHandler INFO] |}.
Proof. reflexivity. Qed.

Lemma setup_logger_attaches_once_witness :
  exists reg1 reg2,
    setup_logger (fun _ => true) (fun _ => true)
      "python.main" (Some "logs/pipeline.log"%string) INFO unconfigured
    = (Returned, reg1)
    /\ setup_logger (fun _ => true) (fun _ => true)
         "python.main" (Some "logs/other.log"%string) 10 reg1
       = (Returned, reg2)
    /\ handlers (getLogger reg2 "python.main"%string)
       = [FileHandler "logs/pipeline.log" INFO; StreamHandler INFO].
Proof.
  eexists.
  destruct (@setup_logger_attaches_once (fun _ => true) (fun _ => true)
              "python.main" (Some "logs/pipeline.log"%string)
              (Some "logs/other.log"%string) INFO 10 unconfigured _ eq_refl)
    as (_ & _ & reg2 & E2 & Hh & _).
  exists reg2. split; [reflexivity|]. split; [exact E2|].
  rewrite Hh. reflexivity.
Defined.

End LoggerProperties.

(** ** The column suggestions *)

Module SuggestionProperties.
Import ColumnSuggestions.

Definition frame_after (df : Frame) : Frame := fst (suggest_columns df).
Definition date_col (df : Frame) : option string := fst (fst (snd (suggest_columns df))).
Definition num_col (df : Frame) : option string := snd (fst (snd (suggest_columns df))).
Definition cat_cols (df : Frame) : list string := snd (snd (suggest_columns df)).

(** A column after [df[c] = pd.to_datetime(df[c])]. *)
Definition converted (c : Column) : Column :=
  {| label := label c; dt := to_datetime_dtype c;
     to_datetime_ok := true; to_datetime_dtype := to_datetime_dtype c |}.

Lemma parse_first_date_like_labels (df : Frame) :
  map label (fst (parse_first_date_like df)) = map label df.
Proof.
  induction df as [|c rest IH]; [reflexivity|]. cbn [parse_first_date_like].
  destruct (date_like (label c)).
  - destruct (to_datetime_ok c); reflexivity.
  - destruct (parse_first_date_like rest) as [rest' found]. cbn in *. rewrite IH.
    reflexivity.
Qed.

Lemma parse_first_date_like_found (df : Frame) :
  match snd (parse_first_date_like df) with
  | [] => fst (parse_first_date_like df) = df
  | d :: more =>
      more = []
      /\ exists before c after,
           df = before ++ c :: after
           /\ label c = d
           /\ (forall b, In b before -> date_like (label b) = false)
           /\ date_like d = true
           /\ to_datetime_ok c = true
           /\ fst (parse_first_date_like df) = before ++ converted c :: after
  end.
Proof.
  induction df as [|c rest IH]; [reflexivity|]. cbn [parse_first_date_like].
  destruct (date_like (label c)) eqn:Hd.
  - destruct (to_datetime_ok c) eqn:Hok; [|reflexivity]. cbn.
    split; [reflexivity|]. exists [], c, rest. repeat split; auto.
    intros b [].
  - destruct (parse_first_date_like rest) as [rest' found]. cbn in *.
    destruct found as [|d more]; [congruence|].
    destruct IH as [-> (before & c' & after & -> & Hl & Hb & Hd' & Hok & ->)].
    split; [reflexivity|]. exists (c :: before), c', after. repeat split; auto.
    intros b [<-|Hin]; auto.
Qed.

Lemma hd_error_In {A} (l : list A) (x : A) : List.hd_error l = Some x -> In x l.
Proof. destruct l; [discriminate|]. intros E. inversion E. left. reflexivity. Qed.

Lemma NoDup_label_unique (before after : list Column) (c x : Column) :
  NoDup (map label (before ++ c :: after)) ->
  In x (before ++ c :: after) -> label x = label c -> x = c.
Proof.
  intros Hnd Hin Hl. rewrite map_app in Hnd. cbn [map] in Hnd.
  pose proof (NoDup_remove_2 _ _ _ Hnd) as Hout.
  apply in_app_or in Hin. destruct Hin as [Hin|[E|Hin]]; [|auto|].
  - exfalso. apply Hout, in_or_app. left. rewrite <- Hl. apply in_map. exact Hin.
  - exfalso. apply Hout, in_or_app. right. rewrite <- Hl. apply in_map. exact Hin.
Qed.

Lemma categorical_suggestion (fr : Frame) (x : string) :
  In x (firstn 3 (map label (filter is_categorical fr))) ->
  exists c, In c fr /\ label c = x /\ is_categorical c = true.
Proof.
  intros Hx.
  assert (Hx' : In x (map label (filter is_categorical fr))).
  { rewrite <- (firstn_skipn 3 (map label (filter is_categorical fr))).
    apply in_or_app. left. exact Hx. }
  apply in_map_iff in Hx'. destruct Hx' as [c [E Hc]]. apply filter_In in Hc.
  exists c. tauto.
Qed.

(** X22.  On a frame with distinct labels: the call keeps the labels; a
    suggested number column is a numeric column of the frame as it was; at
    most three categorical columns are suggested, each an object or
    categorical column of the frame as the call leaves it.  A suggested date
    column is a column of the frame that either was a datetime column
    already, or is the first column with a date-like label, which
    [pd.to_datetime] accepted and which now has the dtype of its result;
    it is among the categorical suggestions only if that dtype is object
    (values with mixed UTC offsets) or categorical. *)
Theorem suggest_columns_sound (df : Frame) :
  NoDup (map label df) ->
  map label (frame_after df) = map label df
  /\ (forall n, num_col df = Some n ->
        exists c, In c df /\ label c = n /\ dt c = numeric)
  /\ (List.length (cat_cols df) <= 3)%nat
  /\ (forall x, In x (cat_cols df) ->
        exists c, In c (frame_after df) /\ label c = x /\ is_categorical c = true)
  /\ (forall d, date_col df = Some d ->
        (exists c, In c df /\ label c = d /\ dt c = datetime64
                   /\ frame_after df = df)
        \/ (exists before c after,
              df = before ++ c :: after
              /\ label c = d
              /\ (forall x, In x df -> dt x <> datetime64)
              /\ (forall b, In b before -> date_like (label b) = false)
              /\ date_like d = true
              /\ to_datetime_ok c = true
              /\ frame_after df = before ++ converted c :: after))
  /\ (forall d c, date_col df = Some d -> In c (frame_after df) -> label c = d ->
        In d (cat_cols df) -> dt c = object \/ dt c = categorical).
Proof.
  intros Hnd.
  assert (Hnum : forall n, List.hd_error (map label (filter is_numeric_dtype df)) = Some n ->
            exists c, In c df /\ label c = n /\ dt c = numeric).
  { intros n Hn. apply hd_error_In, in_map_iff in Hn. destruct Hn as [c [E Hc]].
    apply filter_In in Hc. destruct Hc as [Hc Hd]. exists c.
    split; [exact Hc|]. split; [exact E|].
    unfold is_numeric_dtype in Hd. destruct (dt c); congruence. }
  assert (Hcatdt : forall fr d c, NoDup (map label fr) -> In c fr -> label c = d ->
            In d (firstn 3 (map label (filter is_categorical fr))) ->
            dt c = object \/ dt c = categorical).
  { intros fr d c Hn Hc Hl Hin.
    destruct (categorical_suggestion fr d Hin) as [x [Hx [Hlx Hk]]].
    apply in_split in Hc. destruct Hc as [before [after ->]].
    assert (Hxc : x = c) by (apply (NoDup_label_unique before after c x Hn Hx); congruence).
    subst x. unfold is_categorical in Hk. destruct (dt c); auto; discriminate. }
  unfold frame_after, date_col, num_col, cat_cols, suggest_columns.
  destruct (map label (filter is_datetime64_any_dtype df)) as [|d0 ds] eqn:Hdc.
  - pose proof (parse_first_date_like_labels df) as Hlab.
    pose proof (parse_first_date_like_found df) as Hfound.
    destruct (parse_first_date_like df) as [df' found]. cbn [fst snd] in *.
    split; [exact Hlab|]. split; [exact Hnum|].
    split; [rewrite length_firstn; lia|]. split; [apply categorical_suggestion|].
    split.
    + intros d Hd. right. destruct found as [|d' more]; [discriminate|].
      inversion Hd; subst.
      destruct Hfound as [_ (before & c & after & E & Hl & Hb & Hdl & Hok & E')].
      exists before, c, after. repeat split; auto.
      intros x Hx Hdt.
      assert (Hin : In (label x) (map label (filter is_datetime64_any_dtype df))).
      { apply in_map, filter_In. split; [exact Hx|].
        unfold is_datetime64_any_dtype. rewrite Hdt. reflexivity. }
      rewrite Hdc in Hin. destruct Hin.
    + intros d c _ Hc Hl Hin. apply (Hcatdt df' d c); auto.
      rewrite Hlab. exact Hnd.
  - cbn [fst snd]. rewrite <- Hdc.
    split; [reflexivity|]. split; [exact Hnum|].
    split; [rewrite length_firstn; lia|]. split; [apply categorical_suggestion|].
    split.
    + intros d Hd. left. apply hd_error_In, in_map_iff in Hd.
      destruct Hd as [c [E Hc]]. apply filter_In in Hc. destruct Hc as [Hc Ht].
      exists c. split; [exact Hc|]. split; [exact E|]. split; [|reflexivity].
      unfold is_datetime64_any_dtype in Ht. destruct (dt c); congruence.
    + intros d c _ Hc Hl Hin. apply (Hcatdt df d c); auto.
Qed.

(** X23.  Only the first date-like label is tried: in a frame without a datetime
    column whose first date-like column [pd.to_datetime] rejects, no date
    column is suggested and the frame is left as it was, whatever the later
    columns are. *)
Theorem suggest_columns_first_date_like_only (before after : list Column) (c : Column) :
  (forall x, In x (before ++ c :: after) -> dt x <> datetime64) ->
  (forall b, In b before -> date_like (label b) = false) ->
  date_like (label c) = true ->
  to_datetime_ok c = false ->
  date_col (before ++ c :: after) = None
  /\ frame_after (before ++ c :: after) = before ++ c :: after.
Proof.
  intros Hnone Hbefore Hc Hbad.
  assert (Hparse : parse_first_date_like (before ++ c :: after)
                   = (before ++ c :: after, [])).
  { clear Hnone. induction before as [|b before IH]; cbn [app parse_first_date_like].
    - rewrite Hc, Hbad. reflexivity.
    - rewrite (Hbefore b (or_introl eq_refl)).
      rewrite IH by (intros x Hx; apply Hbefore; right; exact Hx). reflexivity. }
  assert (Hdates : map label (filter is_datetime64_any_dtype (before ++ c :: after)) = []).
  { rewrite (@InsightFacts.filter_none _ is_datetime64_any_dtype); [reflexivity|].
    intros x Hx. specialize (Hnone x Hx). unfold is_datetime64_any_dtype.
    destruct (dt x); congruence. }
  unfold date_col, frame_after, suggest_columns. rewrite Hdates, Hparse.
  split; reflexivity.
Qed.

Definition order_date : Column :=
  {| label := "Order Date"; dt := object; to_datetime_ok := false;
     to_datetime_dtype := datetime64 |}.
Definition ship_date : Column :=
  {| label := "ship_date"; dt := object; to_datetime_ok := true;
     to_datetime_dtype := datetime64 |}.
Definition amount : Column :=
  {| label := "amount"; dt := numeric; to_datetime_ok := true;
     to_datetime_dtype := datetime64 |}.
(** Timestamps with mixed UTC offsets: [pd.to_datetime] returns objects. *)
Definition event_date : Column :=
  {| label := "event_date"; dt := object; to_datetime_ok := true;
     to_datetime_dtype := object |}.

Example mixed_offsets_stay_categorical :
  date_col [amount; event_date] = Some "event_date"%string
  /\ cat_cols [amount; event_date] = ["event_date"%string].
Proof. split; reflexivity. Qed.

Lemma suggest_columns_sound_witness :
  map label (frame_after [amount; ship_date; order_date])
  = ["amount"; "ship_date"; "Order Date"]%string
  /\ (List.length (cat_cols [amount; ship_date; order_date]) <= 3)%nat.
Proof.
  destruct (@suggest_columns_sound [amount; ship_date; order_date])
    as (Hl & _ & Hn & _).
  - repeat constructor; simpl; intuition discriminate.
  - split; [exact Hl|exact Hn].
Defined.

Lemma suggest_columns_first_date_like_only_witness :
  date_col [amount; order_date; ship_date] = None
  /\ frame_after [amount; order_date; ship_date] = [amount; order_date; ship_date].
Proof.
  apply (@suggest_columns_first_date_like_only [amount] [ship_date] order_date).
  - intros x [<-|[<-|[<-|[]]]]; discriminate.
  - intros b [<-|[]]. reflexivity.
  - reflexivity.
  - reflexivity.
Defined.

End SuggestionProperties.

(** ** The text report and the index page *)

Module ReportProperties.
Import Py Pandas PandasFacts SortFacts Aggregator AggregatorFacts InsightGenerator.
Import InsightFacts InsightProperties TableProperties ReportGenerator.

(** *** The region section *)

Lemma Qsum_indicator (rows : list (string * Q)) (r : string * Q) (ks : list string) :
  NoDup ks -> In (fst r) ks ->
  (Qsum (map (fun n => Qsum (map snd (filter (fun x => String.eqb (fst x) n) (r :: rows)))) ks)
   == snd r
      + Qsum (map (fun n => Qsum (map snd (filter (fun x => String.eqb (fst x) n) rows))) ks))%Q.
Proof.
  induction 1 as [|k ks Hk Hnd IH]; [contradiction|].
  intros Hin. cbn [map filter]. rewrite !Qsum_cons.
  destruct (String.eqb_spec (fst r) k) as [E|E].
  - cbn [map]. rewrite Qsum_cons.
    assert (Hrest : (Qsum (map (fun n => Qsum (map snd
                              (filter (fun x => String.eqb (fst x) n) (r :: rows)))) ks)
                     == Qsum (map (fun n => Qsum (map snd
                              (filter (fun x => String.eqb (fst x) n) rows))) ks))%Q).
    { apply Qsum_map_ext. intros n Hn. cbn [filter].
      destruct (String.eqb_spec (fst r) n) as [E'|_]; [|reflexivity].
      exfalso. apply Hk. rewrite <- E, E'. exact Hn. }
    rewrite Hrest. ring.
  - destruct Hin as [Hin|Hin]; [congruence|].
    rewrite (IH Hin). ring.
Qed.

(** Grouping by name loses nothing. *)
Lemma group_by_name_total (rows : list (string * Q)) :
  (Qsum (map snd (group_by_name rows)) == Qsum (map snd rows))%Q.
Proof.
  unfold group_by_name. rewrite map_map. cbn [snd].
  assert (H : forall ks, NoDup ks -> (forall r, In r rows -> In (fst r) ks) ->
            (Qsum (map (fun n => Qsum (map snd (filter (fun x => String.eqb (fst x) n) rows)))
                       ks)
             == Qsum (map snd rows))%Q).
  { induction rows as [|r rows IH]; intros ks Hnd Hall.
    - cbn [filter map]. clear. induction ks as [|k ks IH]; [reflexivity|].
      cbn [map]. rewrite Qsum_cons, IH. reflexivity.
    - rewrite Qsum_indicator by (auto; apply Hall; left; reflexivity).
      rewrite IH by (auto; intros x Hx; apply Hall; right; exact Hx).
      reflexivity. }
  apply H; [apply NoDup_nodup|].
  intros r Hr. apply nodup_In, in_map. exact Hr.
Qed.

Lemma group_by_name_NoDup (rows : list (string * Q)) :
  NoDup (map fst (group_by_name rows)).
Proof.
  unfold group_by_name. rewrite map_map. cbn [fst]. rewrite map_id. apply NoDup_nodup.
Qed.

(** Whether a KPI row's region is a row of REGIONS. *)
Definition known_region (db : Database) (k : KPIResult) : bool :=
  match REGION_ID k with
  | Some r => existsb (Z.eqb r) (map fst (REGIONS db))
  | None => false
  end.

Lemma unique_region (regions : list (Z * string)) (r : Z) :
  NoDup (map fst regions) ->
  List.length (filter (fun reg => fst reg =? r) regions)
  = if existsb (Z.eqb r) (map fst regions) then 1%nat else 0%nat.
Proof.
  induction regions as [|reg regions IH]; [reflexivity|].
  cbn [map]. intros Hnd. inversion Hnd as [|? ? Hout Hnd']; subst.
  cbn [filter existsb]. rewrite (Z.eqb_sym r (fst reg)).
  destruct (Z.eqb_spec (fst reg) r) as [E|E]; cbn [orb List.length].
  - rewrite (IH Hnd').
    destruct (existsb (Z.eqb r) (map fst regions)) eqn:X; [|reflexivity].
    exfalso. apply Hout. apply existsb_exists in X. destruct X as [x [Hx Ex]].
    apply Z.eqb_eq in Ex. subst. exact Hx.
  - apply IH. exact Hnd'.
Qed.

Lemma joined_total (db : Database) :
  NoDup (map fst (REGIONS db)) ->
  (Qsum (map snd (joined db))
   == Qsum (map KPI_VALUE (filter (known_region db)
                             (kpi_rows REVENUE_BY_REGION (KPI_RESULTS db)))))%Q.
Proof.
  intros Hnd. unfold joined.
  induction (kpi_rows REVENUE_BY_REGION (KPI_RESULTS db)) as [|k ks IH]; [reflexivity|].
  cbn [flat_map filter]. rewrite map_app, Qsum_app, IH.
  assert (Hhead : (Qsum (map snd
                     match REGION_ID k with
                     | Some r => map (fun reg => (snd reg, KPI_VALUE k))
                                     (filter (fun reg => fst reg =? r) (REGIONS db))
                     | None => []
                     end)
                   == if known_region db k then KPI_VALUE k else 0)%Q).
  { unfold known_region. destruct (REGION_ID k) as [r|]; [|reflexivity].
    pose proof (unique_region (REGIONS db) r Hnd) as Hlen.
    destruct (existsb (Z.eqb r) (map fst (REGIONS db))).
    - destruct (filter (fun reg => fst reg =? r) (REGIONS db)) as [|reg [|reg' more]];
        try discriminate Hlen.
      cbn. ring.
    - destruct (filter (fun reg => fst reg =? r) (REGIONS db)) as [|reg more];
        try discriminate Hlen.
      reflexivity. }
  rewrite Hhead. destruct (known_region db k); cbn [map]; rewrite ?Qsum_cons; ring.
Qed.

(** X24.  With distinct region ids in REGIONS, the region section partitions the
    revenue of the REVENUE_BY_REGION rows whose region is a row of REGIONS
    (the join drops the rows with a null or unknown region): one line per
    region name, in descending order of revenue, the amounts adding up to
    that revenue. *)
Theorem region_section_conserves (db_sort : SortValues) (db : Database) :
  NoDup (map fst (REGIONS db)) ->
  (Qsum (map snd (revenue_by_region_name db_sort db))
   == Qsum (map KPI_VALUE (filter (known_region db)
                             (kpi_rows REVENUE_BY_REGION (KPI_RESULTS db)))))%Q
  /\ NoDup (map fst (revenue_by_region_name db_sort db))
  /\ StronglySorted (fun a b => (snd b <= snd a)%Q) (revenue_by_region_name db_sort db).
Proof.
  intros Hnd. unfold revenue_by_region_name.
  set (leb := fun a b : string * Q => Qle_bool (snd b) (snd a)).
  assert (Hperm : Permutation (@sort_values db_sort _ leb (group_by_name (joined db)))
                              (group_by_name (joined db))) by apply sort_values_perm.
  split; [|split].
  - rewrite (Qsum_perm (Permutation_map snd Hperm)), group_by_name_total.
    apply joined_total. exact Hnd.
  - apply (Permutation_NoDup (Permutation_map fst (Permutation_sym Hperm))).
    apply group_by_name_NoDup.
  - assert (Hs : StronglySorted (fun a b => leb a b = true)
                   (@sort_values db_sort _ leb (group_by_name (joined db)))).
    { apply sort_values_sorted.
      - intros a b. unfold leb. rewrite !Qle_bool_iff.
        destruct (Qlt_le_dec (snd a) (snd b)); [right; lra|left; lra].
      - intros a b c. unfold leb. rewrite !Qle_bool_iff. lra. }
    eapply StronglySorted_impl; [|exact Hs].
    intros a b. unfold leb. rewrite Qle_bool_iff. auto.
Qed.

Definition two_regions : Database :=
  {| KPI_RESULTS := [ {| KPI_NAME := REVENUE_BY_REGION; KPI_VALUE := 10%Q; KPI_DATE := 1;
                         REGION_ID := Some 1 |};
                      {| KPI_NAME := REVENUE_BY_REGION; KPI_VALUE := 5%Q; KPI_DATE := 2;
                         REGION_ID := Some 2 |};
                      {| KPI_NAME := REVENUE_BY_REGION; KPI_VALUE := 7%Q; KPI_DATE := 2;
                         REGION_ID := Some 9 |};
                      {| KPI_NAME := MONTHLY_REVENUE_TREND; KPI_VALUE := 22%Q; KPI_DATE := 1;
                         REGION_ID := None |} ];
     REGIONS := [(1, "North"%string); (2, "South"%string)] |}.

Lemma region_section_conserves_witness :
  (Qsum (map snd (revenue_by_region_name stable_sorter two_regions)) == 15)%Q.
Proof.
  destruct (@region_section_conserves stable_sorter two_regions) as [E _].
  - repeat constructor; simpl; intuition discriminate.
  - rewrite E. reflexivity.
Defined.

(** *** The report and the page that shows it *)

Lemma length_append (a b : string) :
  String.length (String.append a b) = (String.length a + String.length b)%nat.
Proof. induction a as [|c a IH]; simpl; [reflexivity|]. rewrite IH. reflexivity. Qed.

Lemma substring_all (b : string) : String.substring 0 (String.length b) b = b.
Proof. induction b as [|c b IH]; simpl; [reflexivity|]. rewrite IH. reflexivity. Qed.

Lemma substring_append (a b : string) :
  String.substring (String.length a) (String.length b) (String.append a b) = b.
Proof. induction a as [|c a IH]; simpl; [apply substring_all|exact IH]. Qed.

Lemma prefix_append (a b : string) : String.prefix a (String.append a b) = true.
Proof.
  induction a as [|c a IH]; simpl; [destruct b; reflexivity|].
  destruct (ascii_dec c c); [exact IH|congruence].
Qed.

Lemma ends_with_append (a suffix : string) :
  ends_with suffix (String.append a suffix) = true.
Proof.
  unfold ends_with. rewrite length_append.
  replace (String.length a + String.length suffix - String.length suffix)%nat
    with (String.length a) by lia.
  rewrite substring_append, String.eqb_refl, andb_true_r.
  apply Nat.leb_le. lia.
Qed.

Lemma max_by_mtime_newest (f : File) (others : list File) (best : File) :
  (best = f \/ mtime best < mtime f) ->
  (forall g, In g others -> g = f \/ mtime g < mtime f) ->
  (best = f \/ In f others) ->
  max_by_mtime best others = f.
Proof.
  unfold max_by_mtime. revert best.
  induction others as [|g rest IH]; intros best Hbest Hall Hin; cbn [fold_left].
  - destruct Hin as [E|[]]. exact E.
  - apply IH.
    + destruct (Z.ltb_spec (mtime best) (mtime g)); [|exact Hbest].
      apply Hall. left. reflexivity.
    + intros x Hx. apply Hall. right. exact Hx.
    + destruct Hbest as [->|Hold].
      * destruct (Hall g (or_introl eq_refl)) as [->|Hg].
        -- rewrite Z.ltb_irrefl. left. reflexivity.
        -- destruct (Z.ltb_spec (mtime f) (mtime g)); [lia|left; reflexivity].
      * destruct Hin as [->|[->|Hin]]; [lia| |right; exact Hin].
        destruct (Z.ltb_spec (mtime best) (mtime f)); [left; reflexivity|lia].
Qed.

Lemma write_file_In (f : File) (dir : list File) : In f (write_file f dir).
Proof.
  unfold write_file.
  destruct (existsb (fun g => String.eqb (name g) (name f)) dir) eqn:E.
  - apply existsb_exists in E. destruct E as [g [Hg Eg]].
    apply in_map_iff. exists g. rewrite Eg. auto.
  - apply in_or_app. right. left. reflexivity.
Qed.

Lemma write_file_others (f g : File) (dir : list File) :
  In g (write_file f dir) -> g = f \/ (In g dir /\ name g <> name f).
Proof.
  unfold write_file.
  destruct (existsb (fun g => String.eqb (name g) (name f)) dir) eqn:E.
  - intros Hin. apply in_map_iff in Hin. destruct Hin as [x [Ex Hx]].
    destruct (String.eqb_spec (name x) (name f)) as [_|Hne]; [left; auto|].
    subst. right. auto.
  - intros Hin. apply in_app_or in Hin. destruct Hin as [Hin|[<-|[]]]; [|left; reflexivity].
    right. split; [exact Hin|]. intros En.
    assert (X : existsb (fun g => String.eqb (name g) (name f)) dir = true).
    { apply existsb_exists. exists g. split; [exact Hin|]. apply String.eqb_eq. exact En. }
    congruence.
Qed.

Section Clock.
Variable strftime : Z -> string.

Local Abbreviation report_file := (report_file strftime).
Local Abbreviation generate_text_report := (generate_text_report strftime).

Lemma report_file_matches (saved : Z) (text : list line) :
  glob_report {| name := report_file saved; mtime := saved; content := text |} = true.
Proof.
  unfold glob_report. cbn [name]. unfold ReportGenerator.report_file.
  apply andb_true_iff. split; [apply andb_true_iff; split|].
  - apply prefix_append.
  - change (String.append "report_" (String.append (strftime saved) ".txt"))
      with (String.append (String.append "report_" (strftime saved)) ".txt").
    + apply ends_with_append.
  - rewrite !length_append. apply Nat.leb_le. simpl. lia.
Qed.

(** X25.  A report that is returned was also saved, and the index page then
    shows exactly that report, provided the other report files of the
    directory are older than it: the round trip from [generate_text_report]
    through the summaries directory to [get_latest_report]. *)
Theorem latest_report_is_the_one_written (db_sort pd_sort : SortValues)
  (th : Thresholds) (now saved sysdate : Z) (db : outcome Database)
  (db1 db2 db3 : outcome (list KPIRow)) (dir dir' : list File) (text : list line) :
  generate_text_report db_sort pd_sort th now saved sysdate db db1 db2 db3 dir
  = (Return text, dir') ->
  (forall g, In g dir -> glob_report g = true -> name g <> report_file saved ->
             mtime g < saved) ->
  get_latest_report (Some dir') = ReportText text.
Proof.
  intros Hgen Hold. unfold ReportGenerator.generate_text_report in Hgen.
  destruct (bind db _) as [report_text|e]; [|discriminate].
  inversion Hgen; subst; clear Hgen.
  set (f := {| name := report_file saved; mtime := saved; content := text |}).
  unfold get_latest_report.
  assert (Hin : In f (filter glob_report (write_file f dir))).
  { apply filter_In. split; [apply write_file_In|apply report_file_matches]. }
  assert (Hall : forall g, In g (filter glob_report (write_file f dir)) ->
                           g = f \/ mtime g < mtime f).
  { intros g Hg. apply filter_In in Hg. destruct Hg as [Hg Hm].
    apply write_file_others in Hg. destruct Hg as [->|[Hg Hn]]; [left; reflexivity|].
    right. cbn [mtime f]. apply Hold; assumption. }
  destruct (filter glob_report (write_file f dir)) as [|first others]; [contradiction|].
  rewrite (@max_by_mtime_newest f others first).
  - reflexivity.
  - apply Hall. left. reflexivity.
  - intros g Hg. apply Hall. right. exact Hg.
  - destruct Hin as [->|Hin]; [left; reflexivity|right; exact Hin].
Qed.

(** X26.  A report that is returned has the five header lines, then the revenue
    lines, then the insights block ending in a summary that holds the
    monthly-trend line.  Among the revenue lines, the total is there exactly
    when the monthly rows have a nonzero sum, the average exactly when the
    daily averages have a nonzero mean (a total or an average of 0 is left
    out like a missing one), and the region lines are the rows of the region
    query. *)
Theorem text_report_shape (db_sort pd_sort : SortValues)
  (th : Thresholds) (now saved sysdate : Z) (db : outcome Database)
  (db1 db2 db3 : outcome (list KPIRow)) (dir dir' : list File) (text : list line) :
  generate_text_report db_sort pd_sort th now saved sysdate db db1 db2 db3 dir
  = (Return text, dir') ->
  exists d body insights trend,
    db = Return d
    /\ text = [Rule80; Title; Rule80; GeneratedOn now; Blank] ++ body
              ++ [Blank; Rule80; InsightsHeading; Rule80; Insights (Joined insights)]
    /\ In (MonthlyRevenue trend) insights
    /\ (forall v, In (TotalRevenue v) body <->
          sql_sum MONTHLY_REVENUE_TREND (KPI_RESULTS d) = Some v /\ ~ (v == 0)%Q)
    /\ (forall v, In (AverageTransactionValue v) body <->
          sql_avg AVG_TRANSACTION_VALUE (KPI_RESULTS d) = Some v /\ ~ (v == 0)%Q)
    /\ (forall n v, In (RegionRevenue n v) body <->
          In (n, v) (revenue_by_region_name db_sort d)).
Proof.
  intros Hgen. unfold ReportGenerator.generate_text_report in Hgen.
  destruct db as [d|e]; [|discriminate]. cbn [bind] in Hgen.
  destruct (generate_summary_insights db_sort pd_sort th sysdate db1 db2 db3)
    as [s|e] eqn:Hs; [|discriminate].
  destruct (summary_tables _ _ _ _ _ _ _ Hs) as (t1 & t2 & t3 & -> & -> & ->).
  destruct (summary_of_tables db_sort pd_sort th sysdate t1 t2 t3)
    as (trend & insights & _ & Hs' & Htrend).
  rewrite Hs' in Hs. inversion Hs; subst s. cbn [bind] in Hgen.
  inversion Hgen; subst; clear Hgen.
  exists d, (revenue_lines db_sort d), insights, trend.
  split; [reflexivity|]. split; [rewrite <- !app_assoc; reflexivity|].
  split; [exact Htrend|].
  assert (Htruthy : forall o v, truthy o = Some v <-> o = Some v /\ ~ (v == 0)%Q).
  { intros o v. unfold truthy. destruct o as [q|]; [|split; [discriminate|intros [X _]; discriminate]].
    destruct (Qeq_bool q 0) eqn:E.
    - apply Qeq_bool_iff in E. split; [discriminate|].
      intros [X Hne]. inversion X; subst. contradiction.
    - apply Qeq_bool_neq in E. split.
      + intros X. inversion X; subst. auto.
      + intros [X _]. exact X. }
  unfold revenue_lines.
  set (regions := revenue_by_region_name db_sort d).
  assert (Hregion : forall l, In l (match regions with
                                    | [] => []
                                    | r :: rs => Blank :: RegionHeading :: Rule40
                                        :: map (fun row => RegionRevenue (fst row) (snd row))
                                               (r :: rs)
                                    end) ->
                     l = Blank \/ l = RegionHeading \/ l = Rule40
                     \/ exists row, In row regions /\ l = RegionRevenue (fst row) (snd row)).
  { intros l Hl. destruct regions as [|r rs]; [contradiction|].
    destruct Hl as [<-|[<-|[<-|Hl]]]; auto.
    apply in_map_iff in Hl. destruct Hl as [row [<- Hrow]]. right. right. right.
    exists row. auto. }
  split; [|split].
  - intros v. rewrite <- Htruthy. split.
    + intros Hin. apply in_app_or in Hin. destruct Hin as [Hin|Hin].
      * destruct (truthy (sql_sum MONTHLY_REVENUE_TREND (KPI_RESULTS d)));
          [|contradiction].
        destruct Hin as [E|[]]. inversion E. reflexivity.
      * apply in_app_or in Hin. destruct Hin as [Hin|Hin].
        -- apply Hregion in Hin.
           destruct Hin as [E|[E|[E|[row [_ E]]]]]; discriminate E.
        -- destruct (truthy (sql_avg AVG_TRANSACTION_VALUE (KPI_RESULTS d)));
             [|contradiction].
           destruct Hin as [E|[E|[]]]; discriminate E.
    + intros ->. apply in_or_app. left. left. reflexivity.
  - intros v. rewrite <- Htruthy. split.
    + intros Hin. apply in_app_or in Hin. destruct Hin as [Hin|Hin].
      * destruct (truthy (sql_sum MONTHLY_REVENUE_TREND (KPI_RESULTS d)));
          [|contradiction].
        destruct Hin as [E|[]]. discriminate E.
      * apply in_app_or in Hin. destruct Hin as [Hin|Hin].
        -- apply Hregion in Hin.
           destruct Hin as [E|[E|[E|[row [_ E]]]]]; discriminate E.
        -- destruct (truthy (sql_avg AVG_TRANSACTION_VALUE (KPI_RESULTS d)));
             [|contradiction].
           destruct Hin as [E|[E|[]]]; [discriminate E|]. inversion E. reflexivity.
    + intros ->. apply in_or_app. right. apply in_or_app. right. right. left. reflexivity.
  - intros n v. split.
    + intros Hin. apply in_app_or in Hin. destruct Hin as [Hin|Hin].
      * destruct (truthy (sql_sum MONTHLY_REVENUE_TREND (KPI_RESULTS d)));
          [|contradiction].
        destruct Hin as [E|[]]. discriminate E.
      * apply in_app_or in Hin. destruct Hin as [Hin|Hin].
        -- apply Hregion in Hin.
           destruct Hin as [E|[E|[E|[row [Hrow E]]]]]; try discriminate E.
           inversion E; subst. destruct row. exact Hrow.
        -- destruct (truthy (sql_avg AVG_TRANSACTION_VALUE (KPI_RESULTS d)));
             [|contradiction].
           destruct Hin as [E|[E|[]]]; discriminate E.
    + intros Hin. apply in_or_app. right. apply in_or_app. left.
      destruct regions as [|r rs]; [contradiction|].
      right. right. right.
      apply in_map_iff. exists (n, v). split; [reflexivity|exact Hin].
Qed.

End Clock.

Definition day_stamp (t : Z) : string :=
  if t =? 7 then "20240107_000000" else "20240101_000000".

Definition older_reports : list File :=
  [ {| name := "report_20240101_000000.txt"; mtime := 1; content := [Title] |};
    {| name := "notes.txt"; mtime := 99; content := [] |} ].

(** The rows of [two_regions] as a query fetches them. *)
Definition fetched : list KPIRow :=
  [ {| KPI_NAME := REVENUE_BY_REGION; KPI_VALUE := 10%float; KPI_DATE := 1;
       REGION_ID := Some 1 |};
    {| KPI_NAME := REVENUE_BY_REGION; KPI_VALUE := 5%float; KPI_DATE := 2;
       REGION_ID := Some 2 |};
    {| KPI_NAME := REVENUE_BY_REGION; KPI_VALUE := 7%float; KPI_DATE := 2;
       REGION_ID := Some 9 |};
    {| KPI_NAME := MONTHLY_REVENUE_TREND; KPI_VALUE := 22%float; KPI_DATE := 1;
       REGION_ID := None |} ].

Lemma week_report :
  exists text dir',
    generate_text_report day_stamp stable_sorter stable_sorter no_thresholds 7 7 7
      (Return two_regions)
      (Return fetched) (Return fetched)
      (Return fetched) older_reports
    = (Return text, dir').
Proof. eexists. eexists. reflexivity. Defined.

Lemma latest_report_is_the_one_written_witness :
  exists text dir',
    generate_text_report day_stamp stable_sorter stable_sorter no_thresholds 7 7 7
      (Return two_regions)
      (Return fetched) (Return fetched)
      (Return fetched) older_reports
    = (Return text, dir')
    /\ get_latest_report (Some dir') = ReportText text.
Proof.
  destruct week_report as (text & dir' & E).
  exists text, dir'. split; [exact E|].
  apply (@latest_report_is_the_one_written day_stamp stable_sorter stable_sorter
           no_thresholds 7 7 7 _ _ _ _ older_reports dir' text E).
  intros g [<-|[<-|[]]]; simpl; intros; [lia|discriminate].
Defined.

Lemma text_report_shape_witness :
  exists text body,
    fst (generate_text_report day_stamp stable_sorter stable_sorter no_thresholds 7 7 7
           (Return two_regions)
           (Return fetched) (Return fetched)
           (Return fetched) older_reports)
    = Return text
    /\ In (TotalRevenue 22) body
    /\ exists rest, text = [Rule80; Title; Rule80; GeneratedOn 7; Blank] ++ body ++ rest.
Proof.
  destruct week_report as (text & dir' & E).
  destruct (@text_report_shape day_stamp stable_sorter stable_sorter no_thresholds
              7 7 7 _ _ _ _ older_reports dir' text E)
    as (d & body & insights & trend & Hd & Ht & _ & Htotal & _).
  exists text, body. split; [rewrite E; reflexivity|]. split.
  - apply Htotal. inversion Hd; subst d. split; [reflexivity|]. discriminate.
  - eexists. exact Ht.
Defined.

End ReportProperties.
